(** * Remote OCR parsers of paperless-ngx: a shallow embedding

    This development embeds the two remote OCR parsers of the repository,

    - [paperless_rest_ocr/parsers.py]  (class [RestOcrDocumentParser]) and
    - [paperless_remote/parsers.py]    (classes [RemoteEngineConfig] and
                                        [RemoteDocumentParser]),

    and proves properties of their request construction, failure handling,
    retry loop and response normalisation.

    Conventions.
    - A Python [str] is a Rocq [string]; a character is one of the 256
      [ascii] values, read as the code point of the same number.  [bytes]
      values are strings too, one character per byte.
    - Python integers are [Z].
    - A Python [dict] is an association list in insertion order.
    - Code that raises returns [Raise e]; code with effects (HTTP requests,
      sleeping, logging, file access, attribute assignment on [self]) is a
      function from a state to a result and a new state; the state records
      every effect, in order, in its trace. *)

From Stdlib Require Import ZArith List String Ascii Bool Lia.
From Stdlib Require Import DecimalString.
From Equations Require Import Equations.
Import ListNotations.

Local Open Scope string_scope.
Local Open Scope Z_scope.

(* ===================================================================== *)
(** * Python built-ins on strings *)
(* ===================================================================== *)

Module Py.

(** [str(n)] for an integer [n]: its decimal numeral. *)
Definition str_of_int (n : Z) : string :=
  NilZero.string_of_int (Z.to_int n).

(** Code point of a character. *)
Definition ord (c : ascii) : Z := Z.of_N (N_of_ascii c).

(** Character of a code point below 256. *)
Definition chr (n : Z) : ascii := ascii_of_N (Z.to_N n).

(** [c.lower()] for one character: A-Z, and the upper-case letters of the
    Latin-1 block (all of 0xC0-0xDE but the multiplication sign 0xD7). *)
Definition lower_char (c : ascii) : ascii :=
  let n := ord c in
  if ((65 <=? n) && (n <=? 90)) ||
     ((192 <=? n) && (n <=? 222) && negb (n =? 215))
  then chr (n + 32) else c.

(** [s.lower()]. *)
Fixpoint lower (s : string) : string :=
  match s with
  | EmptyString => EmptyString
  | String c r => String (lower_char c) (lower r)
  end.

(** [c.isspace()]: tab, line feed, vertical tab, form feed, carriage
    return, the separators 0x1C-0x1F, space, next line (0x85) and the
    no-break space (0xA0). *)
Definition isspace (c : ascii) : bool :=
  let n := ord c in
  ((9 <=? n) && (n <=? 13)) || ((28 <=? n) && (n <=? 32)) ||
  (n =? 133) || (n =? 160).

(** [s.lstrip()]. *)
Fixpoint lstrip (s : string) : string :=
  match s with
  | EmptyString => EmptyString
  | String c r => if isspace c then lstrip r else s
  end.

(** [s.rstrip()]. *)
Fixpoint rstrip (s : string) : string :=
  match s with
  | EmptyString => EmptyString
  | String c r =>
      match rstrip r with
      | EmptyString => if isspace c then EmptyString else String c EmptyString
      | r' => String c r'
      end
  end.

(** [s.strip()]. *)
Definition strip (s : string) : string := rstrip (lstrip s).

(** Every character of the string is white space. *)
Fixpoint all_space (s : string) : bool :=
  match s with
  | EmptyString => true
  | String c r => isspace c && all_space r
  end.

(** The first character of the string is white space. *)
Definition starts_with_space (s : string) : bool :=
  match s with
  | EmptyString => false
  | String c _ => isspace c
  end.

(** The last character of the string is white space. *)
Fixpoint ends_with_space (s : string) : bool :=
  match s with
  | EmptyString => false
  | String c EmptyString => isspace c
  | String _ r => ends_with_space r
  end.

(** [s.rstrip(ch)] for a one-character argument. *)
Fixpoint rstrip_char (ch : ascii) (s : string) : string :=
  match s with
  | EmptyString => EmptyString
  | String c r =>
      match rstrip_char ch r with
      | EmptyString =>
          if Ascii.eqb c ch then EmptyString else String c EmptyString
      | r' => String c r'
      end
  end.

(** [s.startswith(p)]. *)
Fixpoint startswith (p s : string) : bool :=
  match p, s with
  | EmptyString, _ => true
  | String a p', String b s' => Ascii.eqb a b && startswith p' s'
  | String _ _, EmptyString => false
  end.

(** [needle in hay] on strings: substring test. *)
Fixpoint contains (needle hay : string) : bool :=
  startswith needle hay ||
  match hay with
  | EmptyString => false
  | String _ r => contains needle r
  end.

(** [s[:n]]. *)
Fixpoint take (n : nat) (s : string) : string :=
  match n, s with
  | S k, String c r => String c (take k r)
  | _, _ => EmptyString
  end.

(** [sep.join(l)]. *)
Fixpoint join (sep : string) (l : list string) : string :=
  match l with
  | [] => EmptyString
  | [x] => x
  | x :: r => x ++ sep ++ join sep r
  end.

(** Does the character occur in the string? *)
Fixpoint has_char (ch : ascii) (s : string) : bool :=
  match s with
  | EmptyString => false
  | String c r => Ascii.eqb c ch || has_char ch r
  end.

Definition dquote : ascii := ascii_of_nat 34.
Definition squote : ascii := ascii_of_nat 39.
Definition backslash : ascii := ascii_of_nat 92.

Definition hex_digit (n : Z) : ascii :=
  if n <? 10 then chr (48 + n) else chr (87 + n).

(** One character inside [repr(s)], for the quote character [q] that
    [repr] chose. *)
Definition repr_char (q : ascii) (c : ascii) : string :=
  let n := ord c in
  if Ascii.eqb c backslash then String backslash (String backslash EmptyString)
  else if Ascii.eqb c q then String backslash (String q EmptyString)
  else if n =? 9 then String backslash "t"
  else if n =? 10 then String backslash "n"
  else if n =? 13 then String backslash "r"
  else if (n <? 32) || ((127 <=? n) && (n <=? 160)) || (n =? 173)
       then String backslash (String "x"%char
              (String (hex_digit (n / 16))
                 (String (hex_digit (n mod 16)) EmptyString)))
  else String c EmptyString.

Fixpoint repr_body (q : ascii) (s : string) : string :=
  match s with
  | EmptyString => EmptyString
  | String c r => repr_char q c ++ repr_body q r
  end.

(** [repr(s)] of a string: single quotes, unless the string has a single
    quote and no double quote. *)
Definition repr_str (s : string) : string :=
  let q := if has_char squote s && negb (has_char dquote s)
           then dquote else squote in
  String q (repr_body q s ++ String q EmptyString).

(** [repr(l)] / [str(l)] of a list of strings. *)
Definition repr_str_list (l : list string) : string :=
  "[" ++ join ", " (map repr_str l) ++ "]".

(** [s.encode()]: UTF-8; a code point from 128 to 255 takes two bytes. *)
Fixpoint encode (s : string) : string :=
  match s with
  | EmptyString => EmptyString
  | String c r =>
      let n := ord c in
      if n <? 128 then String c (encode r)
      else String (chr (192 + n / 64)) (String (chr (128 + n mod 64)) (encode r))
  end.

Definition b64_alphabet : string :=
  "ABCDEFGHIJKLMNOPQRSTUVWXYZabcdefghijklmnopqrstuvwxyz0123456789+/".

Definition b64_char (n : Z) : ascii :=
  match String.get (Z.to_nat n) b64_alphabet with
  | Some c => c
  | None => "="%char
  end.

(** [base64.b64encode(b).decode("utf-8")]. *)
Fixpoint b64encode (b : string) : string :=
  match b with
  | EmptyString => EmptyString
  | String x EmptyString =>
      let n := ord x * 65536 in
      String (b64_char (n / 262144))
        (String (b64_char (n / 4096 mod 64)) "==")
  | String x (String y EmptyString) =>
      let n := ord x * 65536 + ord y * 256 in
      String (b64_char (n / 262144))
        (String (b64_char (n / 4096 mod 64))
           (String (b64_char (n / 64 mod 64)) "="))
  | String x (String y (String z r)) =>
      let n := ord x * 65536 + ord y * 256 + ord z in
      String (b64_char (n / 262144))
        (String (b64_char (n / 4096 mod 64))
           (String (b64_char (n / 64 mod 64))
              (String (b64_char (n mod 64)) (b64encode r))))
  end.

End Py.

(* ===================================================================== *)
(** * Exceptions, results, dictionaries and JSON values *)
(* ===================================================================== *)

(** The exceptions the parsers raise: [documents.parsers.ParseError] with
    its message, and any other exception, with the name of its class and
    [str(e)]. *)
Inductive exn : Type :=
| ParseError (msg : string)
| PyExc (cls : string) (msg : string).

(** The outcome of code that may raise. *)
Inductive pyresult (A : Type) : Type :=
| Ok (a : A)
| Raise (e : exn).
Arguments Ok {A} a.
Arguments Raise {A} e.

Definition bind_result {A B} (r : pyresult A) (k : A -> pyresult B) : pyresult B :=
  match r with
  | Ok a => k a
  | Raise e => Raise e
  end.

Declare Scope result_scope.
Delimit Scope result_scope with result.
Notation "x <- r ;; k" := (bind_result r (fun x => k))
  (at level 100, r at next level, right associativity) : result_scope.

(** A [dict] with string keys: its items in insertion order. *)
Definition dict (V : Type) : Type := list (string * V).

Section Dict.
Context {V : Type}.

(** [k in d]. *)
Definition dict_contains (k : string) (d : dict V) : bool :=
  existsb (fun kv => String.eqb (fst kv) k) d.

(** [d.get(k)]. *)
Fixpoint dict_get (k : string) (d : dict V) : option V :=
  match d with
  | [] => None
  | (k', v) :: r => if String.eqb k' k then Some v else dict_get k r
  end.

(** [d[k] = v]: the value is replaced where the key already is, and
    the item is appended otherwise. *)
Fixpoint dict_set (k : string) (v : V) (d : dict V) : dict V :=
  match d with
  | [] => [(k, v)]
  | (k', v') :: r =>
      if String.eqb k' k then (k', v) :: r else (k', v') :: dict_set k v r
  end.

(** [d.update(other)]. *)
Definition dict_update (d other : dict V) : dict V :=
  fold_left (fun acc kv => dict_set (fst kv) (snd kv) acc) other d.

(** [list(d.keys())]. *)
Definition dict_keys (d : dict V) : list string := map fst d.

(** The keys of a dictionary are distinct. *)
Definition dict_wf (d : dict V) : Prop := NoDup (dict_keys d).
End Dict.

(** A decoded JSON document (numbers are integers). *)
#[warnings="-register-all"] Inductive json : Type :=
| JNull
| JBool (b : bool)
| JInt (n : Z)
| JStr (s : string)
| JList (l : list json)
| JDict (d : list (string * json)).

(** [type(v).__name__]. *)
Definition type_name (v : json) : string :=
  match v with
  | JNull => "NoneType"
  | JBool _ => "bool"
  | JInt _ => "int"
  | JStr _ => "str"
  | JList _ => "list"
  | JDict _ => "dict"
  end.

(** [repr(v)]; [str(v)] differs from it on a string only. *)
Fixpoint py_repr (v : json) : string :=
  match v with
  | JNull => "None"
  | JBool true => "True"
  | JBool false => "False"
  | JInt n => Py.str_of_int n
  | JStr s => Py.repr_str s
  | JList l => "[" ++ Py.join ", " (map py_repr l) ++ "]"
  | JDict d =>
      "{" ++ Py.join ", "
               (map (fun kv => Py.repr_str (fst kv) ++ ": " ++ py_repr (snd kv)) d)
          ++ "}"
  end.

(** [str(v)], as an f-string formats [v]. *)
Definition py_str (v : json) : string :=
  match v with
  | JStr s => s
  | _ => py_repr v
  end.

(** [not v] is [negb (truthy v)]. *)
Definition truthy (v : json) : bool :=
  match v with
  | JNull => false
  | JBool b => b
  | JInt n => negb (n =? 0)
  | JStr s => negb (String.eqb s EmptyString)
  | JList l => match l with [] => false | _ => true end
  | JDict d => match d with [] => false | _ => true end
  end.

(** Truth value of a setting that is [None] or a string. *)
Definition truthy_str (o : option string) : bool :=
  match o with
  | Some s => negb (String.eqb s EmptyString)
  | None => false
  end.

(** The string of a setting inside an f-string. *)
Definition fmt_str (o : option string) : string :=
  match o with
  | Some s => s
  | None => "None"
  end.

(** [k in v] for a string [k]: key of a dict, element of a list,
    substring of a string; a [TypeError] on the other values. *)
Definition py_in (k : string) (v : json) : pyresult bool :=
  match v with
  | JDict d => Ok (dict_contains k d)
  | JList l =>
      Ok (existsb (fun x => match x with JStr s => String.eqb s k | _ => false end) l)
  | JStr s => Ok (Py.contains k s)
  | _ => Raise (PyExc "TypeError"
                  ("argument of type '" ++ type_name v ++ "' is not iterable"))
  end.

(** [v[k]] for a string [k]. *)
Definition py_getitem (k : string) (v : json) : pyresult json :=
  match v with
  | JDict d =>
      match dict_get k d with
      | Some x => Ok x
      | None => Raise (PyExc "KeyError" (Py.repr_str k))
      end
  | JList _ => Raise (PyExc "TypeError"
                 "list indices must be integers or slices, not str")
  | JStr _ => Raise (PyExc "TypeError" "string indices must be integers, not 'str'")
  | _ => Raise (PyExc "TypeError"
                  ("'" ++ type_name v ++ "' object is not subscriptable"))
  end.

(** [list(v.keys())]. *)
Definition py_keys (v : json) : pyresult (list string) :=
  match v with
  | JDict d => Ok (dict_keys d)
  | _ => Raise (PyExc "AttributeError"
                  ("'" ++ type_name v ++ "' object has no attribute 'keys'"))
  end.

(** The levels of the log calls. *)
Inductive log_level : Type := Debug | Info | Warning | Error.

(** [str(e)] of an exception. *)
Definition exn_str (e : exn) : string :=
  match e with
  | ParseError msg => msg
  | PyExc _ msg => msg
  end.

(* ===================================================================== *)
(** * The generic REST backend: [paperless_rest_ocr/parsers.py] *)
(* ===================================================================== *)

Module RestOcr.

(** [paperless.config.RestOcrConfig], with the attributes that the parser
    reads from [self.settings]. *)
Record RestOcrConfig : Type := {
  api_endpoint : option string;
  api_key : option string;
  auth_token : option string;
  auth_method : string;
  timeout : Z;
  retry_count : Z;
  verify_ssl : bool;
  language : option string;
  custom_headers : option (dict string)
}.

(** The arguments of one [requests.post] call. *)
Record request : Type := {
  url : string;
  json_body : json;
  headers : dict string;
  req_timeout : Z;
  verify : bool
}.

(** The effects of the parser.  [Post a r] is the call of [requests.post]
    with arguments [r], issued by [make_api_request] with [attempt = a]. *)
Inductive event : Type :=
| Log (level : log_level) (msg : string)
| ReadFile (path : string)
| Post (attempt : Z) (req : request)
| Sleep (seconds : Z).

(** What the [try] block of [make_api_request] meets after it has called
    [requests.post]: one of the exceptions of the three handlers, another
    exception, or a response that [raise_for_status] accepts, with the
    result of [response.json()] ([None] when it raises
    [json.JSONDecodeError]) and [response.text]. *)
Inductive outcome : Type :=
| Timeout (e : string)
| HTTPError (status_code : Z) (text : string)
| RequestException (e : string)
| OtherException (cls : string) (msg : string)
| Response (body : option json) (text : string).

(** The environment of a run: the file system, and the answer of the
    server to the [n]-th request of the run (counted from 0). *)
Record world : Type := {
  file_bytes : string -> pyresult string;
  transport : nat -> request -> outcome
}.

(** The parser object: the attributes that [parse] assigns, and the
    effects so far, oldest first. *)
Record parser : Type := {
  trace : list event;
  text : option string;
  archive_path : option string
}.

Definition new_parser : parser :=
  {| trace := []; text := None; archive_path := None |}.

(** Effectful code: from the parser before to a result and the parser
    after. *)
Definition M (A : Type) : Type := parser -> pyresult A * parser.

Definition ret {A} (a : A) : M A := fun st => (Ok a, st).

Definition raise {A} (e : exn) : M A := fun st => (Raise e, st).

Definition bind {A B} (m : M A) (k : A -> M B) : M B :=
  fun st =>
    match m st with
    | (Ok a, st') => k a st'
    | (Raise e, st') => (Raise e, st')
    end.

Definition lift {A} (r : pyresult A) : M A := fun st => (r, st).

Declare Scope rest_scope.
Delimit Scope rest_scope with rest.
Notation "x <- m ;; k" := (bind m (fun x => k))
  (at level 100, m at next level, right associativity) : rest_scope.

Definition emit (e : event) : M unit :=
  fun st => (Ok tt, {| trace := trace st ++ [e];
                       text := text st;
                       archive_path := archive_path st |}).

Definition log (l : log_level) (msg : string) : M unit := emit (Log l msg).

Definition set_text (t : string) : M unit :=
  fun st => (Ok tt, {| trace := trace st;
                       text := Some t;
                       archive_path := archive_path st |}).

Definition set_archive_path (p : option string) : M unit :=
  fun st => (Ok tt, {| trace := trace st;
                       text := text st;
                       archive_path := p |}).

Definition is_post (e : event) : bool :=
  match e with Post _ _ => true | _ => false end.

Definition is_sleep (e : event) : bool :=
  match e with Sleep _ => true | _ => false end.

(** The number of requests sent so far. *)
Definition requests_sent (st : parser) : nat :=
  List.length (filter is_post (trace st)).

Section Parser.
Variable settings : RestOcrConfig.
Variable w : world.

Definition opt_json (o : option string) : json :=
  match o with
  | Some s => JStr s
  | None => JNull
  end.

(** The payload of [construct_request_payload] for the bytes of the
    document. *)
Definition payload_of (document_bytes mime_type : string) : json :=
  let document_b64 := Py.b64encode document_bytes in
  JDict [("document", JStr document_b64);
         ("mime_type", JStr mime_type);
         ("language", opt_json (language settings));
         ("options", JDict [])].

(** [construct_request_payload] *)
Definition construct_request_payload (document_path mime_type : string)
  : M json :=
  (_ <- emit (ReadFile document_path) ;;
   document_bytes <- lift (file_bytes w document_path) ;;
   ret (payload_of document_bytes mime_type))%rest.

(** [construct_request_headers] *)
Definition construct_request_headers : dict string :=
  let headers := [("Content-Type", "application/json")] in
  let auth_method := Py.lower (auth_method settings) in
  let headers :=
    if String.eqb auth_method "bearer" && truthy_str (auth_token settings)
    then dict_set "Authorization"
           ("Bearer " ++ fmt_str (auth_token settings)) headers
    else if String.eqb auth_method "api_key" && truthy_str (api_key settings)
    then dict_set "X-API-Key" (fmt_str (api_key settings)) headers
    else if String.eqb auth_method "basic" && truthy_str (api_key settings)
    then
      let credentials := Py.encode (fmt_str (api_key settings) ++ ":") in
      let encoded := Py.b64encode credentials in
      dict_set "Authorization" ("Basic " ++ encoded) headers
    else headers in
  match custom_headers settings with
  | Some (kv :: more) => dict_update headers (kv :: more)
  | _ => headers
  end.

(** [extract_text_from_response] *)
Definition extract_text_from_response (response_data : json) : pyresult json :=
  (has_text <- py_in "text" response_data ;;
   if has_text : bool then py_getitem "text" response_data else
   has_content <- py_in "content" response_data ;;
   if has_content : bool then py_getitem "content" response_data else
   has_ocr_text <- py_in "ocr_text" response_data ;;
   if has_ocr_text : bool then py_getitem "ocr_text" response_data else
   has_result <- py_in "result" response_data ;;
   let no_match :=
     keys <- py_keys response_data ;;
     Raise (ParseError
              ("Could not extract text from REST OCR response. " ++
               "Response keys: " ++ Py.repr_str_list keys)) in
   if has_result : bool then
     result <- py_getitem "result" response_data ;;
     match result with
     | JStr _ => Ok result
     | JDict r => if dict_contains "text" r then py_getitem "text" result
                  else no_match
     | _ => no_match
     end
   else no_match)%result.

(** The state after an effect that cannot raise. *)
Definition after (m : M unit) (st : parser) : parser := snd (m st).

Definition endpoint_missing_message : string :=
  "REST OCR endpoint is not configured. " ++
  "Set PAPERLESS_REST_OCR_ENDPOINT environment variable.".

Definition timeout_message : string :=
  "REST OCR request timed out after " ++
  Py.str_of_int (timeout settings) ++ " seconds".

Definition http_error_message (status_code : Z) (text : string) : string :=
  let error_msg :=
    "REST OCR API returned HTTP error: " ++ Py.str_of_int status_code in
  if negb (String.eqb text EmptyString)
  then error_msg ++ " - " ++ Py.take 200 text
  else error_msg.

Definition request_failed_message (e : string) : string :=
  "REST OCR request failed: " ++ e.

Definition all_attempts_failed (attempt : Z) : string :=
  ". All " ++ Py.str_of_int attempt ++ " attempts failed.".

Definition debug_message (attempt : Z) : string :=
  "Making REST OCR request to " ++ fmt_str (api_endpoint settings) ++
  " (attempt " ++ Py.str_of_int attempt ++ "/" ++
  Py.str_of_int (retry_count settings) ++ ")".

Definition retrying_message (wait_time : Z) : string :=
  "Retrying in " ++ Py.str_of_int wait_time ++ " seconds...".

(** The request that [make_api_request] sends for a payload. *)
Definition build_request (payload : json) : request :=
  {| url := fmt_str (api_endpoint settings);
     json_body := payload;
     headers := construct_request_headers;
     req_timeout := timeout settings;
     verify := verify_ssl settings |}.

(** [make_api_request].  The recursion of the source, on [attempt + 1]
    under the test [attempt < retry_count], is well founded on
    [retry_count - attempt]. *)
Equations? make_api_request (document_path mime_type : string)
  (attempt : Z) (st : parser) : pyresult json * parser
  by wf (Z.to_nat (retry_count settings - attempt)) lt :=
make_api_request document_path mime_type attempt st :=
  if negb (truthy_str (api_endpoint settings))
  then raise (ParseError endpoint_missing_message) st
  else
    match construct_request_payload document_path mime_type st with
    | (Raise e, st1) => (Raise e, st1)
    | (Ok payload, st1) =>
      let req := build_request payload in
      let st2 := after (log Debug (debug_message attempt)) st1 in
      let st3 := after (emit (Post attempt req)) st2 in
      match transport w (requests_sent st2) req with
      | Response (Some body) _ => (Ok body, st3)
      | Response None text => (Ok (JDict [("text", JStr text)]), st3)
      | Timeout e =>
        let error_msg := timeout_message in
        let st4 := after (log Warning (error_msg ++ ": " ++ e)) st3 in
        match Z_lt_dec attempt (retry_count settings) with
        | left _ =>
          let wait_time := attempt * 2 in
          let st5 := after (log Info (retrying_message wait_time)) st4 in
          let st6 := after (emit (Sleep wait_time)) st5 in
          make_api_request document_path mime_type (attempt + 1) st6
        | right _ =>
          (Raise (ParseError (error_msg ++ all_attempts_failed attempt)), st4)
        end
      | HTTPError status_code text =>
        let error_msg := http_error_message status_code text in
        let st4 := after (log Warning error_msg) st3 in
        match Z_lt_dec attempt (retry_count settings) with
        | left _ =>
          if 500 <=? status_code then
            let wait_time := attempt * 2 in
            let st5 := after (log Info (retrying_message wait_time)) st4 in
            let st6 := after (emit (Sleep wait_time)) st5 in
            make_api_request document_path mime_type (attempt + 1) st6
          else (Raise (ParseError error_msg), st4)
        | right _ => (Raise (ParseError error_msg), st4)
        end
      | RequestException e =>
        let error_msg := request_failed_message e in
        let st4 := after (log Warning error_msg) st3 in
        match Z_lt_dec attempt (retry_count settings) with
        | left _ =>
          let wait_time := attempt * 2 in
          let st5 := after (log Info (retrying_message wait_time)) st4 in
          let st6 := after (emit (Sleep wait_time)) st5 in
          make_api_request document_path mime_type (attempt + 1) st6
        | right _ =>
          (Raise (ParseError (error_msg ++ all_attempts_failed attempt)), st4)
        end
      | OtherException cls msg => (Raise (PyExc cls msg), st3)
      end
    end.
Proof.
  all: lia.
Qed.

(** [text.strip()] for a value of the response: only a string has the
    method. *)
Definition py_strip (text : json) : pyresult string :=
  match text with
  | JStr s => Ok (Py.strip s)
  | _ => Raise (PyExc "AttributeError"
                  ("'" ++ type_name text ++
                   "' object has no attribute 'strip'"))
  end.

(** The test [not text or len(text.strip()) == 0] of [parse]. *)
Definition text_is_empty (text : json) : pyresult bool :=
  if negb (truthy text) then Ok true
  else (stripped <- py_strip text ;;
        Ok (Z.of_nat (String.length stripped) =? 0))%result.

(** The [try] block of [parse]. *)
Definition parse_body (document_path mime_type : string) : M unit :=
  (response_data <- make_api_request document_path mime_type 1 ;;
   text <- lift (extract_text_from_response response_data) ;;
   empty <- lift (text_is_empty text) ;;
   _ <- (if empty : bool
         then (_ <- log Warning "REST OCR returned empty text" ;;
               set_text EmptyString)
         else (stripped <- lift (py_strip text) ;;
               _ <- set_text stripped ;;
               log Info ("Successfully extracted " ++
                         Py.str_of_int (Z.of_nat (String.length stripped)) ++
                         " characters via REST OCR"))) ;;
   if String.eqb mime_type "application/pdf"
   then set_archive_path None
   else set_archive_path None)%rest.

(** [parse]: a [ParseError] is raised again as it is, any other exception
    becomes a [ParseError] that names its class. *)
Definition parse (document_path mime_type : string) : M unit :=
  fun st =>
    let st0 :=
      after (log Info ("Starting REST OCR parsing for " ++ document_path)) st in
    match parse_body document_path mime_type st0 with
    | (Ok tt, st1) => (Ok tt, st1)
    | (Raise (ParseError msg), st1) => (Raise (ParseError msg), st1)
    | (Raise (PyExc cls msg), st1) =>
        (Raise (ParseError
                  ("Unexpected error during REST OCR parsing: " ++
                   cls ++ ": " ++ msg)), st1)
    end.

End Parser.

(** ** The retry loop as a relation

    [run a st (r, st')]: the call of [make_api_request] with
    [attempt = a] on the parser [st] ends with the result [r] and the
    parser [st'].  One rule per way through the function. *)

Definition add_events (st : parser) (l : list event) : parser :=
  {| trace := trace st ++ l;
     text := text st;
     archive_path := archive_path st |}.

Section Run.
Variable settings : RestOcrConfig.
Variable w : world.
Variable document_path mime_type : string.

(** The events of one attempt up to its request. *)
Definition request_events (a : Z) (req : request) : list event :=
  [ReadFile document_path; Log Debug (debug_message settings a); Post a req].

(** The warning that the handler of an exception logs. *)
Definition warning_of (o : outcome) : list event :=
  match o with
  | Timeout e => [Log Warning (timeout_message settings ++ ": " ++ e)]
  | HTTPError c t => [Log Warning (http_error_message c t)]
  | RequestException e => [Log Warning (request_failed_message e)]
  | _ => []
  end.

(** The failures after which the handlers try again while attempts are
    left: a timeout, an HTTP error with a status of 500 or more, another
    exception of the requests library. *)
Definition retryable (o : outcome) : bool :=
  match o with
  | Timeout _ => true
  | HTTPError c _ => 500 <=? c
  | RequestException _ => true
  | _ => false
  end.

(** The result of the call whose attempt [a] is the last one. *)
Definition terminal_result (a : Z) (o : outcome) : pyresult json :=
  match o with
  | Response (Some body) _ => Ok body
  | Response None text => Ok (JDict [("text", JStr text)])
  | Timeout e =>
      Raise (ParseError (timeout_message settings ++ all_attempts_failed a))
  | HTTPError c t => Raise (ParseError (http_error_message c t))
  | RequestException e =>
      Raise (ParseError (request_failed_message e ++ all_attempts_failed a))
  | OtherException cls msg => Raise (PyExc cls msg)
  end.

(** The events between a failed attempt and the next one. *)
Definition backoff_events (a : Z) : list event :=
  [Log Info (retrying_message (a * 2)); Sleep (a * 2)].

Inductive run : Z -> parser -> pyresult json * parser -> Prop :=
| run_unconfigured a st :
    truthy_str (api_endpoint settings) = false ->
    run a st (Raise (ParseError endpoint_missing_message), st)
| run_unreadable a st e :
    truthy_str (api_endpoint settings) = true ->
    file_bytes w document_path = Raise e ->
    run a st (Raise e, add_events st [ReadFile document_path])
| run_terminal a st b o :
    truthy_str (api_endpoint settings) = true ->
    file_bytes w document_path = Ok b ->
    let req := build_request settings (payload_of settings b mime_type) in
    transport w (requests_sent st) req = o ->
    retryable o = false \/ retry_count settings <= a ->
    run a st (terminal_result a o,
              add_events st (request_events a req ++ warning_of o))
| run_retry a st b o res :
    truthy_str (api_endpoint settings) = true ->
    file_bytes w document_path = Ok b ->
    let req := build_request settings (payload_of settings b mime_type) in
    transport w (requests_sent st) req = o ->
    retryable o = true ->
    a < retry_count settings ->
    run (a + 1)
        (add_events st (request_events a req ++ warning_of o ++ backoff_events a))
        res ->
    run a st res.

End Run.

(** The attempt numbers of the requests in a list of events. *)
Definition attempts_of (l : list event) : list Z :=
  flat_map (fun e => match e with Post a _ => [a] | _ => [] end) l.

(** The integers [a], [a + 1], ..., [a + n - 1]. *)
Fixpoint Zseq (a : Z) (n : nat) : list Z :=
  match n with
  | O => []
  | S k => a :: Zseq (a + 1) k
  end.

(** ** The specification's rules, for comparison with the code *)




(** The rule of the specification for the key [result]. *)
Definition lookup_result (d : dict json) : option json :=
  match dict_get "result" d with
  | Some (JStr s) => Some (JStr s)
  | Some (JDict r) => dict_get "text" r
  | _ => None
  end.

(** The lookups of the specification, in its order. *)
Definition lookups (d : dict json) : list (option json) :=
  [dict_get "text" d; dict_get "content" d; dict_get "ocr_text" d;
   lookup_result d].

Fixpoint first_match (l : list (option json)) : option json :=
  match l with
  | [] => None
  | Some v :: _ => Some v
  | None :: r => first_match r
  end.

(** The response normaliser of the specification: the first lookup that
    matches, or an error that lists the keys of the body. *)
Definition extract_text_spec (d : dict json) : pyresult json :=
  match first_match (lookups d) with
  | Some v => Ok v
  | None =>
      Raise (ParseError
               ("Could not extract text from REST OCR response. " ++
                "Response keys: " ++ Py.repr_str_list (dict_keys d)))
  end.

End RestOcr.

(* ===================================================================== *)
(** * The provider backends: [paperless_remote/parsers.py] *)
(* ===================================================================== *)

Module Remote.

(** [RemoteEngineConfig] *)
Record RemoteEngineConfig : Type := {
  engine : option string;
  api_key : option string;
  endpoint : option string
}.

(** [RemoteEngineConfig.engine_is_valid] *)
Definition engine_is_valid (self : RemoteEngineConfig) : bool :=
  match engine self with
  | Some e => existsb (String.eqb e) ["azureai"; "ocrbridge-ocrmac"]
  | None => false
  end
  && truthy_str (api_key self)
  && truthy_str (endpoint self).

(** A setting is empty: [None] or the empty string. *)
Definition empty_setting (o : option string) : Prop :=
  o = None \/ o = Some EmptyString.

(** The arguments of the [client.post] call of the bridge backend.  The
    value of the [X-API-Key] header is the configured key as it is, a
    string or [None]. *)
Record bridge_request : Type := {
  url : string;
  headers : dict (option string);
  file_name : string;
  file_content : string;
  file_mime_type : string;
  data : dict string;
  client_timeout : Z
}.

(** The effects of the parser.  [AzureAnalyze], [AzureResultPdf] and
    [HttpxPost] are the calls that go to the network.  [OpenFile] opens the
    document for reading, [OpenForWriting] opens the archive file of the
    document analysis backend for writing, before the searchable PDF is
    requested. *)
Inductive event : Type :=
| Log (level : log_level) (msg : string)
| OpenFile (path : string)
| AzureAnalyze (endpoint api_key document : string)
| OpenForWriting (path : string)
| AzureResultPdf (result_id : string)
| AzureClose
| HttpxPost (req : bridge_request)
| WriteBytes (path content : string)
| ExtractText (sidecar_file pdf_file : string).

(** What follows [client.post] in the bridge backend: an exception of the
    call; a response that [raise_for_status] rejects, with its status code
    and the result of [e.response.json()] ([None] when it raises
    [ValueError]); or a response that [raise_for_status] accepts, with its
    [content-type] header, when it has one, and its content. *)
Inductive bridge_outcome : Type :=
| PostRaises (cls : string) (msg : string)
| StatusError (status_code : Z) (payload : option json)
| Accepted (content_type : option string) (content : string).

(** The environment of a run: the file system ([file_bytes] reads a
    document, [open_for_writing] opens a file for writing, [write_bytes]
    writes to it), the document analysis service (from the bytes of a
    document to the operation id and the text of the analysis, and from an
    operation id to the searchable PDF), the bridge server, and
    [extract_text] of [RasterisedDocumentParser], applied to the PDF that
    was written. *)
Record world : Type := {
  file_bytes : string -> pyresult string;
  azure_analyze : string -> pyresult (string * string);
  azure_result_pdf : string -> pyresult string;
  httpx_post : bridge_request -> bridge_outcome;
  open_for_writing : string -> pyresult unit;
  write_bytes : string -> string -> pyresult unit;
  extract_text : string -> pyresult (option string);
  CELERY_TASK_TIME_LIMIT : Z
}.

(** The parser object; [text = None] is the Python [None]. *)
Record parser : Type := {
  trace : list event;
  text : option string;
  archive_path : option string
}.

Definition new_parser : parser :=
  {| trace := []; text := None; archive_path := None |}.

Definition M (A : Type) : Type := parser -> pyresult A * parser.

Definition ret {A} (a : A) : M A := fun st => (Ok a, st).

Definition raise {A} (e : exn) : M A := fun st => (Raise e, st).

Definition bind {A B} (m : M A) (k : A -> M B) : M B :=
  fun st =>
    match m st with
    | (Ok a, st') => k a st'
    | (Raise e, st') => (Raise e, st')
    end.

Definition lift {A} (r : pyresult A) : M A := fun st => (r, st).

Declare Scope remote_scope.
Delimit Scope remote_scope with remote.
Notation "x <- m ;; k" := (bind m (fun x => k))
  (at level 100, m at next level, right associativity) : remote_scope.

Definition emit (e : event) : M unit :=
  fun st => (Ok tt, {| trace := trace st ++ [e];
                       text := text st;
                       archive_path := archive_path st |}).

Definition log (l : log_level) (msg : string) : M unit := emit (Log l msg).

Definition set_text (t : option string) : M unit :=
  fun st => (Ok tt, {| trace := trace st;
                       text := t;
                       archive_path := archive_path st |}).

Definition set_archive_path (p : option string) : M unit :=
  fun st => (Ok tt, {| trace := trace st;
                       text := text st;
                       archive_path := p |}).

Definition after (m : M unit) (st : parser) : parser := snd (m st).

(** The calls that reach the network. *)
Definition is_network (e : event) : bool :=
  match e with
  | AzureAnalyze _ _ _ | AzureResultPdf _ | HttpxPost _ => true
  | _ => false
  end.

(** [Path.name]: what follows the last slash. *)
Fixpoint path_name (p : string) : string :=
  match p with
  | EmptyString => EmptyString
  | String c r =>
      if Py.has_char "/"%char r then path_name r
      else if Ascii.eqb c "/"%char then r else p
  end.

Section Parser.
Variable settings : RemoteEngineConfig.
Variable w : world.
Variable tempdir : string.

(** The steps of [azure_ai_vision_parse] inside its [try].  The archive
    file is opened for writing before the searchable PDF is requested:
    when it cannot be opened, the PDF is not requested. *)
Definition azure_ai_vision_request (file : string) : M string :=
  (_ <- emit (OpenFile file) ;;
   document <- lift (file_bytes w file) ;;
   _ <- emit (AzureAnalyze (fmt_str (endpoint settings))
                (fmt_str (api_key settings)) document) ;;
   analysis <- lift (azure_analyze w document) ;;
   let result_id := fst analysis in
   let content := snd analysis in
   let pdf_file := tempdir ++ "/archive.pdf" in
   _ <- set_archive_path (Some pdf_file) ;;
   _ <- emit (OpenForWriting pdf_file) ;;
   _ <- lift (open_for_writing w pdf_file) ;;
   _ <- emit (AzureResultPdf result_id) ;;
   pdf <- lift (azure_result_pdf w result_id) ;;
   _ <- emit (WriteBytes pdf_file pdf) ;;
   _ <- lift (write_bytes w pdf_file pdf) ;;
   ret content)%remote.

(** [azure_ai_vision_parse]: the text of the analysis, or [None] after
    any exception, which is logged; the client is closed on both paths.
    The client of the service is constructed before the [try], by the
    library of the service; the call is modelled from the point where the
    client exists. *)
Definition azure_ai_vision_parse (file : string) : M (option string) :=
  fun st =>
    match azure_ai_vision_request file st with
    | (Ok content, st1) => (Ok (Some content), after (emit AzureClose) st1)
    | (Raise e, st1) =>
        let st2 :=
          after (log Error ("Azure AI Vision parsing failed: " ++ exn_str e))
            st1 in
        (Ok None, after (emit AzureClose) st2)
    end.

Definition status_error_message (status_code : Z) (payload : option json)
  : string :=
  let detail :=
    match payload with
    | Some (JDict d) =>
        match dict_get "detail" d with Some v => v | None => JNull end
    | _ => JNull
    end in
  let error_code :=
    match payload with
    | Some (JDict d) =>
        match dict_get "error_code" d with Some v => v | None => JNull end
    | _ => JNull
    end in
  let message :=
    "OCRBridge OCRMac parsing failed: HTTP " ++ Py.str_of_int status_code in
  let message :=
    if truthy detail then message ++ " - " ++ py_str detail else message in
  if truthy error_code
  then message ++ " (error_code: " ++ py_str error_code ++ ")"
  else message.

Definition expected_pdf_message (content_type : string) : string :=
  "OCRBridge OCRMac parsing failed: expected PDF response, got " ++
  (if String.eqb content_type EmptyString
   then "unknown content type" else content_type).

Definition no_text_message : string :=
  "OCRBridge OCRMac parsing failed: unable to extract text from PDF response".

(** The exception of [self.settings.endpoint.rstrip] when the endpoint is
    [None]. *)
Definition endpoint_error : exn :=
  PyExc "AttributeError" "'NoneType' object has no attribute 'rstrip'".

(** The first statement of [ocrbridge_ocrmac_parse], before its [try]:
    the address of the request, for an endpoint that is a string. *)
Definition request_url : pyresult string :=
  match endpoint settings with
  | Some e => Ok (Py.rstrip_char "/"%char e ++ "/v2/ocr/ocrmac/process")
  | None => Raise endpoint_error
  end.

(** The request of the bridge backend for a document.  It is built inside
    the [try], which is entered with a string endpoint only; the address
    is empty here where there is none. *)
Definition build_request (file mime_type document : string) : bridge_request :=
  {| url := match request_url with Ok u => u | Raise _ => EmptyString end;
     headers := [("X-API-Key", api_key settings)];
     file_name := path_name file;
     file_content := document;
     file_mime_type := mime_type;
     data := [("output_format", "pdf")];
     client_timeout := CELERY_TASK_TIME_LIMIT w |}.

(** The [try] block of [ocrbridge_ocrmac_parse]. *)
Definition ocrbridge_ocrmac_request (file mime_type : string) : M string :=
  (_ <- emit (OpenFile file) ;;
   document <- lift (file_bytes w file) ;;
   let req := build_request file mime_type document in
   _ <- emit (HttpxPost req) ;;
   match httpx_post w req with
   | PostRaises cls msg => raise (PyExc cls msg)
   | StatusError status_code payload =>
       let message := status_error_message status_code payload in
       _ <- log Error message ;;
       raise (ParseError message)
   | Accepted header content =>
       let content_type :=
         Py.lower (match header with Some h => h | None => EmptyString end) in
       if negb (Py.contains "application/pdf" content_type)
       then
         let message := expected_pdf_message content_type in
         _ <- log Error message ;;
         raise (ParseError message)
       else
         let pdf_file := tempdir ++ "/archive.pdf" in
         _ <- set_archive_path (Some pdf_file) ;;
         _ <- emit (WriteBytes pdf_file content) ;;
         _ <- lift (write_bytes w pdf_file content) ;;
         let sidecar_file := tempdir ++ "/sidecar.txt" in
         _ <- emit (ExtractText sidecar_file pdf_file) ;;
         text <- lift (extract_text w content) ;;
         match text with
         | None =>
             let message := no_text_message in
             _ <- log Error message ;;
             raise (ParseError message)
         | Some t => ret t
         end
   end)%remote.

(** [ocrbridge_ocrmac_parse].  The address is computed before the
    [try]: with the endpoint [None] the [AttributeError] leaves the call as
    it is, and nothing else happens.  Inside the [try] a [ParseError] is
    raised again as it is, any other exception is logged and becomes a
    [ParseError]. *)
Definition ocrbridge_ocrmac_parse (file mime_type : string) : M string :=
  fun st =>
    match request_url with
    | Raise e => (Raise e, st)
    | Ok _ =>
        match ocrbridge_ocrmac_request file mime_type st with
        | (Ok t, st1) => (Ok t, st1)
        | (Raise (ParseError msg), st1) => (Raise (ParseError msg), st1)
        | (Raise (PyExc cls msg), st1) =>
            let message := "OCRBridge OCRMac parsing failed: " ++ msg in
            (Raise (ParseError message), after (log Error message) st1)
        end
    end.

(** The exception that leaves [ocrbridge_ocrmac_parse] when [e] is raised
    inside its [try]. *)
Definition reraised (e : exn) : exn :=
  match e with
  | ParseError msg => ParseError msg
  | PyExc _ msg => ParseError ("OCRBridge OCRMac parsing failed: " ++ msg)
  end.

Definition engine_is (name : string) : bool :=
  match engine settings with
  | Some e => String.eqb e name
  | None => false
  end.

(** [parse] *)
Definition parse (document_path mime_type : string) : M unit :=
  (if negb (engine_is_valid settings) then
     _ <- log Warning
            "No valid remote parser engine is configured, content will be empty." ;;
     set_text (Some EmptyString)
   else if engine_is "azureai" then
     t <- azure_ai_vision_parse document_path ;;
     set_text t
   else if engine_is "ocrbridge-ocrmac" then
     t <- ocrbridge_ocrmac_parse document_path mime_type ;;
     set_text (Some t)
   else ret tt)%remote.

End Parser.

End Remote.

(* ===================================================================== *)
(** * Sample configurations and environments *)
(* ===================================================================== *)

Module Samples.
Import RestOcr.

Definition settings_with (endpoint : option string) (retries : Z)
  : RestOcrConfig :=
  {| api_endpoint := endpoint;
     api_key := Some "test-api-key";
     auth_token := Some "test-bearer-token";
     auth_method := "api_key";
     timeout := 30;
     retry_count := retries;
     verify_ssl := true;
     language := Some "eng";
     custom_headers := None |}.

(** A configured endpoint, with the given retry count. *)
Definition configured (retries : Z) : RestOcrConfig :=
  settings_with (Some "http://localhost:8080/ocr") retries.

(** The empty endpoint. *)
Definition unconfigured : RestOcrConfig :=
  settings_with (Some EmptyString) 3.


(** Basic authentication with the key as the user name. *)
Definition basic_auth : RestOcrConfig :=
  {| api_endpoint := Some "http://localhost:8080/ocr";
     api_key := Some "user";
     auth_token := Some "test-bearer-token";
     auth_method := "basic";
     timeout := 30;
     retry_count := 3;
     verify_ssl := true;
     language := Some "eng";
     custom_headers := None |}.

(** A server that answers every request in the same way; the document is
    readable. *)
Definition always (o : outcome) : world :=
  {| file_bytes := fun _ => Ok "Test document";
     transport := fun _ _ => o |}.

(** A server that fails once with status 500 and then answers. *)
Definition recovers : world :=
  {| file_bytes := fun _ => Ok "Test document";
     transport := fun i _ =>
       match i with
       | O => HTTPError 500 "Internal Server Error"
       | _ => Response (Some (JDict [("text", JStr "  Sample text ")])) EmptyString
       end |}.

Definition server_error : outcome := HTTPError 500 "Internal Server Error".

Definition bad_request : outcome := HTTPError 400 "Bad Request".

Definition timed_out : outcome := Timeout "Request timed out".

Definition document_path : string := "/tmp/document.txt".

(** The trace of the call of [make_api_request] with three attempts that
    all meet status 500, cut at the request of the second attempt. *)
Definition three_server_errors : list event :=
  trace (snd (make_api_request (configured 3) (always server_error)
                document_path "text/plain" 1 new_parser)).

Definition before_second_request : list event := firstn 8 three_server_errors.

Definition after_second_request : list event := skipn 9 three_server_errors.

Definition sample_request : request :=
  build_request (configured 3)
    (payload_of (configured 3) "Test document" "text/plain").

(** ** The provider backends *)

(** No engine is configured. *)
Definition no_engine : Remote.RemoteEngineConfig :=
  {| Remote.engine := None;
     Remote.api_key := None;
     Remote.endpoint := None |}.

Definition azure_engine : Remote.RemoteEngineConfig :=
  {| Remote.engine := Some "azureai";
     Remote.api_key := Some "somekey";
     Remote.endpoint := Some "https://endpoint.cognitiveservices.azure.com" |}.

Definition bridge_engine : Remote.RemoteEngineConfig :=
  {| Remote.engine := Some "ocrbridge-ocrmac";
     Remote.api_key := Some "somekey";
     Remote.endpoint := Some "https://ocrbridge.example" |}.

(** A bridge server that accepts every request and answers with the
    given [content-type] header; the text extraction finds the given
    text. *)
Definition bridge_world (content_type : option string) (found : option string)
  : Remote.world :=
  {| Remote.file_bytes := fun _ => Ok "%PDF-1.7 document";
     Remote.azure_analyze := fun _ => Raise (PyExc "RuntimeError" "fail");
     Remote.azure_result_pdf := fun _ => Raise (PyExc "RuntimeError" "fail");
     Remote.httpx_post := fun _ => Remote.Accepted content_type "%PDF-1.7 FAKEPDF";
     Remote.open_for_writing := fun _ => Ok tt;
     Remote.write_bytes := fun _ _ => Ok tt;
     Remote.extract_text := fun _ => Ok found;
     Remote.CELERY_TASK_TIME_LIMIT := 1800 |}.

Definition tempdir : string := "/tmp/paperless".

Definition pdf_path : string := "/samples/simple-digital.pdf".

End Samples.

(* ===================================================================== *)
(** * Further observations of the traces of the generic REST backend *)
(* ===================================================================== *)

Module RestOcrTrace.
Import RestOcr.

(** The seconds of the sleeps in a list of events, in order. *)
Definition sleeps_of (l : list event) : list Z :=
  flat_map (fun e => match e with Sleep s => [s] | _ => [] end) l.

(** The requests in a list of events, in order. *)
Definition requests_of (l : list event) : list request :=
  flat_map (fun e => match e with Post _ r => [r] | _ => [] end) l.

(** The files that are read in a list of events, in order. *)
Definition reads_of (l : list event) : list string :=
  flat_map (fun e => match e with ReadFile p => [p] | _ => [] end) l.

(** The sum of a list of integers. *)
Definition Zsum (l : list Z) : Z := fold_right Z.add 0 l.

End RestOcrTrace.

(* ===================================================================== *)
(** * Base64 decoding, as the test of the payload uses it *)
(* ===================================================================== *)

Module Base64.

(** The position of a character in a string. *)
Fixpoint index_of (c : ascii) (s : string) : option Z :=
  match s with
  | EmptyString => None
  | String x r =>
      if Ascii.eqb x c then Some 0
      else match index_of c r with
           | Some i => Some (i + 1)
           | None => None
           end
  end.

Definition b64_index (c : ascii) : option Z := index_of c Py.b64_alphabet.

Definition is_pad (c : ascii) : bool := Ascii.eqb c "="%char.

(** [base64.b64decode(s)] on padded text: groups of four characters of
    the alphabet, the last group with one or two [=] at its end for two or
    one bytes.  [None] stands for [binascii.Error]. *)
Fixpoint b64decode (s : string) : option string :=
  match s with
  | EmptyString => Some EmptyString
  | String a (String b (String c (String d r))) =>
      match b64_index a, b64_index b with
      | Some i, Some j =>
          if is_pad d then
            match r with
            | EmptyString =>
                if is_pad c then
                  Some (String (Py.chr (i * 4 + j / 16)) EmptyString)
                else
                  match b64_index c with
                  | Some k =>
                      Some (String (Py.chr (i * 4 + j / 16))
                              (String (Py.chr (j mod 16 * 16 + k / 4))
                                 EmptyString))
                  | None => None
                  end
            | _ => None
            end
          else
            match b64_index c, b64_index d, b64decode r with
            | Some k, Some l, Some rest =>
                Some (String (Py.chr (i * 4 + j / 16))
                        (String (Py.chr (j mod 16 * 16 + k / 4))
                           (String (Py.chr (k mod 4 * 64 + l)) rest)))
            | _, _, _ => None
            end
      | _, _ => None
      end
  | _ => None
  end.

End Base64.

(* ===================================================================== *)
(** * System checks and registration of the parsers *)
(* ===================================================================== *)

(** A message of the Django check framework. *)
Inductive check_level : Type := CheckError | CheckWarning.

Record check_message : Type := {
  level : check_level;
  msg : string;
  hint : option string;
  id : option string
}.

Definition is_check_error (m : check_message) : bool :=
  match level m with CheckError => true | CheckWarning => false end.

(** ** [paperless_remote]: settings, [get_settings],
       [supported_mime_types] and [checks.py] *)

Module RemoteApp.
Import Remote.

(** The Django settings that the parser and its check read. *)
Record django_settings : Type := {
  REMOTE_OCR_ENGINE : option string;
  REMOTE_OCR_API_KEY : option string;
  REMOTE_OCR_ENDPOINT : option string
}.

(** [RemoteDocumentParser.get_settings] *)
Definition get_settings (settings : django_settings) : RemoteEngineConfig :=
  {| engine := REMOTE_OCR_ENGINE settings;
     api_key := REMOTE_OCR_API_KEY settings;
     endpoint := REMOTE_OCR_ENDPOINT settings |}.

(** [RemoteDocumentParser.supported_mime_types] *)
Definition supported_mime_types (self_settings : RemoteEngineConfig)
  : dict string :=
  if engine_is_valid self_settings then
    [("application/pdf", ".pdf");
     ("image/png", ".png");
     ("image/jpeg", ".jpg");
     ("image/tiff", ".tiff");
     ("image/bmp", ".bmp");
     ("image/gif", ".gif");
     ("image/webp", ".webp")]
  else [].

Definition plain_error (message : string) : check_message :=
  {| level := CheckError; msg := message; hint := None; id := None |}.

(** [settings.REMOTE_OCR_ENGINE == name] *)
Definition engine_equals (settings : django_settings) (name : string) : bool :=
  match REMOTE_OCR_ENGINE settings with
  | Some e => String.eqb e name
  | None => false
  end.

(** [check_remote_parser_configured] of [checks.py] *)
Definition check_remote_parser_configured (settings : django_settings)
  : list check_message :=
  let valid_engines := ["azureai"; "ocrbridge-ocrmac"] in
  if truthy_str (REMOTE_OCR_ENGINE settings) &&
     negb (existsb (String.eqb (fmt_str (REMOTE_OCR_ENGINE settings)))
             valid_engines)
  then
    [plain_error
       "Remote parser engine must be one of: azureai, ocrbridge-ocrmac."]
  else if engine_equals settings "azureai" &&
          negb (truthy_str (REMOTE_OCR_ENDPOINT settings) &&
                truthy_str (REMOTE_OCR_API_KEY settings))
  then
    [plain_error
       "Azure AI remote parser requires endpoint and API key to be configured."]
  else if engine_equals settings "ocrbridge-ocrmac" &&
          negb (truthy_str (REMOTE_OCR_ENDPOINT settings) &&
                truthy_str (REMOTE_OCR_API_KEY settings))
  then
    [plain_error
       "OCRBridge OCRMac remote parser requires endpoint and API key to be configured."]
  else [].

End RemoteApp.

(** ** [paperless_rest_ocr]: [checks.py] and [signals.py] *)

Module RestOcrApp.

(** The Django settings that the check and the declaration read.
    [OCR_BACKEND = None]: the settings have no such attribute. *)
Record django_settings : Type := {
  OCR_BACKEND : option string;
  REST_OCR_ENDPOINT : option string;
  REST_OCR_API_KEY : option string;
  REST_OCR_AUTH_TOKEN : option string;
  REST_OCR_VERIFY_SSL : bool
}.

Definition E001 : check_message :=
  {| level := CheckError;
     msg := "REST OCR backend is selected but REST_OCR_ENDPOINT is not configured";
     hint := Some "Set PAPERLESS_REST_OCR_ENDPOINT environment variable";
     id := Some "paperless_rest_ocr.E001" |}.

Definition W001 : check_message :=
  {| level := CheckWarning;
     msg := "REST OCR backend is configured but no authentication is set";
     hint := Some ("Consider setting PAPERLESS_REST_OCR_API_KEY or " ++
                   "PAPERLESS_REST_OCR_AUTH_TOKEN for secure API access");
     id := Some "paperless_rest_ocr.W001" |}.

Definition W002 : check_message :=
  {| level := CheckWarning;
     msg := "SSL verification is disabled for REST OCR endpoint";
     hint := Some ("This is insecure. " ++
                   "Enable PAPERLESS_REST_OCR_VERIFY_SSL in production");
     id := Some "paperless_rest_ocr.W002" |}.

(** [settings.OCR_BACKEND != "rest_api"], for settings that have the
    attribute. *)
Definition backend_is_not_rest_api (settings : django_settings) : bool :=
  match OCR_BACKEND settings with
  | Some b => negb (String.eqb b "rest_api")
  | None => true
  end.

(** [rest_ocr_config_check] of [checks.py] *)
Definition rest_ocr_config_check (settings : django_settings)
  : list check_message :=
  let errors : list check_message := [] in
  let warnings : list check_message := [] in
  if match OCR_BACKEND settings with None => true | Some _ => false end ||
     backend_is_not_rest_api settings
  then (errors ++ warnings)%list
  else
    let errors :=
      if negb (truthy_str (REST_OCR_ENDPOINT settings))
      then (errors ++ [E001])%list else errors in
    let warnings :=
      if negb (truthy_str (REST_OCR_API_KEY settings)) &&
         negb (truthy_str (REST_OCR_AUTH_TOKEN settings))
      then (warnings ++ [W001])%list else warnings in
    let warnings :=
      if negb (REST_OCR_VERIFY_SSL settings)
      then (warnings ++ [W002])%list else warnings in
    (errors ++ warnings)%list.

(** The declaration that [rest_ocr_consumer_declaration] returns: the
    parser is made by [get_parser], which builds a
    [RestOcrDocumentParser]. *)
Record declaration : Type := {
  parser : string;
  weight : Z;
  mime_types : dict string
}.

(** [rest_ocr_consumer_declaration] of [signals.py]; the default of
    [getattr] for a missing [OCR_BACKEND] is [tesseract]. *)
Definition rest_ocr_consumer_declaration (settings : django_settings)
  : option declaration :=
  let backend :=
    match OCR_BACKEND settings with
    | Some b => b
    | None => "tesseract"
    end in
  if negb (String.eqb backend "rest_api") then None
  else
    Some {| parser := "RestOcrDocumentParser";
            weight := 10;
            mime_types :=
              [("application/pdf", ".pdf");
               ("image/jpeg", ".jpg");
               ("image/png", ".png");
               ("image/tiff", ".tif");
               ("image/gif", ".gif");
               ("image/bmp", ".bmp");
               ("image/webp", ".webp");
               ("image/heic", ".heic")] |}.

End RestOcrApp.

(* ===================================================================== *)
(** * The generic REST backend: page count, metadata and thumbnail *)
(* ===================================================================== *)

Module RestOcrPdf.
Import RestOcr.

(** The PDF library: the number of pages of the file at a path, the items
    of its metadata, and the table [REVERSE_NS] from a namespace to its
    prefix.  Opening the file may raise. *)
Record pikepdf : Type := {
  page_count : string -> pyresult Z;
  metadata_items : string -> pyresult (list (string * json));
  REVERSE_NS : dict string
}.

(** One entry of the result of [extract_metadata]. *)
Record metadata_entry : Type := {
  namespace : string;
  prefix : string;
  key : string;
  value : string
}.

Definition newline : ascii := ascii_of_nat 10.

(** The characters before the first line feed. *)
Fixpoint first_line (s : string) : string :=
  match s with
  | EmptyString => EmptyString
  | String c r => if Ascii.eqb c newline then EmptyString
                  else String c (first_line r)
  end.

(** The string cut at the last occurrence of a character. *)
Fixpoint split_last (c : ascii) (s : string) : option (string * string) :=
  match s with
  | EmptyString => None
  | String x r =>
      match split_last c r with
      | Some (a, b) => Some (String x a, b)
      | None => if Ascii.eqb x c then Some (EmptyString, r) else None
      end
  end.

(** The two groups of [namespace_pattern.match(key)], for the pattern of
    the source: an opening brace, a greedy group of any characters but
    the line feed, a closing brace, and a second such group.  The key
    starts with an opening brace; the first group runs to the last closing
    brace before a line feed, and the second group runs from there to the
    line feed or to the end. *)
Definition namespace_match (key : string) : option (string * string) :=
  match key with
  | EmptyString => None
  | String c rest =>
      if Ascii.eqb c "{"%char then split_last "}"%char (first_line rest)
      else None
  end.

(** The value of an item as [extract_metadata] stores it: the elements of
    a list joined by spaces, and [str] of any other value. *)
Definition metadata_value (v : json) : string :=
  match v with
  | JList l => Py.join " " (map py_str l)
  | _ => py_str v
  end.

Section Pdf.
Variable lib : pikepdf.

(** [get_page_count] *)
Definition get_page_count (document_path mime_type : string) : M (option Z) :=
  if String.eqb mime_type "application/pdf" then
    (_ <- emit (ReadFile document_path) ;;
     match page_count lib document_path with
     | Ok n => ret (Some n)
     | Raise e =>
         _ <- log Warning ("Unable to determine PDF page count " ++
                           document_path ++ ": " ++ exn_str e) ;;
         ret None
     end)%rest
  else ret None.

(** The loop of [extract_metadata] over the items of the metadata.  The
    characters of this model always encode, so the branch of
    [UnicodeEncodeError] is never taken; a namespace without a prefix
    raises [KeyError], which is logged. *)
Fixpoint read_items (items : list (string * json))
  (result : list metadata_entry) : M (list metadata_entry) :=
  match items with
  | [] => ret result
  | (k, v) :: rest =>
      let v := metadata_value v in
      match namespace_match k with
      | None => read_items rest result
      | Some (ns, key_value) =>
          match dict_get ns (REVERSE_NS lib) with
          | Some p =>
              read_items rest
                (result ++ [{| namespace := ns; prefix := p;
                               key := key_value; value := v |}])%list
          | None =>
              (_ <- log Warning ("Error while reading metadata " ++ k ++
                                 ": " ++ v ++ ". Error: " ++ Py.repr_str ns) ;;
               read_items rest result)%rest
          end
      end
  end.

(** The entry of one item: none for a key that the pattern does not
    match, and none for a namespace without a prefix. *)
Definition entry_of (item : string * json) : list metadata_entry :=
  match namespace_match (fst item) with
  | Some (ns, key_value) =>
      match dict_get ns (REVERSE_NS lib) with
      | Some p => [{| namespace := ns; prefix := p; key := key_value;
                      value := metadata_value (snd item) |}]
      | None => []
      end
  | None => []
  end.

(** The warning of one item: for a key that the pattern matches and
    whose namespace has no prefix. *)
Definition warning_of_item (item : string * json) : list event :=
  match namespace_match (fst item) with
  | Some (ns, _) =>
      match dict_get ns (REVERSE_NS lib) with
      | Some _ => []
      | None =>
          [Log Warning ("Error while reading metadata " ++ fst item ++
                        ": " ++ metadata_value (snd item) ++
                        ". Error: " ++ Py.repr_str ns)]
      end
  | None => []
  end.

(** [extract_metadata] *)
Definition extract_metadata (document_path mime_type : string)
  : M (list metadata_entry) :=
  if String.eqb mime_type "application/pdf" then
    (_ <- emit (ReadFile document_path) ;;
     items <- lift (metadata_items lib document_path) ;;
     read_items items [])%rest
  else ret [].

End Pdf.

(** The file from which [get_thumbnail] makes the thumbnail:
    [self.archive_path or document_path]. *)
Definition thumbnail_source (st : parser) (document_path : string) : string :=
  match archive_path st with
  | Some p => p
  | None => document_path
  end.

End RestOcrPdf.

(* ===================================================================== *)
(** * Further observations of the traces of the provider backends *)
(* ===================================================================== *)

Module RemoteTrace.
Import Remote.

Definition is_write (e : event) : bool :=
  match e with WriteBytes _ _ => true | _ => false end.

Definition is_close (e : event) : bool :=
  match e with AzureClose => true | _ => false end.

Definition is_error_log (e : event) : bool :=
  match e with Log Error _ => true | _ => false end.

(** [n] slashes. *)
Fixpoint slashes (n : nat) : string :=
  match n with
  | O => EmptyString
  | S k => String "/"%char (slashes k)
  end.

End RemoteTrace.

(* ===================================================================== *)
(** * More sample configurations *)
(* ===================================================================== *)

Module MoreSamples.
Import RestOcr.

(** A server that fails twice, with a timeout and with status 503, and
    then answers. *)
Definition fails_twice : world :=
  {| file_bytes := fun _ => Ok "Test document";
     transport := fun i _ =>
       match i with
       | O => Timeout "Request timed out"
       | S O => HTTPError 503 "Service Unavailable"
       | _ => Response (Some (JDict [("content", JStr "Sample text")])) EmptyString
       end |}.


(** A PDF with three metadata items: one with a known namespace, one with
    an unknown namespace, and one that is not of the form {namespace}key. *)
Definition sample_pdf : RestOcrPdf.pikepdf :=
  {| RestOcrPdf.page_count := fun _ => Ok 3;
     RestOcrPdf.metadata_items := fun _ =>
       Ok [("{http://purl.org/dc/elements/1.1/}creator",
            JList [JStr "Ann"; JStr "Bob"]);
           ("{urn:unknown}field", JStr "x");
           ("plain", JStr "y")];
     RestOcrPdf.REVERSE_NS := [("http://purl.org/dc/elements/1.1/", "dc")] |}.

Definition rest_api_settings (endpoint : option string)
  : RestOcrApp.django_settings :=
  {| RestOcrApp.OCR_BACKEND := Some "rest_api";
     RestOcrApp.REST_OCR_ENDPOINT := endpoint;
     RestOcrApp.REST_OCR_API_KEY := Some "test-api-key";
     RestOcrApp.REST_OCR_AUTH_TOKEN := None;
     RestOcrApp.REST_OCR_VERIFY_SSL := true |}.

Definition bridge_django_settings : RemoteApp.django_settings :=
  {| RemoteApp.REMOTE_OCR_ENGINE := Some "ocrbridge-ocrmac";
     RemoteApp.REMOTE_OCR_API_KEY := Some "somekey";
     RemoteApp.REMOTE_OCR_ENDPOINT := Some "https://ocrbridge.example" |}.

(** The document analysis service answers, and the searchable PDF can be
    fetched and written. *)
Definition azure_world : Remote.world :=
  {| Remote.file_bytes := fun _ => Ok "%PDF-1.7 document";
     Remote.azure_analyze := fun _ => Ok ("fake-op-id", "This is a test document.");
     Remote.azure_result_pdf := fun _ => Ok "%PDF-1.7 FAKEPDF";
     Remote.httpx_post := fun _ => Remote.PostRaises "RuntimeError" "unused";
     Remote.open_for_writing := fun _ => Ok tt;
     Remote.write_bytes := fun _ _ => Ok tt;
     Remote.extract_text := fun _ => Ok None;
     Remote.CELERY_TASK_TIME_LIMIT := 1800 |}.

(** A bridge server that rejects the request with status 400. *)
Definition bridge_rejects : Remote.world :=
  {| Remote.file_bytes := fun _ => Ok "%PDF-1.7 document";
     Remote.azure_analyze := fun _ => Raise (PyExc "RuntimeError" "fail");
     Remote.azure_result_pdf := fun _ => Raise (PyExc "RuntimeError" "fail");
     Remote.httpx_post := fun _ =>
       Remote.StatusError 400
         (Some (JDict [("detail", JStr "Invalid request - unsupported file format");
                       ("error_code", JStr "UNSUPPORTED_FILE_FORMAT")]));
     Remote.open_for_writing := fun _ => Ok tt;
     Remote.write_bytes := fun _ _ => Ok tt;
     Remote.extract_text := fun _ => Ok None;
     Remote.CELERY_TASK_TIME_LIMIT := 1800 |}.

(** The document analysis service answers, and the temporary directory
    cannot be written to. *)
Definition azure_read_only : Remote.world :=
  {| Remote.file_bytes := fun _ => Ok "%PDF-1.7 document";
     Remote.azure_analyze := fun _ => Ok ("fake-op-id", "This is a test document.");
     Remote.azure_result_pdf := fun _ => Ok "%PDF-1.7 FAKEPDF";
     Remote.httpx_post := fun _ => Remote.PostRaises "RuntimeError" "unused";
     Remote.open_for_writing := fun _ =>
       Raise (PyExc "PermissionError" "[Errno 13] Permission denied");
     Remote.write_bytes := fun _ _ => Ok tt;
     Remote.extract_text := fun _ => Ok None;
     Remote.CELERY_TASK_TIME_LIMIT := 1800 |}.

(** The bridge engine with a key and no endpoint. *)
Definition bridge_without_endpoint : Remote.RemoteEngineConfig :=
  {| Remote.engine := Some "ocrbridge-ocrmac";
     Remote.api_key := Some "somekey";
     Remote.endpoint := None |}.

End MoreSamples.

(* ===================================================================== *)
(** * Checks of the built-ins on concrete inputs *)
(* ===================================================================== *)

Example str_of_int_3 : Py.str_of_int 3 = "3".
Proof. reflexivity. Qed.

Example str_of_int_neg : Py.str_of_int (-45) = "-45".
Proof. reflexivity. Qed.

Example lower_API_KEY : Py.lower "API_Key" = "api_key".
Proof. reflexivity. Qed.

Example b64encode_key : Py.b64encode (Py.encode "test-api-key:") = "dGVzdC1hcGkta2V5Og==".
Proof. reflexivity. Qed.

Example b64encode_Test_content : Py.b64encode "Test content" = "VGVzdCBjb250ZW50".
Proof. reflexivity. Qed.

Example repr_keys :
  Py.repr_str_list ["hocr"; "it's"] =
  "['hocr', " ++ String Py.dquote ("it's" ++ String Py.dquote "]").
Proof. reflexivity. Qed.

Example strip_ex : Py.strip "  a b  " = "a b".
Proof. reflexivity. Qed.


(* ===================================================================== *)
(** * Facts about strings and dictionaries *)
(* ===================================================================== *)

Lemma startswith_prefix (p s : string) :
  Py.startswith p s = true <-> exists r, s = p ++ r.
Proof.
  revert s; induction p as [|a p IH]; intros s; simpl.
  - split; [intros _; now exists s | reflexivity].
  - destruct s as [|b s].
    + split; [discriminate | intros [r H]; discriminate].
    + rewrite andb_true_iff, Ascii.eqb_eq, IH. split.
      * intros [-> [r ->]]. now exists r.
      * intros [r H]. injection H as -> ->. split; [reflexivity | now exists r].
Qed.

(** [Py.contains] is the substring relation. *)
Lemma contains_substring (needle hay : string) :
  Py.contains needle hay = true <->
  exists pre post, hay = pre ++ needle ++ post.
Proof.
  induction hay as [|c hay IH].
  - simpl. rewrite orb_false_r, startswith_prefix. split.
    + intros [r H]. exists EmptyString, r. exact H.
    + intros [pre [post H]]. destruct pre; [now exists post | discriminate].
  - change (Py.contains needle (String c hay))
      with (Py.startswith needle (String c hay) || Py.contains needle hay).
    rewrite orb_true_iff, startswith_prefix, IH. split.
    + intros [[r H] | [pre [post H]]].
      * exists EmptyString, r. exact H.
      * exists (String c pre), post. simpl. now rewrite H.
    + intros [pre [post H]]. destruct pre as [|c' pre].
      * left. now exists post.
      * right. simpl in H. injection H as _ H. now exists pre, post.
Qed.

Lemma contains_append (needle pre post : string) :
  Py.contains needle (pre ++ needle ++ post) = true.
Proof. apply contains_substring. now exists pre, post. Qed.

Section DictFacts.
Context {V : Type}.
Implicit Types (d : dict V) (k : string) (v : V).

Lemma dict_contains_get k d :
  dict_contains k d = match dict_get k d with Some _ => true | None => false end.
Proof.
  induction d as [|[k' v'] d IH]; simpl; [reflexivity|].
  destruct (String.eqb k' k); simpl; [reflexivity | exact IH].
Qed.





End DictFacts.

(* ===================================================================== *)
(** * The generic REST backend: request headers and response text *)
(* ===================================================================== *)

Import RestOcr.




(** C6. On a JSON object, [extract_text_from_response] is the response
    normaliser of the specification: the value of the first matching
    lookup in the order [text], [content], [ocr_text], [result] (for
    [result]: the value when it is a string, its [text] member when it is
    an object with that key), and otherwise a [ParseError] whose message
    lists the keys of the object. *)
Theorem extract_text_from_response_spec (d : dict json) :
  extract_text_from_response (JDict d) = extract_text_spec d.
Proof.
  unfold extract_text_from_response, extract_text_spec, lookups, lookup_result.
  simpl. rewrite !dict_contains_get.
  destruct (dict_get "text" d) as [v|]; simpl; [reflexivity|].
  destruct (dict_get "content" d) as [v|]; simpl; [reflexivity|].
  destruct (dict_get "ocr_text" d) as [v|]; simpl; [reflexivity|].
  destruct (dict_get "result" d) as [v|]; simpl; [|reflexivity].
  destruct v as [| b | n | t | l | r]; try reflexivity.
  simpl. rewrite dict_contains_get.
  destruct (dict_get "text" r); reflexivity.
Qed.

(* ===================================================================== *)
(** * The generic REST backend: the retry loop *)
(* ===================================================================== *)

Local Open Scope list_scope.

Lemma add_events_app (st : parser) (l1 l2 : list event) :
  add_events (add_events st l1) l2 = add_events st (l1 ++ l2).
Proof. unfold add_events; simpl. now rewrite app_assoc. Qed.

Lemma add_events_nil (st : parser) : add_events st [] = st.
Proof. destruct st; unfold add_events; simpl. now rewrite app_nil_r. Qed.

Lemma after_emit (e : event) (st : parser) :
  after (emit e) st = add_events st [e].
Proof. reflexivity. Qed.

Lemma after_log (l : log_level) (msg : string) (st : parser) :
  after (log l msg) st = add_events st [Log l msg].
Proof. reflexivity. Qed.

Lemma requests_sent_add (st : parser) (l : list event) :
  requests_sent (add_events st l) =
  (requests_sent st + List.length (filter is_post l))%nat.
Proof.
  unfold requests_sent, add_events; simpl.
  now rewrite filter_app, length_app.
Qed.

Lemma attempts_of_app (l1 l2 : list event) :
  attempts_of (l1 ++ l2) = attempts_of l1 ++ attempts_of l2.
Proof. apply flat_map_app. Qed.

Lemma in_attempts_of (n : Z) (req : request) (l : list event) :
  In (Post n req) l -> In n (attempts_of l).
Proof.
  intros H. apply in_flat_map. exists (Post n req). split; [exact H | now left].
Qed.

Lemma length_attempts_of (l : list event) :
  List.length (attempts_of l) = List.length (filter is_post l).
Proof.
  induction l as [|e l IH]; [reflexivity|].
  destruct e; simpl; rewrite ?IH; reflexivity.
Qed.

Lemma length_Zseq (a : Z) (n : nat) : List.length (Zseq a n) = n.
Proof. revert a; induction n; intros a; simpl; [reflexivity | now rewrite IHn]. Qed.

Lemma in_Zseq (a : Z) (n : nat) (x : Z) :
  In x (Zseq a n) <-> a <= x < a + Z.of_nat n.
Proof.
  revert a; induction n as [|n IH]; intros a; simpl.
  - lia.
  - rewrite IH. lia.
Qed.

(** A list that is cut in two ways: the second cut is in the first part
    or in the second. *)
Lemma app_cut {A} (l rest pre post : list A) (x : A) :
  l ++ rest = pre ++ x :: post ->
  (exists post', l = pre ++ x :: post' /\ post = post' ++ rest) \/
  (exists pre', pre = l ++ pre' /\ rest = pre' ++ x :: post).
Proof.
  revert pre. induction l as [|y l IH]; intros pre H.
  - right. exists pre. split; [reflexivity | exact H].
  - destruct pre as [|p pre]; simpl in H; injection H as -> H.
    + left. exists l. split; [reflexivity | now symmetry].
    + destruct (IH pre H) as [[post' [-> ->]] | [pre' [-> ->]]].
      * left. now exists post'.
      * right. now exists pre'.
Qed.

(** A list with one request is cut at a request in one way only. *)
Lemma cut_at_post (p1 t1 pre post : list event) (x y : event) :
  Forall (fun e => is_post e = false) p1 ->
  Forall (fun e => is_post e = false) t1 ->
  is_post x = true ->
  p1 ++ y :: t1 = pre ++ x :: post ->
  pre = p1 /\ x = y /\ post = t1.
Proof.
  intros Hp1 Ht1 Hx. revert pre.
  induction Hp1 as [|e p1 He Hp1 IH]; intros pre H.
  - destruct pre as [|p pre]; simpl in H; injection H as -> H.
    + now subst.
    + subst t1. rewrite Forall_forall in Ht1.
      specialize (Ht1 x (in_elt x pre post)). congruence.
  - destruct pre as [|p pre]; simpl in H; injection H as -> H.
    + congruence.
    + destruct (IH pre H) as [-> [-> ->]]. now split.
Qed.

Section RunFacts.
Variable settings : RestOcrConfig.
Variable w : world.
Variable document_path mime_type : string.

Let N := retry_count settings.
Let call := make_api_request settings w document_path mime_type.
Let runs := run settings w document_path mime_type.

(** The function follows the rules of the relation: every call of
    [make_api_request] ends, in the way that one of the rules gives. *)
Lemma make_api_request_run (a : Z) (st : parser) : runs a st (call a st).
Proof.
  subst call runs.
  remember (Z.to_nat (retry_count settings - a)) as n eqn:Hn.
  revert a st Hn.
  induction n as [n IH] using lt_wf_ind. intros a st Hn.
  rewrite make_api_request_equation_1.
  destruct (truthy_str (api_endpoint settings)) eqn:Hep; simpl;
    [|now apply run_unconfigured].
  unfold construct_request_payload, bind, lift, ret.
  cbn [emit fst snd].
  destruct (file_bytes w document_path) as [b|e] eqn:Hfile;
    [|now apply run_unreadable].
  rewrite !after_log, !after_emit, !add_events_app.
  fold (add_events st [ReadFile document_path]).
  rewrite !add_events_app. cbn [app].
  rewrite requests_sent_add. cbn [filter is_post List.length].
  rewrite Nat.add_0_r.
  set (req := build_request settings (payload_of settings b mime_type)).
  destruct (transport w (requests_sent st) req) as [e|c t|e|cls msg|[body|] t] eqn:Ho.
  all: cbv zeta; rewrite ?after_log, ?after_emit, ?add_events_app; cbn [app].
  all: try (destruct (Z_lt_dec a (retry_count settings)) as [Hlt|Hge]).
  all: try (destruct (500 <=? c) eqn:Hc).
  all: rewrite ?after_log, ?after_emit, ?add_events_app; cbn [app].
  all: try (eapply (run_retry _ _ _ _ a st b _ _ Hep Hfile Ho);
            [ simpl; try exact Hc; reflexivity | exact Hlt
            | eapply IH; [|reflexivity]; lia ]).
  all: try (refine (run_terminal _ _ _ _ a st b _ Hep Hfile Ho _);
            simpl; first [left; first [reflexivity | exact Hc] | right; lia]).
Qed.

(** ** Consequences of one rule *)

(** Where no attempt is left, or the failure is not one to retry, the call
    makes one request and ends. *)
Lemma make_api_request_terminal (a : Z) (st : parser) (b : string) (o : outcome) :
  truthy_str (api_endpoint settings) = true ->
  file_bytes w document_path = Ok b ->
  transport w (requests_sent st)
    (build_request settings (payload_of settings b mime_type)) = o ->
  retryable o = false \/ N <= a ->
  call a st =
  (terminal_result settings a o,
   add_events st
     (request_events settings document_path a
        (build_request settings (payload_of settings b mime_type)) ++
      warning_of settings o)).
Proof.
  intros Hep Hfile Ho Hlast.
  pose proof (make_api_request_run a st) as Hrun.
  inversion Hrun as [a' st' Hep' | a' st' e Hep' Hfile' | a' st' b' o' Hep' Hfile' req Ho' Hlast'
                    | a' st' b' o' res Hep' Hfile' req Ho' Hretry Hlt Hrest]; subst.
  - congruence.
  - congruence.
  - assert (b' = b) by congruence; subst b'. subst req. reflexivity.
  - assert (b' = b) by congruence; subst b'. subst req.
    destruct Hlast as [Hno | Hge]; [congruence | subst N; lia].
Qed.

(** After a failure to retry, with an attempt left, the call logs, sleeps
    [attempt * 2] seconds and goes on as the call of the next attempt. *)
Lemma make_api_request_retry (a : Z) (st : parser) (b : string) (o : outcome) :
  truthy_str (api_endpoint settings) = true ->
  file_bytes w document_path = Ok b ->
  transport w (requests_sent st)
    (build_request settings (payload_of settings b mime_type)) = o ->
  retryable o = true ->
  a < N ->
  call a st =
  call (a + 1)
    (add_events st
       (request_events settings document_path a
          (build_request settings (payload_of settings b mime_type)) ++
        warning_of settings o ++ backoff_events a)).
Proof.
  intros Hep Hfile Ho Hretry Hlt.
  subst call.
  rewrite make_api_request_equation_1 at 1.
  rewrite Hep. cbn [negb].
  unfold construct_request_payload, bind, lift, ret.
  cbn [emit fst snd]. rewrite Hfile.
  rewrite !after_log, !after_emit, !add_events_app.
  fold (add_events st [ReadFile document_path]).
  rewrite !add_events_app. cbn [app].
  rewrite requests_sent_add. cbn [filter is_post List.length].
  rewrite Nat.add_0_r. cbv zeta. rewrite Ho.
  destruct o as [e|c t|e|cls msg|[body|] t]; try discriminate Hretry.
  all: cbv zeta; destruct (Z_lt_dec a (retry_count settings)) as [_|Hge];
    [|subst N; lia].
  all: simpl in Hretry; rewrite ?Hretry.
  all: rewrite ?after_log, ?after_emit, ?add_events_app; reflexivity.
Qed.

(** ** Properties of every run *)

Lemma no_post_warning (o : outcome) :
  Forall (fun e => is_post e = false) (warning_of settings o).
Proof. destruct o; simpl; repeat constructor. Qed.

Lemma attempts_of_request (a : Z) (req : request) (o : outcome) (l : list event) :
  attempts_of (request_events settings document_path a req ++ warning_of settings o ++ l) =
  a :: attempts_of l.
Proof.
  unfold request_events. cbn [app attempts_of flat_map].
  change (flat_map _ ?l) with (attempts_of l).
  rewrite attempts_of_app.
  replace (attempts_of (warning_of settings o)) with (@nil Z)
    by (destruct o; reflexivity).
  reflexivity.
Qed.

(** The attempts of a run that starts with attempt [a] are numbered [a],
    [a + 1], ..., and there are [N - a + 1] of them at most, or one. *)
Lemma run_attempts_bounded (a : Z) (st : parser) res :
  runs a st res ->
  exists new k,
    snd res = add_events st new /\
    attempts_of new = Zseq a k /\
    Z.of_nat k <= Z.max 1 (N - a + 1).
Proof.
  induction 1 as [a st Hep | a st e Hep Hfile | a st b o Hep Hfile req Ho Hlast
                 | a st b o res Hep Hfile req Ho Hretry Hlt Hrest IH].
  - exists [], O. split; [now rewrite add_events_nil | split; [reflexivity | lia]].
  - exists [ReadFile document_path], O.
    split; [reflexivity | split; [reflexivity | lia]].
  - eexists; exists 1%nat. split; [reflexivity|]. split; [|lia].
    rewrite <- (app_nil_r (warning_of settings o)).
    now rewrite attempts_of_request.
  - destruct IH as [new [k [Hst [Hatt Hbound]]]].
    eexists; exists (S k). split; [rewrite Hst, add_events_app; reflexivity|].
    split.
    + rewrite <- !app_assoc, attempts_of_request, attempts_of_app.
      cbn [backoff_events attempts_of flat_map app]. now rewrite Hatt.
    + subst N. lia.
Qed.

(** What comes before a request in a run that starts with attempt [a]:
    before the request of attempt [a] the file is read and the attempt is
    logged; before the request of a later attempt [n] the call has slept
    [(n - 1) * 2] seconds, read the file and logged the attempt. *)
Lemma run_backoff (a : Z) (st : parser) res :
  runs a st res ->
  exists new,
    snd res = add_events st new /\
    forall pre n req post,
      new = pre ++ Post n req :: post ->
      (n = a /\
       pre = [ReadFile document_path; Log Debug (debug_message settings a)]) \/
      (a < n /\
       exists pre',
         pre = pre' ++ [Sleep ((n - 1) * 2); ReadFile document_path;
                        Log Debug (debug_message settings n)]).
Proof.
  induction 1 as [a st Hep | a st e Hep Hfile | a st b o Hep Hfile req Ho Hlast
                 | a st b o res Hep Hfile req Ho Hretry Hlt Hrest IH].
  - exists []. split; [now rewrite add_events_nil|].
    intros pre n r post H. destruct pre; discriminate H.
  - exists [ReadFile document_path]. split; [reflexivity|].
    intros pre n r post H. destruct pre as [|? [|? ?]]; discriminate H.
  - eexists. split; [reflexivity|].
    intros pre n r post H. left.
    unfold request_events in H.
    change ([ReadFile document_path; Log Debug (debug_message settings a); Post a req]
              ++ warning_of settings o)
      with ([ReadFile document_path; Log Debug (debug_message settings a)]
              ++ Post a req :: warning_of settings o) in H.
    apply cut_at_post in H;
      [| repeat constructor | apply no_post_warning | reflexivity].
    destruct H as [-> [H _]]. injection H as -> _. now split.
  - destruct IH as [new [Hst Hctx]].
    eexists. split; [rewrite Hst, add_events_app; reflexivity|].
    intros pre n r post H.
    apply app_cut in H. destruct H as [[post' [H _]] | [pre' [-> H]]].
    + left. unfold request_events in H.
      change ([ReadFile document_path; Log Debug (debug_message settings a); Post a req]
                ++ warning_of settings o ++ backoff_events a)
        with ([ReadFile document_path; Log Debug (debug_message settings a)]
                ++ Post a req :: (warning_of settings o ++ backoff_events a)) in H.
      apply cut_at_post in H;
        [| repeat constructor
         | apply Forall_app; split; [apply no_post_warning | repeat constructor]
         | reflexivity].
      destruct H as [-> [H _]]. injection H as -> _. now split.
    + right. destruct (Hctx _ _ _ _ H) as [[-> ->] | [Hlt' [pre'' ->]]].
      * split; [lia|].
        exists (request_events settings document_path a req ++ warning_of settings o ++
                [Log Info (retrying_message (a * 2))]).
        replace (a + 1 - 1) with a by lia.
        unfold backoff_events. rewrite <- !app_assoc. reflexivity.
      * split; [lia|].
        eexists. rewrite app_assoc. reflexivity.
Qed.

(** A run in which every request fails with a failure to retry makes the
    attempts [a], ..., [N], and ends with the result of the last one. *)
Lemma run_exhausts (a : Z) (st : parser) res (b : string) :
  (forall i r, retryable (transport w i r) = true) ->
  file_bytes w document_path = Ok b ->
  truthy_str (api_endpoint settings) = true ->
  a <= N ->
  runs a st res ->
  exists new,
    snd res = add_events st new /\
    attempts_of new = Zseq a (Z.to_nat (N - a + 1)) /\
    fst res =
      terminal_result settings N
        (transport w (requests_sent st + Z.to_nat (N - a))%nat
           (build_request settings (payload_of settings b mime_type))).
Proof.
  intros Hall Hb Hconf Hle Hrun. revert Hle.
  induction Hrun as [a st Hep | a st e Hep Hfile | a st b' o Hep Hfile req Ho Hlast
                    | a st b' o res Hep Hfile req Ho Hretry Hlt Hrest IH];
    intros Hle.
  - congruence.
  - congruence.
  - assert (b' = b) by congruence; subst b'.
    destruct Hlast as [Hno | Hge]; [subst o; rewrite Hall in Hno; discriminate|].
    assert (a = N) by (subst N; lia). subst a.
    eexists. split; [reflexivity|]. split.
    + rewrite <- (app_nil_r (warning_of settings o)).
      rewrite attempts_of_request.
      replace (N - N + 1) with 1 by lia. reflexivity.
    + replace (N - N) with 0 by lia. simpl. rewrite Nat.add_0_r.
      subst req o. reflexivity.
  - assert (b' = b) by congruence; subst b'.
    destruct IH as [new [Hst [Hatt Hres]]]; [subst N; lia|].
    eexists. split; [rewrite Hst, add_events_app; reflexivity|]. split.
    + rewrite <- !app_assoc, attempts_of_request, attempts_of_app.
      cbn [backoff_events attempts_of flat_map app]. rewrite Hatt.
      replace (Z.to_nat (N - a + 1)) with (S (Z.to_nat (N - (a + 1) + 1)))
        by (subst N; lia).
      reflexivity.
    + rewrite Hres. f_equal. f_equal.
      rewrite requests_sent_add, <- length_attempts_of.
      rewrite <- (app_nil_r (backoff_events a)).
      rewrite attempts_of_request.
      cbn [List.length backoff_events attempts_of flat_map app]. subst N. lia.
Qed.

End RunFacts.

(* ===================================================================== *)
(** * The generic REST backend: the claims about [make_api_request] *)
(* ===================================================================== *)

Lemma string_app_assoc (a b c : string) :
  ((a ++ b) ++ c)%string = (a ++ b ++ c)%string.
Proof. induction a as [|x a IH]; simpl; [reflexivity | now rewrite IH]. Qed.

(** The message of the handlers of [Timeout] and [RequestException],
    when no attempt is left, names the number of attempts. *)
Lemma contains_all_attempts_failed (error_msg : string) (a : Z) :
  Py.contains ("All " ++ Py.str_of_int a ++ " attempts failed")%string
    (error_msg ++ all_attempts_failed a)%string = true.
Proof.
  apply contains_substring.
  exists (error_msg ++ ". ")%string, "."%string.
  unfold all_attempts_failed.
  rewrite !string_app_assoc. reflexivity.
Qed.

(** C1. With an empty endpoint, [parse] raises the [ParseError] of the
    missing configuration, and its only effect is the log line of its
    start: the document is not read, no payload is built and no request is
    sent. *)
Theorem parse_endpoint_not_configured
  (settings : RestOcrConfig) (w : world) (document_path mime_type : string)
  (st : parser) :
  truthy_str (api_endpoint settings) = false ->
  fst (parse settings w document_path mime_type st) =
    Raise (ParseError
             ("REST OCR endpoint is not configured. " ++
              "Set PAPERLESS_REST_OCR_ENDPOINT environment variable.")%string) /\
  snd (parse settings w document_path mime_type st) =
    add_events st
      [Log Info ("Starting REST OCR parsing for " ++ document_path)%string] /\
  requests_sent (snd (parse settings w document_path mime_type st)) =
    requests_sent st.
Proof.
  intros Hep.
  assert (Hparse :
    parse settings w document_path mime_type st =
    (Raise (ParseError endpoint_missing_message),
     add_events st
       [Log Info ("Starting REST OCR parsing for " ++ document_path)%string])).
  { unfold parse, parse_body, bind.
    rewrite make_api_request_equation_1, Hep. reflexivity. }
  rewrite Hparse. cbn [fst snd].
  split; [reflexivity | split; [reflexivity|]].
  rewrite requests_sent_add. simpl. lia.
Qed.

Lemma parse_endpoint_not_configured_witness :
  truthy_str (api_endpoint Samples.unconfigured) = false /\
  fst (parse Samples.unconfigured (Samples.always Samples.server_error)
         Samples.document_path "text/plain" new_parser) =
    Raise (ParseError
             ("REST OCR endpoint is not configured. " ++
              "Set PAPERLESS_REST_OCR_ENDPOINT environment variable.")%string).
Proof.
  split; [reflexivity|].
  apply (parse_endpoint_not_configured Samples.unconfigured
           (Samples.always Samples.server_error) Samples.document_path
           "text/plain" new_parser).
  reflexivity.
Defined.

(** The calls in which every request fails.  With a retry count
    [N >= 1], a configured endpoint and a readable document, if every
    request fails with a failure to retry (a timeout, an HTTP error of
    status 500 or more, another exception of the requests library),
    [make_api_request] sends exactly [N] requests, numbered 1 to [N], and
    raises a [ParseError].  The handlers of a timeout and of a request
    exception end their message with "All N attempts failed"; the handler
    of an HTTP error raises the message that it logged, the one of a
    client error, to which it adds nothing. *)
Theorem make_api_request_exhausts_retries
  (settings : RestOcrConfig) (w : world) (document_path mime_type : string)
  (st : parser) (b : string) :
  1 <= retry_count settings ->
  truthy_str (api_endpoint settings) = true ->
  file_bytes w document_path = Ok b ->
  (forall i r, retryable (transport w i r) = true) ->
  exists new msg,
    snd (make_api_request settings w document_path mime_type 1 st) =
      add_events st new /\
    attempts_of new = Zseq 1 (Z.to_nat (retry_count settings)) /\
    Z.of_nat (List.length (filter is_post new)) = retry_count settings /\
    fst (make_api_request settings w document_path mime_type 1 st) =
      Raise (ParseError msg) /\
    match transport w (requests_sent st + Z.to_nat (retry_count settings - 1))%nat
            (build_request settings (payload_of settings b mime_type)) with
    | HTTPError status_code text => msg = http_error_message status_code text
    | _ =>
        Py.contains
          ("All " ++ Py.str_of_int (retry_count settings) ++ " attempts failed")%string
          msg = true
    end.
Proof.
  intros HN Hep Hfile Hall.
  destruct (run_exhausts settings w document_path mime_type 1 st _ b
              Hall Hfile Hep HN
              (make_api_request_run settings w document_path mime_type 1 st))
    as [new [Hst [Hatt Hres]]].
  replace (retry_count settings - 1 + 1) with (retry_count settings) in Hatt by lia.
  specialize (Hall (requests_sent st + Z.to_nat (retry_count settings - 1))%nat
                (build_request settings (payload_of settings b mime_type))).
  destruct (transport w (requests_sent st + Z.to_nat (retry_count settings - 1))%nat
              (build_request settings (payload_of settings b mime_type)))
    as [e|c t|e|cls m|body t]; try discriminate Hall; simpl in Hres.
  all: exists new; eexists; split; [exact Hst|]; split; [exact Hatt|].
  all: split; [rewrite <- length_attempts_of, Hatt, length_Zseq; lia|].
  all: split; [exact Hres|].
  all: first [reflexivity | apply contains_all_attempts_failed].
Qed.

Lemma make_api_request_exhausts_retries_witness :
  exists new msg,
    snd (make_api_request (Samples.configured 3) (Samples.always Samples.timed_out)
           Samples.document_path "text/plain" 1 new_parser) =
      add_events new_parser new /\
    attempts_of new = [1; 2; 3] /\
    Z.of_nat (List.length (filter is_post new)) = 3 /\
    fst (make_api_request (Samples.configured 3) (Samples.always Samples.timed_out)
           Samples.document_path "text/plain" 1 new_parser) =
      Raise (ParseError msg) /\
    Py.contains "All 3 attempts failed" msg = true.
Proof.
  apply (make_api_request_exhausts_retries (Samples.configured 3)
           (Samples.always Samples.timed_out) Samples.document_path
           "text/plain" new_parser "Test document").
  - simpl. lia.
  - reflexivity.
  - reflexivity.
  - intros i r. reflexivity.
Defined.

(** C3, at the input where the code departs from it.  With a retry count of 2
    and a server that answers every request with status 500, two requests
    are sent, and the [ParseError] that ends the call has the message of
    the HTTP error alone: "All 2 attempts failed" is not in it.  The same
    call ends with that sentence when the two requests time out, and when
    they fail with another exception of the requests library: of the three
    handlers, the one of the HTTP error is the only one that does not add
    it. *)
Lemma server_error_message_has_no_attempt_count :
  retry_count (Samples.configured 2) = 2 /\
  retryable Samples.server_error = true /\
  attempts_of
    (trace (snd (make_api_request (Samples.configured 2)
                   (Samples.always Samples.server_error)
                   Samples.document_path "text/plain" 1 new_parser))) = [1; 2] /\
  fst (make_api_request (Samples.configured 2)
         (Samples.always Samples.server_error)
         Samples.document_path "text/plain" 1 new_parser) =
    Raise (ParseError
             "REST OCR API returned HTTP error: 500 - Internal Server Error") /\
  Py.contains "All 2 attempts failed"
    "REST OCR API returned HTTP error: 500 - Internal Server Error" = false /\
  fst (make_api_request (Samples.configured 2)
         (Samples.always Samples.timed_out)
         Samples.document_path "text/plain" 1 new_parser) =
    Raise (ParseError
             "REST OCR request timed out after 30 seconds. All 2 attempts failed.") /\
  fst (make_api_request (Samples.configured 2)
         (Samples.always (RequestException "Connection refused"))
         Samples.document_path "text/plain" 1 new_parser) =
    Raise (ParseError
             "REST OCR request failed: Connection refused. All 2 attempts failed.").
Proof. repeat split; vm_compute; reflexivity. Qed.

(** C4. Whatever the retry count, an HTTP error with a status from 400 to
    499 ends the call at once: one request, no backoff sleep, and a
    [ParseError] with the message of the HTTP error. *)
Theorem make_api_request_client_error
  (settings : RestOcrConfig) (w : world) (document_path mime_type : string)
  (st : parser) (b : string) (status_code : Z) (text : string) :
  truthy_str (api_endpoint settings) = true ->
  file_bytes w document_path = Ok b ->
  transport w (requests_sent st)
    (build_request settings (payload_of settings b mime_type)) =
    HTTPError status_code text ->
  400 <= status_code <= 499 ->
  exists new,
    make_api_request settings w document_path mime_type 1 st =
      (Raise (ParseError (http_error_message status_code text)),
       add_events st new) /\
    attempts_of new = [1] /\
    List.length (filter is_post new) = 1%nat /\
    filter is_sleep new = [].
Proof.
  intros Hep Hfile Ho Hc.
  eexists. split.
  - apply (make_api_request_terminal settings w document_path mime_type 1 st b
             _ Hep Hfile Ho).
    left. simpl. lia.
  - repeat split; reflexivity.
Qed.

Lemma make_api_request_client_error_witness :
  exists new,
    make_api_request (Samples.configured 3) (Samples.always Samples.bad_request)
      Samples.document_path "text/plain" 1 new_parser =
      (Raise (ParseError (http_error_message 400 "Bad Request")),
       add_events new_parser new) /\
    attempts_of new = [1] /\
    List.length (filter is_post new) = 1%nat /\
    filter is_sleep new = [].
Proof.
  apply (make_api_request_client_error (Samples.configured 3)
           (Samples.always Samples.bad_request) Samples.document_path
           "text/plain" new_parser "Test document" 400 "Bad Request").
  - reflexivity.
  - reflexivity.
  - reflexivity.
  - lia.
Defined.

(** C7, as the code has it.  The calls of [make_api_request] that start
    with attempt 1 number their requests 1, 2, ..., [k], and [k] is at
    most the retry count [N], or 1 where [N] is less than 1: no attempt
    number exceeds the larger of [N] and 1. *)
Theorem make_api_request_attempts_bounded
  (settings : RestOcrConfig) (w : world) (document_path mime_type : string)
  (st : parser) :
  exists new k,
    snd (make_api_request settings w document_path mime_type 1 st) =
      add_events st new /\
    attempts_of new = Zseq 1 k /\
    Z.of_nat k <= Z.max 1 (retry_count settings) /\
    forall n req, In (Post n req) new ->
                  1 <= n <= Z.max 1 (retry_count settings).
Proof.
  destruct (run_attempts_bounded settings w document_path mime_type 1 st _
              (make_api_request_run settings w document_path mime_type 1 st))
    as [new [k [Hst [Hatt Hk]]]].
  exists new, k. split; [exact Hst|]. split; [exact Hatt|].
  split; [lia|].
  intros n req Hin. apply in_attempts_of in Hin.
  rewrite Hatt in Hin. apply in_Zseq in Hin. lia.
Qed.

(** C7 fails as it is stated: with a retry count of 0 the request of
    attempt 1 is sent, and 1 exceeds 0. *)
Lemma attempt_exceeds_zero_retry_count :
  retry_count (Samples.configured 0) = 0 /\
  attempts_of
    (trace (snd (make_api_request (Samples.configured 0)
                   (Samples.always Samples.timed_out)
                   Samples.document_path "text/plain" 1 new_parser))) = [1] /\
  retry_count (Samples.configured 0) < 1.
Proof. repeat split; vm_compute; reflexivity. Qed.

(** C8. In a call of [make_api_request] that starts with attempt 1, the
    request of an attempt [n > 1] comes right after a sleep of
    [(n - 1) * 2] seconds, the reading of the document and the log line of
    the attempt; nothing sleeps before the request of attempt 1. *)
Theorem make_api_request_backoff
  (settings : RestOcrConfig) (w : world) (document_path mime_type : string)
  (st : parser) (pre post : list event) (n : Z) (req : request) :
  trace (snd (make_api_request settings w document_path mime_type 1 st)) =
    trace st ++ pre ++ Post n req :: post ->
  (n = 1 /\ filter is_sleep pre = []) \/
  (1 < n /\
   exists pre',
     pre = pre' ++ [Sleep ((n - 1) * 2); ReadFile document_path;
                    Log Debug (debug_message settings n)]).
Proof.
  intros Htrace.
  destruct (run_backoff settings w document_path mime_type 1 st _
              (make_api_request_run settings w document_path mime_type 1 st))
    as [new [Hst Hctx]].
  rewrite Hst in Htrace. cbn [add_events trace] in Htrace.
  apply app_inv_head in Htrace.
  destruct (Hctx _ _ _ _ Htrace) as [[-> ->] | [Hlt Hpre]].
  - left. split; reflexivity.
  - right. split; assumption.
Qed.

Lemma make_api_request_backoff_witness :
  (2 = 1 /\ filter is_sleep Samples.before_second_request = []) \/
  (1 < 2 /\
   exists pre',
     Samples.before_second_request =
     pre' ++ [Sleep ((2 - 1) * 2); ReadFile Samples.document_path;
              Log Debug (debug_message (Samples.configured 3) 2)]).
Proof.
  apply (make_api_request_backoff (Samples.configured 3)
           (Samples.always Samples.server_error) Samples.document_path
           "text/plain" new_parser Samples.before_second_request
           Samples.after_second_request 2 Samples.sample_request).
  vm_compute. reflexivity.
Defined.

(* ===================================================================== *)
(** * The generic REST backend: the text that [parse] stores *)
(* ===================================================================== *)

Local Open Scope string_scope.

Lemma lstrip_spec (s : string) :
  exists l, s = l ++ Py.lstrip s /\ Py.all_space l = true /\
            Py.starts_with_space (Py.lstrip s) = false.
Proof.
  induction s as [|c s [l [Hs [Hl Hstart]]]].
  - exists EmptyString. repeat split.
  - simpl. destruct (Py.isspace c) eqn:Hc.
    + exists (String c l). simpl. rewrite Hc, Hl. repeat split; [|exact Hstart].
      now rewrite <- Hs.
    + exists EmptyString. repeat split. simpl. exact Hc.
Qed.

Lemma rstrip_spec (s : string) :
  exists r, s = Py.rstrip s ++ r /\ Py.all_space r = true /\
            Py.ends_with_space (Py.rstrip s) = false.
Proof.
  induction s as [|c s [r [Hs [Hr Hend]]]].
  - exists EmptyString. repeat split.
  - simpl. destruct (Py.rstrip s) as [|x y] eqn:Hrs.
    + destruct (Py.isspace c) eqn:Hc.
      * exists (String c r). simpl in *. rewrite Hc, Hr. subst s. repeat split.
      * exists r. simpl in *. subst s. repeat split; assumption.
    + exists r. split; [simpl in *; now f_equal|]. split; [exact Hr|].
      exact Hend.
Qed.

Lemma rstrip_keeps_start (s : string) :
  Py.starts_with_space s = false ->
  Py.starts_with_space (Py.rstrip s) = false.
Proof.
  destruct s as [|c s]; simpl; [reflexivity|]. intros Hc.
  destruct (Py.rstrip s); [rewrite Hc|]; simpl; [exact Hc | exact Hc].
Qed.

(** [s.strip()] is [s] without a prefix and a suffix of white space, and
    neither starts nor ends with white space. *)
Lemma strip_spec (s : string) :
  exists l r,
    s = l ++ Py.strip s ++ r /\
    Py.all_space l = true /\ Py.all_space r = true /\
    Py.starts_with_space (Py.strip s) = false /\
    Py.ends_with_space (Py.strip s) = false.
Proof.
  destruct (lstrip_spec s) as [l [Hs [Hl Hstart]]].
  destruct (rstrip_spec (Py.lstrip s)) as [r [Hs' [Hr Hend]]].
  exists l, r. unfold Py.strip.
  split; [now rewrite <- Hs'|].
  repeat split; try assumption. now apply rstrip_keeps_start.
Qed.

Lemma lstrip_all_space (s : string) :
  Py.all_space s = true -> Py.lstrip s = EmptyString.
Proof.
  induction s as [|c s IH]; simpl; [reflexivity|].
  intros H. apply andb_true_iff in H. destruct H as [Hc Hs].
  rewrite Hc. now apply IH.
Qed.

Lemma strip_all_space (s : string) :
  Py.all_space s = true -> Py.strip s = EmptyString.
Proof. intros H. unfold Py.strip. now rewrite lstrip_all_space. Qed.

Lemma length_zero (s : string) :
  (Z.of_nat (String.length s) =? 0)%Z = String.eqb s EmptyString.
Proof. destruct s; simpl; [reflexivity|]. destruct (String.length s); reflexivity. Qed.

(** C10, as the code has it.  When the request succeeds, [parse] takes
    a value [v] from the response and does one of three things.  A value
    that Python takes as false (null, false, 0, the empty string, an empty
    list or object) passes the test [not text]: [parse] stores the empty
    string and succeeds.  A string [t] is stored as [t.strip()], that is
    [t] without the white space at its two ends, which is the empty string
    for a [t] of white space only; [parse] succeeds.  Any other value is
    taken as true and has no [strip]: the [AttributeError] becomes the
    [ParseError] of an unexpected error, and the parser is left as the
    request left it, with no text stored.  When no value can be taken from
    the response, [parse] raises as well and stores nothing: the
    [ParseError] of [extract_text_from_response] as it is, any other
    exception as the [ParseError] of an unexpected error. *)
Theorem parse_stores_extracted_text
  (settings : RestOcrConfig) (w : world) (document_path mime_type : string)
  (st st1 : parser) (response_data : json) :
  make_api_request settings w document_path mime_type 1
    (add_events st [Log Info ("Starting REST OCR parsing for " ++ document_path)]) =
    (Ok response_data, st1) ->
  match extract_text_from_response response_data with
  | Ok v =>
      (truthy v = false ->
       exists st',
         parse settings w document_path mime_type st = (Ok tt, st') /\
         text st' = Some EmptyString) /\
      (forall t, v = JStr t ->
       exists st',
         parse settings w document_path mime_type st = (Ok tt, st') /\
         text st' = Some (Py.strip t) /\
         (exists l r,
            t = l ++ Py.strip t ++ r /\
            Py.all_space l = true /\ Py.all_space r = true /\
            Py.starts_with_space (Py.strip t) = false /\
            Py.ends_with_space (Py.strip t) = false) /\
         (Py.all_space t = true -> text st' = Some EmptyString)) /\
      (truthy v = true -> (forall t, v <> JStr t) ->
       parse settings w document_path mime_type st =
         (Raise (ParseError
                   ("Unexpected error during REST OCR parsing: AttributeError: '" ++
                    type_name v ++ "' object has no attribute 'strip'")),
          st1))
  | Raise (ParseError msg) =>
      parse settings w document_path mime_type st = (Raise (ParseError msg), st1)
  | Raise (PyExc cls msg) =>
      parse settings w document_path mime_type st =
        (Raise (ParseError
                  ("Unexpected error during REST OCR parsing: " ++
                   cls ++ ": " ++ msg)),
         st1)
  end.
Proof.
  intros Hreq.
  destruct (extract_text_from_response response_data) as [v|[msg|cls msg]] eqn:Hext.
  2: { unfold parse. rewrite after_log.
       unfold parse_body. unfold bind at 1. rewrite Hreq.
       unfold bind at 1. unfold lift at 1. rewrite Hext. reflexivity. }
  2: { unfold parse. rewrite after_log.
       unfold parse_body. unfold bind at 1. rewrite Hreq.
       unfold bind at 1. unfold lift at 1. rewrite Hext. reflexivity. }
  assert (Hparse :
    parse settings w document_path mime_type st =
    match
      (empty <- lift (text_is_empty v) ;;
       _ <- (if empty : bool
             then (_ <- log Warning "REST OCR returned empty text" ;;
                   set_text EmptyString)
             else (stripped <- lift (py_strip v) ;;
                   _ <- set_text stripped ;;
                   log Info ("Successfully extracted " ++
                             Py.str_of_int (Z.of_nat (String.length stripped)) ++
                             " characters via REST OCR"))) ;;
       if String.eqb mime_type "application/pdf"
       then set_archive_path None
       else set_archive_path None)%rest st1
    with
    | (Ok tt, st') => (Ok tt, st')
    | (Raise (ParseError msg), st') => (Raise (ParseError msg), st')
    | (Raise (PyExc cls msg), st') =>
        (Raise (ParseError
                  ("Unexpected error during REST OCR parsing: " ++
                   cls ++ ": " ++ msg)), st')
    end).
  { unfold parse. rewrite after_log.
    unfold parse_body. unfold bind at 1. rewrite Hreq.
    unfold bind at 1. unfold lift at 1. rewrite Hext. reflexivity. }
  rewrite Hparse. clear Hparse Hreq Hext.
  split; [|split].
  - intros Hfalse.
    unfold bind at 1. unfold lift at 1.
    unfold text_is_empty. rewrite Hfalse. cbn [negb].
    destruct (String.eqb mime_type "application/pdf");
      eexists; (split; [reflexivity|]); reflexivity.
  - intros t ->.
    assert (Hstored : exists st',
      match
        (empty <- lift (text_is_empty (JStr t)) ;;
         _ <- (if empty : bool
               then (_ <- log Warning "REST OCR returned empty text" ;;
                     set_text EmptyString)
               else (stripped <- lift (py_strip (JStr t)) ;;
                     _ <- set_text stripped ;;
                     log Info ("Successfully extracted " ++
                               Py.str_of_int (Z.of_nat (String.length stripped)) ++
                               " characters via REST OCR"))) ;;
         if String.eqb mime_type "application/pdf"
         then set_archive_path None
         else set_archive_path None)%rest st1
      with
      | (Ok tt, st') => (Ok tt, st')
      | (Raise (ParseError msg), st') => (Raise (ParseError msg), st')
      | (Raise (PyExc cls msg), st') =>
          (Raise (ParseError
                    ("Unexpected error during REST OCR parsing: " ++
                     cls ++ ": " ++ msg)), st')
      end = (Ok tt, st') /\ text st' = Some (Py.strip t)).
    { unfold bind at 1. unfold lift at 1.
      unfold text_is_empty. cbn [truthy py_strip bind_result].
      rewrite length_zero.
      destruct (String.eqb t EmptyString) eqn:Ht; cbn [negb].
      - apply String.eqb_eq in Ht; subst t.
        destruct (String.eqb mime_type "application/pdf");
          eexists; (split; [reflexivity|]); reflexivity.
      - destruct (String.eqb (Py.strip t) EmptyString) eqn:Hs.
        + apply String.eqb_eq in Hs. rewrite Hs.
          destruct (String.eqb mime_type "application/pdf");
            eexists; (split; [reflexivity|]); reflexivity.
        + destruct (String.eqb mime_type "application/pdf");
            eexists; (split; [reflexivity|]); reflexivity. }
    destruct Hstored as [st' [Hparse Htext]].
    exists st'. split; [exact Hparse|]. split; [exact Htext|].
    split; [apply strip_spec|].
    intros Hspace. now rewrite Htext, strip_all_space.
  - intros Htrue Hnot.
    unfold bind at 1. unfold lift at 1.
    unfold text_is_empty. rewrite Htrue. cbn [negb].
    destruct v as [|b|n|t|l|d];
      [reflexivity|reflexivity|reflexivity| |reflexivity|reflexivity].
    exfalso. now apply (Hnot t).
Qed.

Lemma parse_stores_extracted_text_witness :
  exists st',
    parse (Samples.configured 3)
      (Samples.always (Response (Some (JDict [("text", JNull)])) EmptyString))
      Samples.document_path "text/plain" new_parser = (Ok tt, st') /\
    text st' = Some EmptyString.
Proof.
  destruct (parse_stores_extracted_text (Samples.configured 3)
              (Samples.always (Response (Some (JDict [("text", JNull)])) EmptyString))
              Samples.document_path "text/plain" new_parser
              (snd (make_api_request (Samples.configured 3)
                      (Samples.always
                         (Response (Some (JDict [("text", JNull)])) EmptyString))
                      Samples.document_path "text/plain" 1
                      (add_events new_parser
                         [Log Info ("Starting REST OCR parsing for " ++
                                    Samples.document_path)])))
              (JDict [("text", JNull)]))
    as [Hfalse _].
  - vm_compute. reflexivity.
  - apply Hfalse. reflexivity.
Defined.

(** C10 fails as it is stated: the request succeeds, the response is an
    object whose [text] member is the number 5, and [parse] neither stores
    a text nor succeeds.  The number is taken as true, so that [strip] is
    called on it, and the [AttributeError] becomes a [ParseError]. *)
Lemma parse_raises_on_number_as_text :
  fst (make_api_request (Samples.configured 1)
         (Samples.always (Response (Some (JDict [("text", JInt 5)])) EmptyString))
         Samples.document_path "text/plain" 1 new_parser) =
    Ok (JDict [("text", JInt 5)]) /\
  extract_text_from_response (JDict [("text", JInt 5)]) = Ok (JInt 5) /\
  fst (parse (Samples.configured 1)
         (Samples.always (Response (Some (JDict [("text", JInt 5)])) EmptyString))
         Samples.document_path "text/plain" new_parser) =
    Raise (ParseError
             ("Unexpected error during REST OCR parsing: AttributeError: " ++
              "'int' object has no attribute 'strip'")) /\
  text (snd (parse (Samples.configured 1)
               (Samples.always
                  (Response (Some (JDict [("text", JInt 5)])) EmptyString))
               Samples.document_path "text/plain" new_parser)) = None.
Proof. repeat split; vm_compute; reflexivity. Qed.

(* ===================================================================== *)
(** * The provider backends *)
(* ===================================================================== *)

Lemma truthy_str_false (o : option string) :
  truthy_str o = false <-> Remote.empty_setting o.
Proof.
  unfold Remote.empty_setting. destruct o as [s|]; simpl.
  - destruct (String.eqb s EmptyString) eqn:E; simpl.
    + apply String.eqb_eq in E; subst s. split; [now right | reflexivity].
    + split; [discriminate|]. intros [H|H]; [discriminate|].
      injection H as ->. discriminate E.
  - split; [now left | reflexivity].
Qed.

(** The configuration is invalid exactly when the engine is not one of
    the two known ones, or the key is empty, or the endpoint is empty. *)
Lemma engine_is_valid_false (c : Remote.RemoteEngineConfig) :
  Remote.engine_is_valid c = false <->
  ~ In (Remote.engine c) [Some "azureai"; Some "ocrbridge-ocrmac"] \/
  Remote.empty_setting (Remote.api_key c) \/
  Remote.empty_setting (Remote.endpoint c).
Proof.
  unfold Remote.engine_is_valid.
  rewrite !andb_false_iff, !truthy_str_false.
  assert (Hengine :
    match Remote.engine c with
    | Some e => existsb (String.eqb e) ["azureai"; "ocrbridge-ocrmac"]
    | None => false
    end = false <->
    ~ In (Remote.engine c) [Some "azureai"; Some "ocrbridge-ocrmac"]).
  { destruct (Remote.engine c) as [e|]; simpl.
    - rewrite orb_false_r, orb_false_iff, !String.eqb_neq. split.
      + intros [H1 H2] [H|[H|[]]]; injection H as H; congruence.
      + intros H. split; intros ->; apply H; auto.
    - split; [|reflexivity]. intros _ [H|[H|[]]]; discriminate H. }
  rewrite Hengine. tauto.
Qed.

(** C2. With an invalid configuration (an engine that is not [azureai]
    or [ocrbridge-ocrmac], an empty key or an empty endpoint) [parse]
    raises nothing, sets the text to the empty string, and its only effect
    is a warning in the log: no call goes to the network. *)
Theorem parse_invalid_configuration
  (settings : Remote.RemoteEngineConfig) (w : Remote.world)
  (tempdir document_path mime_type : string) (st : Remote.parser) :
  ~ In (Remote.engine settings) [Some "azureai"; Some "ocrbridge-ocrmac"] \/
  Remote.empty_setting (Remote.api_key settings) \/
  Remote.empty_setting (Remote.endpoint settings) ->
  fst (Remote.parse settings w tempdir document_path mime_type st) = Ok tt /\
  Remote.text (snd (Remote.parse settings w tempdir document_path mime_type st)) =
    Some EmptyString /\
  Remote.trace (snd (Remote.parse settings w tempdir document_path mime_type st)) =
    (Remote.trace st ++
     [Remote.Log Warning
        "No valid remote parser engine is configured, content will be empty."])%list /\
  filter Remote.is_network
    (Remote.trace (snd (Remote.parse settings w tempdir document_path mime_type st))) =
    filter Remote.is_network (Remote.trace st).
Proof.
  intros Hinvalid. apply engine_is_valid_false in Hinvalid.
  unfold Remote.parse. rewrite Hinvalid. cbn.
  repeat split. rewrite filter_app. cbn. now rewrite app_nil_r.
Qed.

Lemma parse_invalid_configuration_witness :
  fst (Remote.parse Samples.no_engine (Samples.bridge_world None None)
         Samples.tempdir Samples.pdf_path "application/pdf" Remote.new_parser) =
    Ok tt /\
  Remote.text
    (snd (Remote.parse Samples.no_engine (Samples.bridge_world None None)
            Samples.tempdir Samples.pdf_path "application/pdf" Remote.new_parser)) =
    Some EmptyString.
Proof.
  split;
    apply (parse_invalid_configuration Samples.no_engine
             (Samples.bridge_world None None) Samples.tempdir Samples.pdf_path
             "application/pdf" Remote.new_parser);
    right; left; left; reflexivity.
Defined.

(** C9, as the code has it.  When the bridge server accepts the request,
    [ocrbridge_ocrmac_parse] lower-cases the [content-type] header of the
    response and looks for [application/pdf] inside it.  Without it, a
    [ParseError] says "expected PDF response" and names the lower-cased
    header, or "unknown content type" for a missing or empty header.  With
    it, the content is written and its text extracted: the text is the
    result, and a [ParseError] is raised when there is none.  All this is
    for an endpoint that is a string; with the endpoint [None] the call
    raises its [AttributeError] before any request. *)
Theorem ocrbridge_ocrmac_parse_accepted
  (settings : Remote.RemoteEngineConfig) (w : Remote.world)
  (tempdir file mime_type : string) (st : Remote.parser)
  (document : string) (header : option string) (content : string) :
  Remote.file_bytes w file = Ok document ->
  Remote.httpx_post w (Remote.build_request settings w file mime_type document) =
    Remote.Accepted header content ->
  fst (Remote.ocrbridge_ocrmac_parse settings w tempdir file mime_type st) =
    match Remote.endpoint settings with
    | None => Raise Remote.endpoint_error
    | Some _ =>
        let content_type :=
          Py.lower (match header with Some h => h | None => EmptyString end) in
        if Py.contains "application/pdf" content_type then
          match Remote.write_bytes w (tempdir ++ "/archive.pdf") content with
          | Ok _ =>
              match Remote.extract_text w content with
              | Ok (Some t) => Ok t
              | Ok None =>
                  Raise (ParseError
                           ("OCRBridge OCRMac parsing failed: " ++
                            "unable to extract text from PDF response"))
              | Raise e => Raise (Remote.reraised e)
              end
          | Raise e => Raise (Remote.reraised e)
          end
        else
          Raise (ParseError
                   ("OCRBridge OCRMac parsing failed: expected PDF response, got " ++
                    (if String.eqb content_type EmptyString
                     then "unknown content type" else content_type)))
    end.
Proof.
  intros Hfile Hpost.
  unfold Remote.ocrbridge_ocrmac_parse, Remote.request_url.
  destruct (Remote.endpoint settings) as [e|]; [|reflexivity].
  unfold Remote.ocrbridge_ocrmac_request.
  unfold Remote.bind at 1. cbn [Remote.emit].
  unfold Remote.bind at 1. unfold Remote.lift at 1. rewrite Hfile.
  unfold Remote.bind at 1. cbn [Remote.emit]. rewrite Hpost. cbv zeta.
  destruct (Py.contains "application/pdf"
              (Py.lower match header with Some h => h | None => EmptyString end));
    cbn [negb]; [|reflexivity].
  unfold Remote.bind at 1. cbn [Remote.set_archive_path].
  unfold Remote.bind at 1. cbn [Remote.emit].
  unfold Remote.bind at 1. unfold Remote.lift at 1.
  destruct (Remote.write_bytes w (tempdir ++ "/archive.pdf") content) as [[]|[m|cls m]];
    [|reflexivity|reflexivity].
  unfold Remote.bind at 1. cbn [Remote.emit].
  unfold Remote.bind at 1. unfold Remote.lift at 1.
  destruct (Remote.extract_text w content) as [[t|]|[m|cls m]]; reflexivity.
Qed.

Lemma ocrbridge_ocrmac_parse_accepted_witness :
  fst (Remote.ocrbridge_ocrmac_parse Samples.bridge_engine
         (Samples.bridge_world (Some "application/json") None)
         Samples.tempdir Samples.pdf_path "application/pdf" Remote.new_parser) =
    Raise (ParseError
             "OCRBridge OCRMac parsing failed: expected PDF response, got application/json").
Proof.
  apply (ocrbridge_ocrmac_parse_accepted Samples.bridge_engine
           (Samples.bridge_world (Some "application/json") None)
           Samples.tempdir Samples.pdf_path "application/pdf" Remote.new_parser
           "%PDF-1.7 document" (Some "application/json") "%PDF-1.7 FAKEPDF").
  - reflexivity.
  - reflexivity.
Defined.

(** C9 fails as it is stated: a response whose content type is
    [text/html], with a parameter that mentions [application/pdf], is not
    of the PDF media type, and the call succeeds with the extracted
    text. *)
Lemma ocrbridge_ocrmac_parse_accepts_other_media_type :
  String.eqb (Py.lower "text/html; alt=application/pdf") "application/pdf" = false /\
  Py.startswith "application/pdf" (Py.lower "text/html; alt=application/pdf") = false /\
  fst (Remote.ocrbridge_ocrmac_parse Samples.bridge_engine
         (Samples.bridge_world (Some "text/html; alt=application/pdf")
            (Some "This is OCRBridge text."))
         Samples.tempdir Samples.pdf_path "application/pdf" Remote.new_parser) =
    Ok "This is OCRBridge text.".
Proof. repeat split; vm_compute; reflexivity. Qed.

(* ===================================================================== *)
(** * The scenarios of the repository's tests, run on the model *)
(* ===================================================================== *)

(** [test_extract_text_from_various_response_formats] *)
Example extract_text_formats :
  map extract_text_from_response
    [JDict [("text", JStr "Sample text")];
     JDict [("content", JStr "Sample text")];
     JDict [("ocr_text", JStr "Sample text")];
     JDict [("result", JStr "Sample text")];
     JDict [("result", JDict [("text", JStr "Sample text")])]] =
  repeat (Ok (JStr "Sample text")) 5.
Proof. reflexivity. Qed.

Example extract_text_no_match :
  extract_text_from_response
    (JDict [("hocr", JStr "<html></html>"); ("result", JInt 3)]) =
  Raise (ParseError
           ("Could not extract text from REST OCR response. " ++
            "Response keys: ['hocr', 'result']")).
Proof. reflexivity. Qed.

(** A body that is not an object: the tests of membership or the call of
    [keys] raise, and [parse] reports the class of the exception. *)
Example extract_text_from_list :
  extract_text_from_response (JList [JStr "a"]) =
  Raise (PyExc "AttributeError" "'list' object has no attribute 'keys'").
Proof. reflexivity. Qed.

(** [test_api_key_authentication] *)
Example api_key_headers :
  construct_request_headers (Samples.configured 3) =
  [("Content-Type", "application/json"); ("X-API-Key", "test-api-key")].
Proof. reflexivity. Qed.

(** [test_http_400_error_no_retry]: [requests.post] is called once. *)
Example bad_request_is_not_retried :
  requests_sent
    (snd (parse (Samples.configured 3) (Samples.always Samples.bad_request)
            Samples.document_path "text/plain" new_parser)) = 1%nat.
Proof. reflexivity. Qed.

(** [test_api_timeout_with_retry], with a retry count of 1. *)
Example timeout_message_of_one_attempt :
  fst (parse (Samples.configured 1) (Samples.always Samples.timed_out)
         Samples.document_path "text/plain" new_parser) =
  Raise (ParseError
           "REST OCR request timed out after 30 seconds. All 1 attempts failed.").
Proof. reflexivity. Qed.

(** A server error, then an answer: two requests, and the text of the
    answer without the white space around it. *)
Example recovers_on_second_attempt :
  let st := snd (parse (Samples.configured 2) Samples.recovers
                   Samples.document_path "text/plain" new_parser) in
  text st = Some "Sample text" /\
  attempts_of (trace st) = [1; 2] /\
  filter is_sleep (trace st) = [Sleep 2].
Proof. repeat split; reflexivity. Qed.

(** [test_get_text_with_ocrbridge_ocrmac_pdf] *)
Example bridge_pdf_response :
  let st := snd (Remote.parse Samples.bridge_engine
                   (Samples.bridge_world (Some "application/pdf")
                      (Some "This is OCRBridge text."))
                   Samples.tempdir Samples.pdf_path "application/pdf"
                   Remote.new_parser) in
  Remote.text st = Some "This is OCRBridge text." /\
  Remote.archive_path st = Some "/tmp/paperless/archive.pdf".
Proof. split; reflexivity. Qed.

(** [test_get_text_with_ocrbridge_ocrmac_http_error_raises_parse_error] *)
Example bridge_status_error_message :
  Remote.status_error_message 400
    (Some (JDict [("detail", JStr "Invalid request - unsupported file format");
                  ("error_code", JStr "UNSUPPORTED_FILE_FORMAT")])) =
  "OCRBridge OCRMac parsing failed: HTTP 400 - " ++
  "Invalid request - unsupported file format " ++
  "(error_code: UNSUPPORTED_FILE_FORMAT)".
Proof. reflexivity. Qed.

(** A missing [content-type] header. *)
Example bridge_unknown_content_type :
  fst (Remote.ocrbridge_ocrmac_parse Samples.bridge_engine
         (Samples.bridge_world None None)
         Samples.tempdir Samples.pdf_path "application/pdf" Remote.new_parser) =
  Raise (ParseError
           ("OCRBridge OCRMac parsing failed: expected PDF response, " ++
            "got unknown content type")).
Proof. reflexivity. Qed.

(** [test_get_text_with_azure_error_logged_and_returns_none] *)
Example azure_failure_gives_no_text :
  let st := snd (Remote.parse Samples.azure_engine
                   (Samples.bridge_world None None)
                   Samples.tempdir Samples.pdf_path "application/pdf"
                   Remote.new_parser) in
  Remote.text st = None /\
  Remote.trace st =
    [Remote.OpenFile Samples.pdf_path;
     Remote.AzureAnalyze "https://endpoint.cognitiveservices.azure.com"
       "somekey" "%PDF-1.7 document";
     Remote.Log Error "Azure AI Vision parsing failed: fail";
     Remote.AzureClose]%list.
Proof. split; reflexivity. Qed.

(** Basic authentication: the key, a colon and no password. *)
Example basic_auth_headers :
  construct_request_headers Samples.basic_auth =
  [("Content-Type", "application/json"); ("Authorization", "Basic dXNlcjo=")]%list.
Proof. reflexivity. Qed.

(* ===================================================================== *)
(** * Further properties of the retry loop *)
(* ===================================================================== *)

Import RestOcrTrace.
Local Open Scope list_scope.

Lemma Zsum_backoff (a : Z) (n : nat) :
  Zsum (map (fun x => x * 2) (Zseq a n)) = Z.of_nat n * (2 * a + Z.of_nat n - 1).
Proof.
  revert a. induction n as [|n IH]; intros a; [reflexivity|].
  cbn [Zseq map Zsum fold_right]. fold (Zsum (map (fun x => x * 2) (Zseq (a + 1) n))).
  rewrite IH. nia.
Qed.

Section RunProfile.
Variable settings : RestOcrConfig.
Variable w : world.
Variable document_path mime_type : string.

Let N := retry_count settings.
Let call := make_api_request settings w document_path mime_type.
Let runs := run settings w document_path mime_type.

Lemma sleeps_of_request (a : Z) (req : request) (o : outcome) (l : list event) :
  sleeps_of (request_events settings document_path a req ++ warning_of settings o ++ l) =
  sleeps_of l.
Proof.
  unfold request_events. cbn [app sleeps_of flat_map].
  change (flat_map _ ?l) with (sleeps_of l).
  unfold sleeps_of. rewrite flat_map_app.
  destruct o; reflexivity.
Qed.

Lemma requests_of_request (a : Z) (req : request) (o : outcome) (l : list event) :
  requests_of (request_events settings document_path a req ++ warning_of settings o ++ l) =
  req :: requests_of l.
Proof.
  unfold request_events. cbn [app requests_of flat_map].
  change (flat_map _ ?l) with (requests_of l).
  unfold requests_of. rewrite flat_map_app.
  destruct o; reflexivity.
Qed.

Lemma reads_of_request (a : Z) (req : request) (o : outcome) (l : list event) :
  reads_of (request_events settings document_path a req ++ warning_of settings o ++ l) =
  document_path :: reads_of l.
Proof.
  unfold request_events. cbn [app reads_of flat_map].
  change (flat_map _ ?l) with (reads_of l).
  unfold reads_of. rewrite flat_map_app.
  destruct o; reflexivity.
Qed.

(** The attempts, sleeps, requests and file reads of a run that starts
    with attempt [a]. *)
Lemma run_profile (a : Z) (st : parser) res :
  runs a st res ->
  exists new k,
    snd res = add_events st new /\
    attempts_of new = Zseq a k /\
    sleeps_of new = map (fun x => x * 2) (Zseq a (pred k)) /\
    Z.of_nat k <= Z.max 1 (N - a + 1) /\
    forall b,
      truthy_str (api_endpoint settings) = true ->
      file_bytes w document_path = Ok b ->
      (1 <= k)%nat /\
      requests_of new =
        repeat (build_request settings (payload_of settings b mime_type)) k /\
      reads_of new = repeat document_path k.
Proof.
  induction 1 as [a st Hep | a st e Hep Hfile | a st b o Hep Hfile req Ho Hlast
                 | a st b o res Hep Hfile req Ho Hretry Hlt Hrest IH].
  - exists [], O. split; [now rewrite add_events_nil|].
    repeat split; try reflexivity; try lia; congruence.
  - exists [ReadFile document_path], O.
    repeat split; try reflexivity; try lia; congruence.
  - eexists; exists 1%nat. split; [reflexivity|].
    rewrite <- (app_nil_r (warning_of settings o)).
    rewrite attempts_of_request, sleeps_of_request.
    split; [reflexivity|]. split; [reflexivity|]. split; [lia|].
    intros b' _ Hb'. assert (b' = b) by congruence; subst b'.
    rewrite requests_of_request, reads_of_request.
    repeat split; [lia].
  - destruct IH as [new [k [Hst [Hatt [Hsl [Hk Hreq]]]]]].
    destruct (Hreq b Hep Hfile) as [Hk1 [Hrq Hrd]].
    eexists; exists (S k). split; [rewrite Hst, add_events_app; reflexivity|].
    rewrite <- !app_assoc.
    rewrite attempts_of_request, sleeps_of_request.
    rewrite attempts_of_app.
    unfold sleeps_of at 1. rewrite flat_map_app. fold (sleeps_of new).
    cbn [backoff_events attempts_of sleeps_of flat_map app].
    rewrite Hatt, Hsl.
    split; [reflexivity|]. split.
    { destruct k as [|k]; [lia|]. reflexivity. }
    split; [subst N; lia|].
    intros b' _ Hb'. assert (b' = b) by congruence; subst b'.
    rewrite requests_of_request, reads_of_request.
    unfold requests_of, reads_of in *. cbn [flat_map app].
    rewrite Hrq, Hrd. subst req.
    repeat split; lia.
Qed.

End RunProfile.

Lemma requests_sent_after_attempt
  (settings : RestOcrConfig) (document_path : string)
  (st : parser) (a : Z) (req : request) (o : outcome) :
  requests_sent
    (add_events st
       (request_events settings document_path a req ++
        warning_of settings o ++ backoff_events a)) =
  S (requests_sent st).
Proof.
  rewrite requests_sent_add, <- length_attempts_of.
  rewrite attempts_of_request. cbn. lia.
Qed.

(** The value that [make_api_request] returns for a response. *)
Lemma make_api_request_after_failures
  (settings : RestOcrConfig) (w : world) (document_path mime_type : string)
  (b : string) (body : option json) (text : string) (k : nat) :
  truthy_str (api_endpoint settings) = true ->
  file_bytes w document_path = Ok b ->
  forall (a : Z) (st : parser),
  (forall i, (i < k)%nat ->
     retryable (transport w (requests_sent st + i)%nat
                  (build_request settings (payload_of settings b mime_type))) = true) ->
  transport w (requests_sent st + k)%nat
    (build_request settings (payload_of settings b mime_type)) =
    Response body text ->
  k = O \/ a + Z.of_nat k <= retry_count settings ->
  exists new,
    make_api_request settings w document_path mime_type a st =
      (Ok match body with
          | Some v => v
          | None => JDict [("text", JStr text)]
          end,
       add_events st new) /\
    attempts_of new = Zseq a (S k) /\
    sleeps_of new = map (fun x => x * 2) (Zseq a k).
Proof.
  intros Hep Hfile. induction k as [|k IH]; intros a st Hfail Hresp Hk.
  - rewrite Nat.add_0_r in Hresp.
    eexists. split.
    + rewrite (make_api_request_terminal settings w document_path mime_type
                 a st b _ Hep Hfile Hresp) by (left; reflexivity).
      destruct body; reflexivity.
    + cbn [warning_of]. rewrite app_nil_r. split; reflexivity.
  - destruct Hk as [Hk | Hk]; [discriminate|].
    pose proof (Hfail O ltac:(lia)) as H0. rewrite Nat.add_0_r in H0.
    rewrite (make_api_request_retry settings w document_path mime_type
               a st b _ Hep Hfile eq_refl H0) by lia.
    set (o := transport w (requests_sent st)
                (build_request settings (payload_of settings b mime_type))) in *.
    destruct (IH (a + 1)
                (add_events st
                   (request_events settings document_path a
                      (build_request settings (payload_of settings b mime_type)) ++
                    warning_of settings o ++ backoff_events a)))
      as [new [Hcall [Hatt Hsl]]].
    + intros i Hi. rewrite requests_sent_after_attempt.
      replace (S (requests_sent st) + i)%nat with (requests_sent st + S i)%nat by lia.
      apply Hfail. lia.
    + rewrite requests_sent_after_attempt.
      replace (S (requests_sent st) + k)%nat with (requests_sent st + S k)%nat by lia.
      exact Hresp.
    + right. lia.
    + eexists. split; [rewrite Hcall, add_events_app; reflexivity|].
      rewrite <- !app_assoc.
      rewrite attempts_of_request, sleeps_of_request, attempts_of_app.
      unfold sleeps_of at 1. rewrite flat_map_app. fold (sleeps_of new).
      cbn [backoff_events attempts_of sleeps_of flat_map app].
      rewrite Hatt, Hsl. split; reflexivity.
Qed.

(** X1. When the first [k] requests fail with failures to retry, the
    next request is answered, and the retry count allows it ([k = 0] or
    [k + 1 <= N]), [make_api_request] returns the body of the answer (the
    text of the response as [{"text": ...}] when it is not JSON) after
    exactly [k + 1] requests, and has slept 2, 4, ..., [2 k] seconds
    between them. *)
Theorem make_api_request_recovers
  (settings : RestOcrConfig) (w : world) (document_path mime_type : string)
  (st : parser) (b : string) (body : option json) (text : string) (k : nat) :
  truthy_str (api_endpoint settings) = true ->
  file_bytes w document_path = Ok b ->
  (forall i, (i < k)%nat ->
     retryable (transport w (requests_sent st + i)%nat
                  (build_request settings (payload_of settings b mime_type))) = true) ->
  transport w (requests_sent st + k)%nat
    (build_request settings (payload_of settings b mime_type)) =
    Response body text ->
  k = O \/ 1 + Z.of_nat k <= retry_count settings ->
  exists new,
    make_api_request settings w document_path mime_type 1 st =
      (Ok match body with
          | Some v => v
          | None => JDict [("text", JStr text)]
          end,
       add_events st new) /\
    attempts_of new = Zseq 1 (S k) /\
    List.length (filter is_post new) = S k /\
    sleeps_of new = map (fun x => x * 2) (Zseq 1 k).
Proof.
  intros Hep Hfile Hfail Hresp Hk.
  destruct (make_api_request_after_failures settings w document_path mime_type
              b body text k Hep Hfile 1 st Hfail Hresp Hk)
    as [new [Hcall [Hatt Hsl]]].
  exists new. split; [exact Hcall|]. split; [exact Hatt|].
  split; [|exact Hsl].
  now rewrite <- length_attempts_of, Hatt, length_Zseq.
Qed.

Lemma make_api_request_recovers_witness :
  exists new,
    make_api_request (Samples.configured 3) MoreSamples.fails_twice
      Samples.document_path "text/plain" 1 new_parser =
      (Ok (JDict [("content", JStr "Sample text")]), add_events new_parser new) /\
    attempts_of new = [1; 2; 3] /\
    List.length (filter is_post new) = 3%nat /\
    sleeps_of new = [2; 4].
Proof.
  apply (make_api_request_recovers (Samples.configured 3) MoreSamples.fails_twice
           Samples.document_path "text/plain" new_parser "Test document"
           (Some (JDict [("content", JStr "Sample text")])) EmptyString 2).
  - reflexivity.
  - reflexivity.
  - intros i Hi. destruct i as [|[|i]]; [reflexivity | reflexivity | lia].
  - reflexivity.
  - right. simpl. lia.
Defined.

(** X2. The sleeps of a call of [make_api_request] are 2, 4, ... seconds,
    one between two attempts, and their sum is at most [N * (N - 1)]
    seconds for a retry count [N >= 1]; with a retry count below 2 the
    call never sleeps. *)
Theorem make_api_request_total_backoff
  (settings : RestOcrConfig) (w : world) (document_path mime_type : string)
  (st : parser) :
  exists new k,
    snd (make_api_request settings w document_path mime_type 1 st) =
      add_events st new /\
    sleeps_of new = map (fun x => x * 2) (Zseq 1 (pred k)) /\
    List.length (sleeps_of new) = pred (List.length (attempts_of new)) /\
    Zsum (sleeps_of new) <=
      Z.max 1 (retry_count settings) * (Z.max 1 (retry_count settings) - 1) /\
    (retry_count settings < 2 -> sleeps_of new = []).
Proof.
  destruct (run_profile settings w document_path mime_type 1 st _
              (make_api_request_run settings w document_path mime_type 1 st))
    as [new [k [Hst [Hatt [Hsl [Hk _]]]]]].
  exists new, k. split; [exact Hst|]. split; [exact Hsl|].
  split; [now rewrite Hsl, Hatt, length_map, !length_Zseq|].
  split.
  - rewrite Hsl, Zsum_backoff. destruct k as [|k]; simpl pred; nia.
  - intros HN. rewrite Hsl.
    destruct k as [|[|k]]; [reflexivity | reflexivity | lia].
Qed.

(** X3. With a configured endpoint and a readable document, every
    attempt of [make_api_request] reads the document again and sends the
    same request: the payload and the headers do not change between the
    attempts, and at least one request is sent. *)
Theorem make_api_request_same_request
  (settings : RestOcrConfig) (w : world) (document_path mime_type : string)
  (st : parser) (b : string) :
  truthy_str (api_endpoint settings) = true ->
  file_bytes w document_path = Ok b ->
  exists new k,
    snd (make_api_request settings w document_path mime_type 1 st) =
      add_events st new /\
    (1 <= k)%nat /\
    requests_of new =
      repeat (build_request settings (payload_of settings b mime_type)) k /\
    reads_of new = repeat document_path k.
Proof.
  intros Hep Hfile.
  destruct (run_profile settings w document_path mime_type 1 st _
              (make_api_request_run settings w document_path mime_type 1 st))
    as [new [k [Hst [_ [_ [_ Hreq]]]]]].
  destruct (Hreq b Hep Hfile) as [Hk [Hrq Hrd]].
  exists new, k. repeat split; assumption.
Qed.

Lemma make_api_request_same_request_witness :
  exists new k,
    snd (make_api_request (Samples.configured 3) (Samples.always Samples.server_error)
           Samples.document_path "text/plain" 1 new_parser) =
      add_events new_parser new /\
    (1 <= k)%nat /\
    requests_of new = repeat Samples.sample_request k /\
    reads_of new = repeat Samples.document_path k.
Proof.
  apply (make_api_request_same_request (Samples.configured 3)
           (Samples.always Samples.server_error) Samples.document_path
           "text/plain" new_parser "Test document");
    reflexivity.
Defined.

(* ===================================================================== *)
(** * Further properties of [parse] of the generic REST backend *)
(* ===================================================================== *)

Local Open Scope string_scope.

Lemma make_api_request_state
  (settings : RestOcrConfig) (w : world) (document_path mime_type : string)
  (a : Z) (st : parser) :
  exists new,
    snd (make_api_request settings w document_path mime_type a st) =
    add_events st new.
Proof.
  destruct (run_profile settings w document_path mime_type a st _
              (make_api_request_run settings w document_path mime_type a st))
    as [new [k [Hst _]]].
  now exists new.
Qed.

(** X4. Every exception that leaves [parse] is a [ParseError]: the
    errors of the request, of the response and of the file system all
    arrive as one class. *)
Theorem parse_raises_only_parse_error
  (settings : RestOcrConfig) (w : world) (document_path mime_type : string)
  (st : parser) :
  fst (parse settings w document_path mime_type st) = Ok tt \/
  exists msg,
    fst (parse settings w document_path mime_type st) = Raise (ParseError msg).
Proof.
  unfold parse.
  destruct (parse_body settings w document_path mime_type
              (after (log Info ("Starting REST OCR parsing for " ++ document_path)) st))
    as [[[]|[m|cls m]] st1]; cbn [fst]; eauto.
Qed.



(** The attributes of the parser after the [try] block of [parse]. *)
Lemma parse_body_state
  (settings : RestOcrConfig) (w : world) (document_path mime_type : string)
  (st : parser) (r : pyresult unit) (st' : parser) :
  parse_body settings w document_path mime_type
    (add_events st [Log Info ("Starting REST OCR parsing for " ++ document_path)]) =
    (r, st') ->
  match r with
  | Ok _ => (exists t, text st' = Some t) /\ archive_path st' = None
  | Raise _ => text st' = text st /\ archive_path st' = archive_path st
  end.
Proof.
  intros E. unfold parse_body in E. unfold bind at 1 in E.
  destruct (make_api_request_state settings w document_path mime_type 1
              (add_events st
                 [Log Info ("Starting REST OCR parsing for " ++ document_path)]))
    as [new Hst].
  destruct (make_api_request settings w document_path mime_type 1
              (add_events st
                 [Log Info ("Starting REST OCR parsing for " ++ document_path)]))
    as [[response_data|e] st1]; cbn [snd] in Hst; subst st1;
    [|injection E as <- <-; split; reflexivity].
  unfold bind at 1, lift at 1 in E.
  destruct (extract_text_from_response response_data) as [v|e];
    [|injection E as <- <-; split; reflexivity].
  unfold bind at 1, lift at 1 in E.
  destruct (text_is_empty v) as [empty|e] eqn:Hempty;
    [|injection E as <- <-; split; reflexivity].
  destruct empty.
  - destruct (String.eqb mime_type "application/pdf");
      cbn in E; injection E as <- <-; cbn; split; eauto.
  - assert (Hstrip : exists s, py_strip v = Ok s).
    { unfold text_is_empty in Hempty.
      destruct (negb (truthy v)); [discriminate|].
      destruct (py_strip v) as [s|e]; [now exists s | discriminate]. }
    destruct Hstrip as [s Hs].
    unfold bind at 1 in E. unfold bind at 1 in E. unfold lift at 1 in E.
    rewrite Hs in E.
    destruct (String.eqb mime_type "application/pdf");
      cbn in E; injection E as <- <-; cbn; split; eauto.
Qed.

(** X6. [parse] assigns [self.text] and [self.archive_path] only when it
    succeeds: after a success the text is set and the archive path is
    [None]; after a failure both attributes are what they were. *)
Theorem parse_assigns_on_success_only
  (settings : RestOcrConfig) (w : world) (document_path mime_type : string)
  (st : parser) :
  match fst (parse settings w document_path mime_type st) with
  | Ok _ =>
      (exists t, text (snd (parse settings w document_path mime_type st)) = Some t) /\
      archive_path (snd (parse settings w document_path mime_type st)) = None
  | Raise _ =>
      text (snd (parse settings w document_path mime_type st)) = text st /\
      archive_path (snd (parse settings w document_path mime_type st)) =
        archive_path st
  end.
Proof.
  unfold parse. rewrite after_log.
  destruct (parse_body settings w document_path mime_type
              (add_events st [Log Info ("Starting REST OCR parsing for " ++ document_path)]))
    as [r st1] eqn:E.
  pose proof (parse_body_state settings w document_path mime_type st r st1 E)
    as Hbody.
  destruct r as [[]|[m|cls m]]; exact Hbody.
Qed.

(** The text that [parse] stores for a string of the response. *)
Lemma parse_with_text
  (settings : RestOcrConfig) (w : world) (document_path mime_type : string)
  (st st1 : parser) (response_data : json) (t : string) :
  make_api_request settings w document_path mime_type 1
    (add_events st [Log Info ("Starting REST OCR parsing for " ++ document_path)]) =
    (Ok response_data, st1) ->
  extract_text_from_response response_data = Ok (JStr t) ->
  exists st',
    parse settings w document_path mime_type st = (Ok tt, st') /\
    text st' = Some (Py.strip t) /\
    requests_sent st' = requests_sent st1.
Proof.
  intros Hreq Hext.
  unfold parse. rewrite after_log.
  unfold parse_body. unfold bind at 1. rewrite Hreq.
  unfold bind at 1. unfold lift at 1. rewrite Hext.
  unfold bind at 1. unfold lift at 1.
  unfold text_is_empty. cbn [truthy py_strip bind_result].
  rewrite length_zero.
  destruct (String.eqb t EmptyString) eqn:Ht; cbn [negb].
  - apply String.eqb_eq in Ht; subst t.
    destruct (String.eqb mime_type "application/pdf");
      eexists; (split; [reflexivity|]); split; try reflexivity;
      cbn; unfold requests_sent; cbn; rewrite filter_app, length_app; cbn; lia.
  - destruct (String.eqb (Py.strip t) EmptyString) eqn:Hs.
    + apply String.eqb_eq in Hs. rewrite Hs.
      destruct (String.eqb mime_type "application/pdf");
        eexists; (split; [reflexivity|]); split; try reflexivity;
        cbn; unfold requests_sent; cbn; rewrite filter_app, length_app; cbn; lia.
    + destruct (String.eqb mime_type "application/pdf");
        eexists; (split; [reflexivity|]); split; try reflexivity;
        cbn; unfold requests_sent; cbn; rewrite filter_app, length_app; cbn; lia.
Qed.

(** X7. A response whose body is not JSON is taken as text: when the
    first request is answered so, [parse] succeeds after that one request
    and stores the text of the response without the white space at its
    ends. *)
Theorem parse_non_json_response
  (settings : RestOcrConfig) (w : world) (document_path mime_type : string)
  (st : parser) (b t : string) :
  truthy_str (api_endpoint settings) = true ->
  file_bytes w document_path = Ok b ->
  transport w (requests_sent st)
    (build_request settings (payload_of settings b mime_type)) =
    Response None t ->
  exists st',
    parse settings w document_path mime_type st = (Ok tt, st') /\
    text st' = Some (Py.strip t) /\
    requests_sent st' = S (requests_sent st).
Proof.
  intros Hep Hfile Ho.
  assert (Hsent :
    requests_sent
      (add_events st [Log Info ("Starting REST OCR parsing for " ++ document_path)]) =
    requests_sent st).
  { rewrite requests_sent_add. simpl. lia. }
  rewrite <- Hsent in Ho.
  pose proof (make_api_request_terminal settings w document_path mime_type 1
                _ b _ Hep Hfile Ho (or_introl eq_refl)) as Hcall.
  destruct (parse_with_text settings w document_path mime_type st _
              _ t Hcall eq_refl) as [st' [Hparse [Htext Hreqs]]].
  exists st'. split; [exact Hparse|]. split; [exact Htext|].
  rewrite Hreqs, requests_sent_add, Hsent. cbn. lia.
Qed.

Lemma parse_non_json_response_witness :
  exists st',
    parse (Samples.configured 3)
      (Samples.always (Response None "  plain text of the page "))
      Samples.document_path "text/plain" new_parser = (Ok tt, st') /\
    text st' = Some "plain text of the page" /\
    requests_sent st' = 1%nat.
Proof.
  apply (parse_non_json_response (Samples.configured 3)
           (Samples.always (Response None "  plain text of the page "))
           Samples.document_path "text/plain" new_parser "Test document"
           "  plain text of the page "); reflexivity.
Defined.

Lemma extract_text_non_object (v : json) :
  (forall d, v <> JDict d) ->
  exists cls m,
    (cls = "TypeError" \/ cls = "AttributeError") /\
    extract_text_from_response v = Raise (PyExc cls m).
Proof.
  intros Hv. unfold extract_text_from_response.
  destruct v as [| b | n | s | l | d];
    try (eexists; eexists; split; [left; reflexivity | reflexivity]).
  - cbn [py_in bind_result].
    destruct (Py.contains "text" s);
      [eexists; eexists; split; [left; reflexivity | reflexivity]|].
    destruct (Py.contains "content" s);
      [eexists; eexists; split; [left; reflexivity | reflexivity]|].
    destruct (Py.contains "ocr_text" s);
      [eexists; eexists; split; [left; reflexivity | reflexivity]|].
    destruct (Py.contains "result" s);
      eexists; eexists; (split; [|reflexivity]); auto.
  - cbn [py_in bind_result].
    destruct (existsb _ l);
      [eexists; eexists; split; [left; reflexivity | reflexivity]|].
    destruct (existsb _ l);
      [eexists; eexists; split; [left; reflexivity | reflexivity]|].
    destruct (existsb _ l);
      [eexists; eexists; split; [left; reflexivity | reflexivity]|].
    destruct (existsb _ l);
      eexists; eexists; (split; [|reflexivity]); auto.
  - exfalso. now apply (Hv d).
Qed.

(** X8. A JSON body that is not an object (an array, a string, a number,
    a boolean or null) has no text to take: [extract_text_from_response]
    raises a [TypeError] or an [AttributeError], never its own
    [ParseError], and [parse] reports it as an unexpected error with the
    name of that class. *)
Theorem parse_non_object_body
  (settings : RestOcrConfig) (w : world) (document_path mime_type : string)
  (st : parser) (b t : string) (v : json) :
  truthy_str (api_endpoint settings) = true ->
  file_bytes w document_path = Ok b ->
  transport w (requests_sent st)
    (build_request settings (payload_of settings b mime_type)) =
    Response (Some v) t ->
  (forall d, v <> JDict d) ->
  exists cls m,
    (cls = "TypeError" \/ cls = "AttributeError") /\
    extract_text_from_response v = Raise (PyExc cls m) /\
    fst (parse settings w document_path mime_type st) =
      Raise (ParseError
               ("Unexpected error during REST OCR parsing: " ++ cls ++ ": " ++ m)).
Proof.
  intros Hep Hfile Ho Hv.
  destruct (extract_text_non_object v Hv) as [cls [m [Hcls Hext]]].
  exists cls, m. split; [exact Hcls|]. split; [exact Hext|].
  assert (Hsent :
    requests_sent
      (add_events st [Log Info ("Starting REST OCR parsing for " ++ document_path)]) =
    requests_sent st).
  { rewrite requests_sent_add. simpl. lia. }
  rewrite <- Hsent in Ho.
  pose proof (make_api_request_terminal settings w document_path mime_type 1
                _ b _ Hep Hfile Ho (or_introl eq_refl)) as Hcall.
  unfold parse. rewrite after_log.
  unfold parse_body. unfold bind at 1. rewrite Hcall.
  cbn [terminal_result]. unfold bind at 1. unfold lift at 1. rewrite Hext.
  reflexivity.
Qed.

Lemma parse_non_object_body_witness :
  exists cls m,
    (cls = "TypeError" \/ cls = "AttributeError") /\
    extract_text_from_response (JList [JStr "text"]) = Raise (PyExc cls m) /\
    fst (parse (Samples.configured 3)
           (Samples.always (Response (Some (JList [JStr "text"])) EmptyString))
           Samples.document_path "text/plain" new_parser) =
      Raise (ParseError
               ("Unexpected error during REST OCR parsing: " ++ cls ++ ": " ++ m)).
Proof.
  apply (parse_non_object_body (Samples.configured 3)
           (Samples.always (Response (Some (JList [JStr "text"])) EmptyString))
           Samples.document_path "text/plain" new_parser "Test document"
           EmptyString (JList [JStr "text"])).
  - reflexivity.
  - reflexivity.
  - reflexivity.
  - intros d H. discriminate H.
Defined.

(** X26. After a successful [parse] the thumbnail is made from the
    document itself: [parse] leaves no archive file, so [get_thumbnail]
    falls back from [self.archive_path] to the path of the document. *)
Theorem thumbnail_source_after_parse
  (settings : RestOcrConfig) (w : world) (document_path mime_type : string)
  (st : parser) :
  fst (parse settings w document_path mime_type st) = Ok tt ->
  RestOcrPdf.thumbnail_source
    (snd (parse settings w document_path mime_type st)) document_path =
  document_path.
Proof.
  unfold parse. rewrite after_log.
  destruct (parse_body settings w document_path mime_type
              (add_events st [Log Info ("Starting REST OCR parsing for " ++ document_path)]))
    as [r st1] eqn:E.
  pose proof (parse_body_state settings w document_path mime_type st r st1 E)
    as Hbody.
  destruct r as [[]|[m|cls m]]; cbn [fst snd]; intros Hok; try discriminate Hok.
  destruct Hbody as [_ Harchive].
  unfold RestOcrPdf.thumbnail_source. now rewrite Harchive.
Qed.

Lemma thumbnail_source_after_parse_witness :
  RestOcrPdf.thumbnail_source
    (snd (parse (Samples.configured 2) Samples.recovers
            Samples.document_path "text/plain" new_parser))
    Samples.document_path =
  Samples.document_path.
Proof.
  apply (thumbnail_source_after_parse (Samples.configured 2) Samples.recovers
           Samples.document_path "text/plain" new_parser).
  reflexivity.
Defined.

(* ===================================================================== *)
(** * Further properties of the request: message, payload *)
(* ===================================================================== *)

Lemma string_length_app (a b : string) :
  String.length (a ++ b) = (String.length a + String.length b)%nat.
Proof. induction a as [|c a IH]; simpl; [reflexivity | now rewrite IH]. Qed.

Lemma take_prefix (n : nat) (s : string) :
  exists rest, s = Py.take n s ++ rest.
Proof.
  revert s. induction n as [|n IH]; intros s.
  - exists s. reflexivity.
  - destruct s as [|c s]; [now exists EmptyString|].
    destruct (IH s) as [rest Hrest]. exists rest. simpl. now rewrite <- Hrest.
Qed.

Lemma take_length (n : nat) (s : string) :
  (String.length (Py.take n s) <= n)%nat.
Proof.
  revert s. induction n as [|n IH]; intros s; [simpl; lia|].
  destruct s as [|c s]; simpl; [lia|]. specialize (IH s). lia.
Qed.

Lemma take_all (n : nat) (s : string) :
  (String.length s <= n)%nat -> Py.take n s = s.
Proof.
  revert s. induction n as [|n IH]; intros s H.
  - destruct s; [reflexivity | simpl in H; lia].
  - destruct s as [|c s]; [reflexivity|]. simpl in *. rewrite IH; [reflexivity | lia].
Qed.

Lemma take_length_min (n : nat) (s : string) :
  String.length (Py.take n s) = Nat.min n (String.length s).
Proof.
  revert s. induction n as [|n IH]; intros s; [reflexivity|].
  destruct s as [|c s]; simpl; [reflexivity|]. now rewrite IH.
Qed.

(** X10. The message of an HTTP error holds the status code and an
    excerpt of the body of the response: nothing for an empty body, the
    whole body when it has 200 characters at most, and otherwise exactly
    its first 200 characters, the prefix of the body of length 200.  The
    body adds 203 characters to the message at most. *)
Theorem http_error_message_excerpt (status_code : Z) (body : string) :
  exists excerpt rest,
    body = excerpt ++ rest /\
    String.length excerpt = Nat.min 200 (String.length body) /\
    ((String.length body <= 200)%nat -> excerpt = body) /\
    ((200 < String.length body)%nat -> String.length excerpt = 200%nat) /\
    http_error_message status_code body =
      "REST OCR API returned HTTP error: " ++ Py.str_of_int status_code ++
      (if String.eqb body EmptyString then EmptyString else " - " ++ excerpt) /\
    (String.length (http_error_message status_code body) <=
     String.length (http_error_message status_code EmptyString) + 203)%nat.
Proof.
  destruct (take_prefix 200 body) as [rest Hrest].
  exists (Py.take 200 body), rest.
  split; [exact Hrest|]. split; [apply take_length_min|].
  split; [apply take_all|].
  split; [intros Hlong; rewrite take_length_min; lia|].
  change (http_error_message status_code EmptyString)
    with ("REST OCR API returned HTTP error: " ++ Py.str_of_int status_code).
  unfold http_error_message.
  destruct (String.eqb body EmptyString) eqn:E; cbn [negb].
  - split; [|lia]. f_equal.
    generalize (Py.str_of_int status_code) as s.
    induction s as [|c s IH]; simpl; [reflexivity | now rewrite <- IH].
  - split; [now rewrite !string_app_assoc|].
    rewrite !string_length_app.
    pose proof (take_length 200 body). simpl String.length in *. lia.
Qed.

(** ** The payload holds the document *)

Lemma ord_bounds (c : ascii) : (0 <= Py.ord c < 256)%Z.
Proof.
  unfold Py.ord. pose proof (N_ascii_bounded c). lia.
Qed.

Lemma chr_ord (c : ascii) : Py.chr (Py.ord c) = c.
Proof.
  unfold Py.chr, Py.ord. rewrite N2Z.id. apply ascii_N_embedding.
Qed.

Lemma b64_char_checked :
  forallb
    (fun m =>
       match Base64.b64_index (Py.b64_char (Z.of_nat m)) with
       | Some i => (i =? Z.of_nat m)%Z
       | None => false
       end && negb (Base64.is_pad (Py.b64_char (Z.of_nat m))))
    (seq 0 64) = true.
Proof. vm_compute. reflexivity. Qed.

(** The sixty-four characters of the alphabet have their own positions,
    and none is the padding character. *)
Lemma b64_index_char (n : Z) :
  (0 <= n < 64)%Z ->
  Base64.b64_index (Py.b64_char n) = Some n /\
  Base64.is_pad (Py.b64_char n) = false.
Proof.
  intros Hn.
  pose proof b64_char_checked as H. rewrite forallb_forall in H.
  specialize (H (Z.to_nat n)). rewrite Z2Nat.id in H by lia.
  assert (Hin : In (Z.to_nat n) (seq 0 64)) by (apply in_seq; lia).
  apply H in Hin. apply andb_true_iff in Hin. destruct Hin as [Hidx Hpad].
  split.
  - destruct (Base64.b64_index (Py.b64_char n)) as [i|]; [|discriminate].
    apply Z.eqb_eq in Hidx. now subst.
  - now apply negb_true_iff in Hpad.
Qed.

Lemma string_ind3 (P : string -> Prop) :
  P EmptyString ->
  (forall x, P (String x EmptyString)) ->
  (forall x y, P (String x (String y EmptyString))) ->
  (forall x y z r, P r -> P (String x (String y (String z r)))) ->
  forall s, P s.
Proof.
  intros H0 H1 H2 H3.
  assert (H : forall s, P s /\ (forall x, P (String x s)) /\
                        (forall x y, P (String x (String y s)))).
  { induction s as [|c s [IH0 [IH1 IH2]]].
    - repeat split; assumption.
    - split; [apply IH1|]. split; [intros x; apply IH2 | intros x y; now apply H3]. }
  intros s. apply H.
Qed.

(** Decoding the encoding of a sequence of bytes gives the bytes back. *)
Lemma b64decode_b64encode (b : string) :
  Base64.b64decode (Py.b64encode b) = Some b.
Proof.
  induction b as [| x | x y | x y z r IH] using string_ind3.
  - reflexivity.
  - pose proof (ord_bounds x) as Hx.
    cbn [Py.b64encode]. cbv zeta. cbn [Base64.b64decode].
    destruct (b64_index_char (Py.ord x * 65536 / 262144)) as [-> _];
      [Z.to_euclidean_division_equations; lia|].
    destruct (b64_index_char (Py.ord x * 65536 / 4096 mod 64)) as [-> _];
      [Z.to_euclidean_division_equations; lia|].
    change (Base64.is_pad "=") with true. cbv iota.
    replace (Py.ord x * 65536 / 262144 * 4 + Py.ord x * 65536 / 4096 mod 64 / 16)%Z
      with (Py.ord x) by (Z.to_euclidean_division_equations; lia).
    now rewrite chr_ord.
  - pose proof (ord_bounds x) as Hx. pose proof (ord_bounds y) as Hy.
    cbn [Py.b64encode]. cbv zeta. cbn [Base64.b64decode].
    set (n := (Py.ord x * 65536 + Py.ord y * 256)%Z).
    destruct (b64_index_char (n / 262144)) as [-> _];
      [subst n; Z.to_euclidean_division_equations; lia|].
    destruct (b64_index_char (n / 4096 mod 64)) as [-> _];
      [subst n; Z.to_euclidean_division_equations; lia|].
    destruct (b64_index_char (n / 64 mod 64)) as [-> ->];
      [subst n; Z.to_euclidean_division_equations; lia|].
    change (Base64.is_pad "=") with true. cbv iota.
    replace (n / 262144 * 4 + n / 4096 mod 64 / 16)%Z with (Py.ord x)
      by (subst n; Z.to_euclidean_division_equations; lia).
    replace (n / 4096 mod 64 mod 16 * 16 + n / 64 mod 64 / 4)%Z with (Py.ord y)
      by (subst n; Z.to_euclidean_division_equations; lia).
    now rewrite !chr_ord.
  - pose proof (ord_bounds x) as Hx. pose proof (ord_bounds y) as Hy.
    pose proof (ord_bounds z) as Hz.
    cbn [Py.b64encode]. cbv zeta. cbn [Base64.b64decode].
    set (n := (Py.ord x * 65536 + Py.ord y * 256 + Py.ord z)%Z).
    destruct (b64_index_char (n / 262144)) as [-> _];
      [subst n; Z.to_euclidean_division_equations; lia|].
    destruct (b64_index_char (n / 4096 mod 64)) as [-> _];
      [subst n; Z.to_euclidean_division_equations; lia|].
    destruct (b64_index_char (n / 64 mod 64)) as [-> _];
      [subst n; Z.to_euclidean_division_equations; lia|].
    destruct (b64_index_char (n mod 64)) as [-> ->];
      [subst n; Z.to_euclidean_division_equations; lia|].
    rewrite IH.
    replace (n / 262144 * 4 + n / 4096 mod 64 / 16)%Z with (Py.ord x)
      by (subst n; Z.to_euclidean_division_equations; lia).
    replace (n / 4096 mod 64 mod 16 * 16 + n / 64 mod 64 / 4)%Z with (Py.ord y)
      by (subst n; Z.to_euclidean_division_equations; lia).
    replace (n / 64 mod 64 mod 4 * 64 + n mod 64)%Z with (Py.ord z)
      by (subst n; Z.to_euclidean_division_equations; lia).
    now rewrite !chr_ord.
Qed.

(** X11. The payload of [construct_request_payload] holds the document:
    decoding its [document] member gives the bytes of the file back, so
    two documents with the same payload are the same; the MIME type and
    the language are passed on, and the options are empty. *)
Theorem payload_round_trip
  (settings : RestOcrConfig) (document_bytes mime_type : string) :
  exists document_b64,
    payload_of settings document_bytes mime_type =
      JDict [("document", JStr document_b64);
             ("mime_type", JStr mime_type);
             ("language", opt_json (language settings));
             ("options", JDict [])] /\
    Base64.b64decode document_b64 = Some document_bytes /\
    forall other,
      payload_of settings other mime_type =
      payload_of settings document_bytes mime_type ->
      other = document_bytes.
Proof.
  exists (Py.b64encode document_bytes).
  split; [reflexivity|]. split; [apply b64decode_b64encode|].
  intros other H. unfold payload_of in H. injection H as H.
  apply (f_equal Base64.b64decode) in H.
  rewrite !b64decode_b64encode in H. now injection H.
Qed.

(** [test_construct_request_payload] *)
Example payload_of_test_content :
  construct_request_payload (Samples.configured 3)
    {| file_bytes := fun _ => Ok "Test content";
       transport := fun _ _ => Samples.bad_request |}
    "/tmp/test.txt" "text/plain" new_parser =
  (Ok (JDict [("document", JStr "VGVzdCBjb250ZW50");
              ("mime_type", JStr "text/plain");
              ("language", JStr "eng");
              ("options", JDict [])]),
   add_events new_parser [ReadFile "/tmp/test.txt"]) /\
  Base64.b64decode "VGVzdCBjb250ZW50" = Some "Test content".
Proof. split; reflexivity. Qed.

(* ===================================================================== *)
(** * Page count and metadata of the generic REST backend *)
(* ===================================================================== *)

Import RestOcrPdf.

Lemma first_line_split (s : string) :
  exists rest,
    s = first_line s ++ rest /\
    (rest = EmptyString \/ exists r, rest = String newline r) /\
    Py.has_char newline (first_line s) = false.
Proof.
  induction s as [|c s [rest [Hs [Hrest Hno]]]].
  - exists EmptyString. repeat split. now left.
  - simpl. destruct (Ascii.eqb c newline) eqn:E.
    + apply Ascii.eqb_eq in E; subst c.
      exists (String newline s). repeat split. right. now exists s.
    + exists rest. simpl. rewrite E, Hno. repeat split; [now rewrite <- Hs | exact Hrest].
Qed.

Lemma first_line_without_newline (s : string) :
  Py.has_char newline s = false -> first_line s = s.
Proof.
  induction s as [|c s IH]; simpl; [reflexivity|].
  intros H. apply orb_false_iff in H. destruct H as [Hc Hs].
  rewrite Hc. now rewrite IH.
Qed.

Lemma has_char_app (c : ascii) (a b : string) :
  Py.has_char c (a ++ b) = Py.has_char c a || Py.has_char c b.
Proof.
  induction a as [|x a IH]; simpl; [reflexivity|].
  now rewrite IH, orb_assoc.
Qed.

Lemma split_last_sound (c : ascii) (s a b : string) :
  split_last c s = Some (a, b) ->
  s = a ++ String c b /\ Py.has_char c b = false.
Proof.
  revert a b. induction s as [|x s IH]; intros a b H; simpl in H; [discriminate|].
  destruct (split_last c s) as [[a' b']|] eqn:E.
  - injection H as <- <-. destruct (IH a' b' eq_refl) as [-> Hb].
    now split.
  - destruct (Ascii.eqb x c) eqn:Ex; [|discriminate].
    injection H as <- <-. apply Ascii.eqb_eq in Ex; subst x.
    split; [reflexivity|].
    clear IH. induction s as [|y s IH]; simpl in *; [reflexivity|].
    destruct (split_last c s) as [[a' b']|]; [discriminate|].
    destruct (Ascii.eqb y c); [discriminate|]. now apply IH.
Qed.

Lemma split_last_none (c : ascii) (s : string) :
  Py.has_char c s = false -> split_last c s = None.
Proof.
  induction s as [|x s IH]; simpl; [reflexivity|].
  intros H. apply orb_false_iff in H. destruct H as [Hx Hs].
  now rewrite IH, Hx.
Qed.

Lemma split_last_complete (c : ascii) (a b : string) :
  Py.has_char c b = false ->
  split_last c (a ++ String c b) = Some (a, b).
Proof.
  intros Hb. induction a as [|x a IH]; simpl.
  - now rewrite split_last_none, Ascii.eqb_refl.
  - now rewrite IH.
Qed.

(** X12. A key of the form [{namespace}name] is read back as its two
    parts: for a namespace and a name without line feeds, and a name
    without a closing brace, the pattern of [extract_metadata] gives the
    namespace and the name. *)
Theorem namespace_match_round_trip (ns name : string) :
  Py.has_char newline ns = false ->
  Py.has_char newline name = false ->
  Py.has_char "}"%char name = false ->
  namespace_match ("{" ++ ns ++ "}" ++ name) = Some (ns, name).
Proof.
  intros Hns Hname Hbrace.
  change ("{" ++ ns ++ "}" ++ name) with (String "{"%char (ns ++ String "}"%char name)).
  cbn [namespace_match]. rewrite Ascii.eqb_refl.
  rewrite first_line_without_newline.
  - now apply split_last_complete.
  - rewrite has_char_app. simpl. now rewrite Hns, Hname.
Qed.

Lemma namespace_match_round_trip_witness :
  namespace_match "{http://purl.org/dc/elements/1.1/}creator" =
  Some ("http://purl.org/dc/elements/1.1/", "creator").
Proof.
  apply (namespace_match_round_trip "http://purl.org/dc/elements/1.1/" "creator");
    reflexivity.
Defined.

(** X13. What the pattern of [extract_metadata] accepts: a key that
    starts with an opening brace and has a closing brace on its first
    line.  The namespace is what stands between the opening brace and the
    last closing brace of that line, the name is the rest of the line;
    neither has a line feed, and the name has no closing brace. *)
Theorem namespace_match_sound (k ns name : string) :
  namespace_match k = Some (ns, name) ->
  exists rest,
    k = "{" ++ ns ++ "}" ++ name ++ rest /\
    (rest = EmptyString \/ exists r, rest = String newline r) /\
    Py.has_char newline ns = false /\
    Py.has_char newline name = false /\
    Py.has_char "}"%char name = false.
Proof.
  intros H. destruct k as [|c k]; [discriminate|].
  cbn [namespace_match] in H.
  destruct (Ascii.eqb c "{"%char) eqn:Ec; [|discriminate].
  apply Ascii.eqb_eq in Ec; subst c.
  destruct (first_line_split k) as [rest [Hk [Hrest Hno]]].
  apply split_last_sound in H. destruct H as [Hline Hbrace].
  rewrite Hline in Hno. rewrite has_char_app in Hno.
  apply orb_false_iff in Hno. destruct Hno as [Hns Hname].
  simpl in Hname.
  exists rest. split.
  - rewrite Hk, Hline. simpl. f_equal.
    rewrite string_app_assoc. reflexivity.
  - repeat split; assumption.
Qed.

Lemma namespace_match_sound_witness :
  exists rest,
    "{a}b}c" = "{" ++ "a}b" ++ "}" ++ "c" ++ rest /\
    (rest = EmptyString \/ exists r, rest = String newline r) /\
    Py.has_char newline "a}b" = false /\
    Py.has_char newline "c" = false /\
    Py.has_char "}"%char "c" = false.
Proof.
  apply (namespace_match_sound "{a}b}c" "a}b" "c"). reflexivity.
Defined.

Section PdfFacts.
Variable lib : pikepdf.

Lemma read_items_spec (items : list (string * json)) :
  forall (result : list metadata_entry) (st : parser),
    read_items lib items result st =
    (Ok (result ++ flat_map (entry_of lib) items)%list,
     add_events st (flat_map (warning_of_item lib) items)).
Proof.
  induction items as [|[k v] items IH]; intros result st.
  - cbn. now rewrite app_nil_r, add_events_nil.
  - cbn [read_items flat_map]. unfold entry_of at 1, warning_of_item at 1.
    cbn [fst snd].
    destruct (namespace_match k) as [[ns name]|].
    + destruct (dict_get ns (REVERSE_NS lib)) as [p|].
      * rewrite IH. now rewrite <- app_assoc.
      * unfold bind. cbn [log emit]. rewrite IH.
        cbn [app]. f_equal. unfold add_events. cbn. now rewrite <- app_assoc.
    + now rewrite IH.
Qed.

(** X14. [extract_metadata] on a PDF whose metadata can be opened: the
    result has, in the order of the items, one entry for every item
    whose key has the form [{namespace}name] with a namespace that has a
    prefix, with the value of the item as a string; every other item is
    left out, with a warning where the namespace is unknown.  The items
    never make the call raise. *)
Theorem extract_metadata_entries
  (document_path : string) (st : parser) (items : list (string * json)) :
  metadata_items lib document_path = Ok items ->
  extract_metadata lib document_path "application/pdf" st =
    (Ok (flat_map (entry_of lib) items),
     add_events st
       (ReadFile document_path :: flat_map (warning_of_item lib) items)) /\
  (List.length (flat_map (entry_of lib) items) <= List.length items)%nat /\
  forall e,
    In e (flat_map (entry_of lib) items) <->
    exists k v,
      In (k, v) items /\
      namespace_match k = Some (namespace e, key e) /\
      dict_get (namespace e) (REVERSE_NS lib) = Some (prefix e) /\
      value e = metadata_value v.
Proof.
  intros Hitems. split; [|split].
  - unfold extract_metadata. cbn [String.eqb Ascii.eqb Bool.eqb].
    change (String.eqb "application/pdf" "application/pdf") with true. cbv iota.
    unfold bind at 1. cbn [emit].
    unfold bind at 1. unfold lift at 1. rewrite Hitems.
    rewrite read_items_spec. cbn [app].
    f_equal. unfold add_events. cbn. now rewrite <- app_assoc.
  - clear Hitems. induction items as [|[k v] items IH]; cbn [flat_map]; [simpl; lia|].
    rewrite length_app. unfold entry_of at 1. cbn [fst snd List.length].
    destruct (namespace_match k) as [[ns name]|]; [|simpl; lia].
    destruct (dict_get ns (REVERSE_NS lib)); simpl; lia.
  - intros e. rewrite in_flat_map. split.
    + intros [[k v] [Hin He]]. exists k, v. split; [exact Hin|].
      unfold entry_of in He. cbn [fst snd] in He.
      destruct (namespace_match k) as [[ns name]|]; [|destruct He].
      destruct (dict_get ns (REVERSE_NS lib)) as [p|] eqn:Hp; [|destruct He].
      destruct He as [<-|[]]. cbn. now rewrite Hp.
    + intros [k [v [Hin [Hmatch [Hp Hv]]]]]. exists (k, v). split; [exact Hin|].
      unfold entry_of. cbn [fst snd]. rewrite Hmatch, Hp. left.
      destruct e; cbn in *. now subst.
Qed.

End PdfFacts.

Lemma extract_metadata_entries_witness :
  extract_metadata MoreSamples.sample_pdf "/tmp/sample.pdf" "application/pdf"
    new_parser =
  (Ok [{| namespace := "http://purl.org/dc/elements/1.1/"; prefix := "dc";
          key := "creator"; value := "Ann Bob" |}],
   add_events new_parser
     [ReadFile "/tmp/sample.pdf";
      Log Warning
        "Error while reading metadata {urn:unknown}field: x. Error: 'urn:unknown'"]).
Proof.
  apply (extract_metadata_entries MoreSamples.sample_pdf "/tmp/sample.pdf"
           new_parser
           [("{http://purl.org/dc/elements/1.1/}creator",
             JList [JStr "Ann"; JStr "Bob"]);
            ("{urn:unknown}field", JStr "x");
            ("plain", JStr "y")]).
  reflexivity.
Defined.

(** X15. [get_page_count] never raises and sends no request: it gives
    the number of pages of a PDF that the library opens, [None] with a
    warning for a PDF that it cannot open, and [None] without opening the
    file for any other MIME type; [extract_metadata] gives no entry for
    such a type, also without opening the file. *)
Theorem get_page_count_never_raises
  (lib : pikepdf) (document_path mime_type : string) (st : parser) :
  fst (get_page_count lib document_path mime_type st) =
    Ok (if String.eqb mime_type "application/pdf"
        then match page_count lib document_path with
             | Ok n => Some n
             | Raise _ => None
             end
        else None) /\
  requests_sent (snd (get_page_count lib document_path mime_type st)) =
    requests_sent st /\
  (String.eqb mime_type "application/pdf" = false ->
     get_page_count lib document_path mime_type st = (Ok None, st) /\
     extract_metadata lib document_path mime_type st = (Ok [], st)).
Proof.
  unfold get_page_count, extract_metadata.
  destruct (String.eqb mime_type "application/pdf").
  - unfold bind at 1. cbn [emit].
    destruct (page_count lib document_path) as [n|e].
    + repeat split; try discriminate. cbn. unfold requests_sent. cbn.
      rewrite filter_app, length_app. cbn. lia.
    + repeat split; try discriminate. cbn. unfold requests_sent. cbn.
      rewrite !filter_app, !length_app. cbn. lia.
  - repeat split.
Qed.

(* ===================================================================== *)
(** * System checks and registration *)
(* ===================================================================== *)

(** A call of [make_api_request] with a configured endpoint leaves a
    mark in the trace. *)
Lemma run_adds_events
  (settings : RestOcrConfig) (w : world) (document_path mime_type : string)
  (a : Z) (st : parser) res :
  run settings w document_path mime_type a st res ->
  truthy_str (api_endpoint settings) = true ->
  exists e new, snd res = add_events st (e :: new).
Proof.
  induction 1 as [a st Hep | a st e Hep Hfile | a st b o Hep Hfile req Ho Hlast
                 | a st b o res Hep Hfile req Ho Hretry Hlt Hrest IH]; intros Hconf.
  - congruence.
  - now exists (ReadFile document_path), [].
  - eexists; eexists. reflexivity.
  - destruct (IH Hconf) as [e [new Hst]].
    eexists; eexists. rewrite Hst, add_events_app. reflexivity.
Qed.

(** X16. The system check and the parser agree on the endpoint: where
    the REST backend is selected and the configuration of the parser has
    the endpoint of the settings, the check reports the error [E001]
    exactly when [make_api_request] would raise its configuration error
    before doing anything. *)
Theorem rest_ocr_check_matches_parser
  (settings : RestOcrApp.django_settings) (config : RestOcrConfig)
  (w : world) (document_path mime_type : string) (a : Z) (st : parser) :
  RestOcrApp.OCR_BACKEND settings = Some "rest_api" ->
  api_endpoint config = RestOcrApp.REST_OCR_ENDPOINT settings ->
  In RestOcrApp.E001 (RestOcrApp.rest_ocr_config_check settings) <->
  make_api_request config w document_path mime_type a st =
    (Raise (ParseError endpoint_missing_message), st).
Proof.
  intros Hbackend Hendpoint.
  unfold RestOcrApp.rest_ocr_config_check, RestOcrApp.backend_is_not_rest_api.
  rewrite Hbackend. cbn [String.eqb Ascii.eqb Bool.eqb negb orb app].
  change (String.eqb "rest_api" "rest_api") with true. cbn [negb orb].
  rewrite <- Hendpoint.
  destruct (truthy_str (api_endpoint config)) eqn:Hep; cbn [negb app].
  - split.
    + intros Hin. exfalso.
      destruct (negb (truthy_str (RestOcrApp.REST_OCR_API_KEY settings)) &&
                negb (truthy_str (RestOcrApp.REST_OCR_AUTH_TOKEN settings)));
        destruct (negb (RestOcrApp.REST_OCR_VERIFY_SSL settings));
        cbn in Hin; intuition discriminate.
    + intros Hcall. exfalso.
      destruct (run_adds_events config w document_path mime_type a st _
                  (make_api_request_run config w document_path mime_type a st) Hep)
        as [e [new Hst]].
      rewrite Hcall in Hst. cbn [snd] in Hst.
      apply (f_equal trace) in Hst. cbn [add_events trace] in Hst.
      rewrite <- (app_nil_r (trace st)) in Hst at 1.
      apply app_inv_head in Hst. discriminate Hst.
  - split.
    + intros _. rewrite make_api_request_equation_1, Hep. reflexivity.
    + intros _. now left.
Qed.

Lemma rest_ocr_check_matches_parser_witness :
  In RestOcrApp.E001
    (RestOcrApp.rest_ocr_config_check
       (MoreSamples.rest_api_settings (Some EmptyString))) <->
  make_api_request Samples.unconfigured (Samples.always Samples.bad_request)
    Samples.document_path "text/plain" 1 new_parser =
    (Raise (ParseError endpoint_missing_message), new_parser).
Proof.
  apply (rest_ocr_check_matches_parser
           (MoreSamples.rest_api_settings (Some EmptyString))
           Samples.unconfigured (Samples.always Samples.bad_request)
           Samples.document_path "text/plain" 1 new_parser);
    reflexivity.
Defined.

(** X17. The check and the registration of the parser select the REST
    backend in the same cases, though the one tests [hasattr] and the
    other reads [getattr] with a default: the parser is declared exactly
    when [OCR_BACKEND] is [rest_api]; where it is not declared the check
    reports nothing; and the check reports one error at most, before its
    warnings. *)
Theorem rest_ocr_check_follows_registration
  (settings : RestOcrApp.django_settings) :
  (RestOcrApp.rest_ocr_consumer_declaration settings <> None <->
   RestOcrApp.OCR_BACKEND settings = Some "rest_api") /\
  (RestOcrApp.rest_ocr_consumer_declaration settings = None ->
   RestOcrApp.rest_ocr_config_check settings = []) /\
  exists errors warnings,
    RestOcrApp.rest_ocr_config_check settings = (errors ++ warnings)%list /\
    (List.length errors <= 1)%nat /\
    forallb is_check_error errors = true /\
    forallb (fun m => negb (is_check_error m)) warnings = true.
Proof.
  unfold RestOcrApp.rest_ocr_consumer_declaration,
    RestOcrApp.rest_ocr_config_check, RestOcrApp.backend_is_not_rest_api.
  destruct (RestOcrApp.OCR_BACKEND settings) as [b|].
  - destruct (String.eqb b "rest_api") eqn:E; cbn [negb orb].
    + apply String.eqb_eq in E; subst b.
      split; [split; [reflexivity | discriminate]|].
      split; [discriminate|].
      destruct (negb (truthy_str (RestOcrApp.REST_OCR_ENDPOINT settings)));
        destruct (negb (truthy_str (RestOcrApp.REST_OCR_API_KEY settings)) &&
                  negb (truthy_str (RestOcrApp.REST_OCR_AUTH_TOKEN settings)));
        destruct (negb (RestOcrApp.REST_OCR_VERIFY_SSL settings));
        eexists; eexists; (split; [reflexivity|]); cbn; repeat split; lia.
    + apply String.eqb_neq in E.
      split; [split; [intros H; now elim H | intros H; injection H as ->; now elim E]|].
      split; [reflexivity|].
      exists [], []. repeat split. cbn. lia.
  - cbn [negb orb String.eqb].
    change (String.eqb "tesseract" "rest_api") with false. cbn [negb].
    split; [split; [intros H; now elim H | discriminate]|].
    split; [reflexivity|].
    exists [], []. repeat split. cbn. lia.
Qed.

(** X18. The system check of the provider backends and the validity
    test of the parser agree: the parser is valid exactly when an engine
    is set and the check reports nothing.  With no engine the check
    reports nothing and the parser is disabled; the check never reports
    more than one error. *)
Theorem remote_check_matches_validity (settings : RemoteApp.django_settings) :
  (Remote.engine_is_valid (RemoteApp.get_settings settings) = true <->
   truthy_str (RemoteApp.REMOTE_OCR_ENGINE settings) = true /\
   RemoteApp.check_remote_parser_configured settings = []) /\
  (truthy_str (RemoteApp.REMOTE_OCR_ENGINE settings) = false ->
   RemoteApp.check_remote_parser_configured settings = [] /\
   Remote.engine_is_valid (RemoteApp.get_settings settings) = false) /\
  (List.length (RemoteApp.check_remote_parser_configured settings) <= 1)%nat /\
  forallb is_check_error (RemoteApp.check_remote_parser_configured settings) = true.
Proof.
  unfold Remote.engine_is_valid, RemoteApp.get_settings,
    RemoteApp.check_remote_parser_configured, RemoteApp.engine_equals.
  cbn [Remote.engine Remote.api_key Remote.endpoint existsb].
  destruct (RemoteApp.REMOTE_OCR_ENGINE settings) as [e|]; cbn [truthy_str fmt_str].
  - destruct (String.eqb e "azureai") eqn:Ea;
      destruct (String.eqb e "ocrbridge-ocrmac") eqn:Eb;
      destruct (String.eqb e EmptyString) eqn:Ee;
      try (apply String.eqb_eq in Ea; subst e; discriminate);
      try (apply String.eqb_eq in Eb; subst e; discriminate);
      destruct (truthy_str (RemoteApp.REMOTE_OCR_ENDPOINT settings));
      destruct (truthy_str (RemoteApp.REMOTE_OCR_API_KEY settings));
      cbn; repeat split; try discriminate; try lia;
      try (intros [H1 H2]; discriminate).
  - cbn. repeat split; try discriminate; try lia.
Qed.

(** X19. [supported_mime_types] is the gate of the parser: it is empty
    exactly for an invalid configuration, and then [parse] reaches the
    network with no call; for a valid configuration it names PDF and six
    image types, each once. *)
Theorem supported_mime_types_gate
  (settings : Remote.RemoteEngineConfig) (w : Remote.world)
  (tempdir document_path mime_type : string) (st : Remote.parser) :
  (RemoteApp.supported_mime_types settings = [] <->
   Remote.engine_is_valid settings = false) /\
  (RemoteApp.supported_mime_types settings = [] ->
   filter Remote.is_network
     (Remote.trace (snd (Remote.parse settings w tempdir document_path mime_type st))) =
   filter Remote.is_network (Remote.trace st)) /\
  dict_wf (RemoteApp.supported_mime_types settings) /\
  (Remote.engine_is_valid settings = true ->
   dict_get "application/pdf" (RemoteApp.supported_mime_types settings) = Some ".pdf" /\
   List.length (RemoteApp.supported_mime_types settings) = 7%nat).
Proof.
  unfold RemoteApp.supported_mime_types, Remote.parse.
  destruct (Remote.engine_is_valid settings).
  - split; [split; discriminate|]. split; [discriminate|].
    split; [|intros _; split; reflexivity].
    unfold dict_wf. cbn. repeat constructor; cbn; intuition discriminate.
  - split; [split; reflexivity|]. split.
    + intros _. cbn. rewrite filter_app. cbn. now rewrite app_nil_r.
    + split; [constructor | discriminate].
Qed.

(* ===================================================================== *)
(** * Further properties of the provider backends *)
(* ===================================================================== *)

Import RemoteTrace.

Ltac bridge_unfold :=
  cbv [Remote.ocrbridge_ocrmac_request
       Remote.bind Remote.lift Remote.emit Remote.log Remote.raise Remote.ret
       Remote.set_archive_path Remote.after].

Ltac bridge_leaf :=
  cbv beta iota zeta; cbn [fst snd Remote.trace];
  split; [eauto|];
  rewrite <- ?app_assoc; eexists; (split; [reflexivity|]); reflexivity.

(** X20. What leaves [ocrbridge_ocrmac_parse].  With an endpoint that is
    a string, the call returns a text or raises a [ParseError], whatever
    fails inside its [try], and it calls [client.post] once when the
    document can be read and not at all otherwise: the bridge backend does
    not retry.  With the endpoint [None] the first statement, which is
    outside the [try], raises an [AttributeError]: it leaves the call as it
    is, and the parser is untouched, with nothing opened, sent or
    logged. *)
Theorem ocrbridge_ocrmac_parse_outcomes
  (settings : Remote.RemoteEngineConfig) (w : Remote.world)
  (tempdir file mime_type : string) (st : Remote.parser) :
  match Remote.endpoint settings with
  | None =>
      Remote.ocrbridge_ocrmac_parse settings w tempdir file mime_type st =
        (Raise (PyExc "AttributeError"
                  "'NoneType' object has no attribute 'rstrip'"), st)
  | Some _ =>
      ((exists t,
          fst (Remote.ocrbridge_ocrmac_parse settings w tempdir file mime_type st) =
          Ok t) \/
       (exists msg,
          fst (Remote.ocrbridge_ocrmac_parse settings w tempdir file mime_type st) =
          Raise (ParseError msg))) /\
      exists new,
        Remote.trace
          (snd (Remote.ocrbridge_ocrmac_parse settings w tempdir file mime_type st)) =
          (Remote.trace st ++ new)%list /\
        List.length (filter Remote.is_network new) =
          match Remote.file_bytes w file with
          | Ok _ => 1%nat
          | Raise _ => 0%nat
          end
  end.
Proof.
  unfold Remote.ocrbridge_ocrmac_parse, Remote.request_url.
  destruct (Remote.endpoint settings) as [e|]; [|reflexivity].
  bridge_unfold.
  destruct (Remote.file_bytes w file) as [document|[m|cls m]];
    cbv beta iota zeta; [|bridge_leaf|bridge_leaf].
  destruct (Remote.httpx_post w
              (Remote.build_request settings w file mime_type document))
    as [cls m|status_code payload|header content];
    [bridge_leaf|bridge_leaf|].
  destruct (Py.contains "application/pdf"
              (Py.lower match header with Some h => h | None => EmptyString end));
    cbn [negb]; [|bridge_leaf].
  destruct (Remote.write_bytes w (tempdir ++ "/archive.pdf") content)
    as [[]|[m|cls m]]; [|bridge_leaf|bridge_leaf].
  destruct (Remote.extract_text w content) as [[t|]|[m|cls m]]; bridge_leaf.
Qed.

Lemma startswith_app (p s : string) : Py.startswith p (p ++ s) = true.
Proof. apply startswith_prefix. now exists s. Qed.

Lemma string_app_nil_r (s : string) : s ++ EmptyString = s.
Proof. induction s as [|c s IH]; simpl; [reflexivity | now rewrite IH]. Qed.

(** X21. A response that the bridge server sends with an error status
    becomes a [ParseError] whose message starts with the status code; the
    detail and the error code are taken from a JSON object only.  The
    error is logged, and nothing is written: the archive path and the text
    of the parser stay as they were.  This is the call with an endpoint
    that is a string; with the endpoint [None] the [AttributeError] of the
    first statement leaves the call, and the parser is untouched. *)
Theorem ocrbridge_ocrmac_parse_status_error
  (settings : Remote.RemoteEngineConfig) (w : Remote.world)
  (tempdir file mime_type : string) (st : Remote.parser)
  (document : string) (status_code : Z) (payload : option json) :
  Remote.file_bytes w file = Ok document ->
  Remote.httpx_post w (Remote.build_request settings w file mime_type document) =
    Remote.StatusError status_code payload ->
  Remote.ocrbridge_ocrmac_parse settings w tempdir file mime_type st =
    match Remote.endpoint settings with
    | None => (Raise Remote.endpoint_error, st)
    | Some _ =>
        (Raise (ParseError (Remote.status_error_message status_code payload)),
         {| Remote.trace :=
              (Remote.trace st ++
               [Remote.OpenFile file;
                Remote.HttpxPost
                  (Remote.build_request settings w file mime_type document);
                Remote.Log Error
                  (Remote.status_error_message status_code payload)])%list;
            Remote.text := Remote.text st;
            Remote.archive_path := Remote.archive_path st |})
    end /\
  Py.startswith
    ("OCRBridge OCRMac parsing failed: HTTP " ++ Py.str_of_int status_code)
    (Remote.status_error_message status_code payload) = true /\
  ((forall d, payload <> Some (JDict d)) ->
   Remote.status_error_message status_code payload =
   "OCRBridge OCRMac parsing failed: HTTP " ++ Py.str_of_int status_code).
Proof.
  intros Hfile Hpost. split; [|split].
  - unfold Remote.ocrbridge_ocrmac_parse, Remote.request_url.
    destruct (Remote.endpoint settings) as [e|]; [|reflexivity].
    unfold Remote.ocrbridge_ocrmac_request.
    unfold Remote.bind at 1. cbn [Remote.emit].
    unfold Remote.bind at 1. unfold Remote.lift at 1. rewrite Hfile.
    unfold Remote.bind at 1. cbn [Remote.emit]. rewrite Hpost. cbv zeta.
    cbn. now rewrite <- !app_assoc.
  - unfold Remote.status_error_message. cbv zeta.
    set (base := "OCRBridge OCRMac parsing failed: HTTP " ++ Py.str_of_int status_code).
    destruct (truthy _); destruct (truthy _);
      rewrite ?string_app_assoc; try apply startswith_app.
    apply startswith_prefix. exists EmptyString. now rewrite string_app_nil_r.
  - intros Hpayload. unfold Remote.status_error_message.
    destruct payload as [[| | | | |d]|]; try reflexivity.
    exfalso. now apply (Hpayload d).
Qed.

Lemma ocrbridge_ocrmac_parse_status_error_witness :
  fst (Remote.ocrbridge_ocrmac_parse Samples.bridge_engine MoreSamples.bridge_rejects
         Samples.tempdir Samples.pdf_path "application/pdf" Remote.new_parser) =
  Raise (ParseError
           ("OCRBridge OCRMac parsing failed: HTTP 400 - " ++
            "Invalid request - unsupported file format " ++
            "(error_code: UNSUPPORTED_FILE_FORMAT)")).
Proof.
  destruct (ocrbridge_ocrmac_parse_status_error Samples.bridge_engine
              MoreSamples.bridge_rejects Samples.tempdir Samples.pdf_path
              "application/pdf" Remote.new_parser "%PDF-1.7 document" 400
              (Some (JDict [("detail", JStr "Invalid request - unsupported file format");
                            ("error_code", JStr "UNSUPPORTED_FILE_FORMAT")]))
              eq_refl eq_refl) as [Hcall _].
  rewrite Hcall. reflexivity.
Defined.

(** X22. A response of another content type is refused before anything
    is written: the error is logged, no file is written, and the archive
    path and the text of the parser stay as they were.  This is the call
    with an endpoint that is a string; with the endpoint [None] the
    [AttributeError] of the first statement leaves the call, and the parser
    is untouched. *)
Theorem ocrbridge_ocrmac_parse_refuses_before_writing
  (settings : Remote.RemoteEngineConfig) (w : Remote.world)
  (tempdir file mime_type : string) (st : Remote.parser)
  (document : string) (header : option string) (content : string) :
  Remote.file_bytes w file = Ok document ->
  Remote.httpx_post w (Remote.build_request settings w file mime_type document) =
    Remote.Accepted header content ->
  Py.contains "application/pdf"
    (Py.lower (match header with Some h => h | None => EmptyString end)) = false ->
  match Remote.endpoint settings with
  | None =>
      Remote.ocrbridge_ocrmac_parse settings w tempdir file mime_type st =
        (Raise Remote.endpoint_error, st)
  | Some _ =>
      exists msg new,
        Remote.ocrbridge_ocrmac_parse settings w tempdir file mime_type st =
          (Raise (ParseError msg),
           {| Remote.trace := (Remote.trace st ++ new)%list;
              Remote.text := Remote.text st;
              Remote.archive_path := Remote.archive_path st |}) /\
        filter is_write new = [] /\
        existsb is_error_log new = true
  end.
Proof.
  intros Hfile Hpost Hct.
  unfold Remote.ocrbridge_ocrmac_parse, Remote.request_url.
  destruct (Remote.endpoint settings) as [e|]; [|reflexivity].
  unfold Remote.ocrbridge_ocrmac_request.
  unfold Remote.bind at 1. cbn [Remote.emit].
  unfold Remote.bind at 1. unfold Remote.lift at 1. rewrite Hfile.
  unfold Remote.bind at 1. cbn [Remote.emit]. rewrite Hpost. cbv zeta.
  rewrite Hct. cbn [negb].
  eexists; eexists. split.
  - cbn. rewrite <- !app_assoc. reflexivity.
  - split; reflexivity.
Qed.

Lemma ocrbridge_ocrmac_parse_refuses_before_writing_witness :
  exists msg new,
    Remote.ocrbridge_ocrmac_parse Samples.bridge_engine
      (Samples.bridge_world (Some "application/json") None)
      Samples.tempdir Samples.pdf_path "application/pdf" Remote.new_parser =
      (Raise (ParseError msg),
       {| Remote.trace := (Remote.trace Remote.new_parser ++ new)%list;
          Remote.text := Remote.text Remote.new_parser;
          Remote.archive_path := Remote.archive_path Remote.new_parser |}) /\
    filter is_write new = [] /\
    existsb is_error_log new = true.
Proof.
  exact (ocrbridge_ocrmac_parse_refuses_before_writing Samples.bridge_engine
           (Samples.bridge_world (Some "application/json") None)
           Samples.tempdir Samples.pdf_path "application/pdf" Remote.new_parser
           "%PDF-1.7 document" (Some "application/json") "%PDF-1.7 FAKEPDF"
           eq_refl eq_refl eq_refl).
Defined.

(** X23. A PDF response of the bridge server: [parse] stores the text
    that is extracted from it, the response content is what is written to
    [archive.pdf] in the temporary directory, and that file is the
    archive of the parser. *)
Theorem parse_bridge_pdf_response
  (settings : Remote.RemoteEngineConfig) (w : Remote.world)
  (tempdir file mime_type : string) (st : Remote.parser)
  (document : string) (header : option string) (content t : string) :
  Remote.engine settings = Some "ocrbridge-ocrmac" ->
  Remote.engine_is_valid settings = true ->
  Remote.file_bytes w file = Ok document ->
  Remote.httpx_post w (Remote.build_request settings w file mime_type document) =
    Remote.Accepted header content ->
  Py.contains "application/pdf"
    (Py.lower (match header with Some h => h | None => EmptyString end)) = true ->
  Remote.write_bytes w (tempdir ++ "/archive.pdf") content = Ok tt ->
  Remote.extract_text w content = Ok (Some t) ->
  Remote.parse settings w tempdir file mime_type st =
    (Ok tt,
     {| Remote.trace :=
          (Remote.trace st ++
           [Remote.OpenFile file;
            Remote.HttpxPost (Remote.build_request settings w file mime_type document);
            Remote.WriteBytes (tempdir ++ "/archive.pdf") content;
            Remote.ExtractText (tempdir ++ "/sidecar.txt") (tempdir ++ "/archive.pdf")])%list;
        Remote.text := Some t;
        Remote.archive_path := Some (tempdir ++ "/archive.pdf") |}).
Proof.
  intros Hengine Hvalid Hfile Hpost Hct Hwrite Hextract.
  assert (Hendpoint : exists e, Remote.endpoint settings = Some e).
  { unfold Remote.engine_is_valid in Hvalid.
    destruct (Remote.endpoint settings) as [e|]; [now exists e|].
    cbn [truthy_str] in Hvalid. rewrite andb_false_r in Hvalid. discriminate. }
  destruct Hendpoint as [e Hendpoint].
  unfold Remote.parse, Remote.engine_is. rewrite Hvalid, Hengine. cbn [negb].
  change (String.eqb "ocrbridge-ocrmac" "azureai") with false.
  change (String.eqb "ocrbridge-ocrmac" "ocrbridge-ocrmac") with true.
  cbv iota. unfold Remote.bind at 1.
  unfold Remote.ocrbridge_ocrmac_parse, Remote.request_url.
  rewrite Hendpoint.
  unfold Remote.ocrbridge_ocrmac_request.
  unfold Remote.bind at 1. cbn [Remote.emit].
  unfold Remote.bind at 1. unfold Remote.lift at 1. rewrite Hfile.
  unfold Remote.bind at 1. cbn [Remote.emit]. rewrite Hpost. cbv zeta.
  rewrite Hct. cbn [negb].
  unfold Remote.bind at 1. cbn [Remote.set_archive_path].
  unfold Remote.bind at 1. cbn [Remote.emit].
  unfold Remote.bind at 1. unfold Remote.lift at 1. rewrite Hwrite.
  unfold Remote.bind at 1. cbn [Remote.emit].
  unfold Remote.bind at 1. unfold Remote.lift at 1. rewrite Hextract.
  cbn. now rewrite <- !app_assoc.
Qed.

Lemma parse_bridge_pdf_response_witness :
  Remote.text
    (snd (Remote.parse Samples.bridge_engine
            (Samples.bridge_world (Some "Application/PDF; charset=binary")
               (Some "This is OCRBridge text."))
            Samples.tempdir Samples.pdf_path "application/pdf" Remote.new_parser)) =
  Some "This is OCRBridge text.".
Proof.
  rewrite (parse_bridge_pdf_response Samples.bridge_engine
             (Samples.bridge_world (Some "Application/PDF; charset=binary")
                (Some "This is OCRBridge text."))
             Samples.tempdir Samples.pdf_path "application/pdf" Remote.new_parser
             "%PDF-1.7 document" (Some "Application/PDF; charset=binary")
             "%PDF-1.7 FAKEPDF" "This is OCRBridge text."
             eq_refl eq_refl eq_refl eq_refl eq_refl eq_refl eq_refl).
  reflexivity.
Defined.

Ltac azure_leaf :=
  cbv beta iota zeta; eexists; eexists;
  cbn [fst snd Remote.trace Remote.text];
  split; [reflexivity|];
  split; [rewrite <- ?app_assoc; cbn [app]; reflexivity|];
  split; [reflexivity|];
  split; [reflexivity|];
  split; [reflexivity|];
  split; intros; easy.

Lemma azure_ai_vision_parse_closes
  (settings : Remote.RemoteEngineConfig) (w : Remote.world)
  (tempdir file : string) (st : Remote.parser) :
  exists r new,
    fst (Remote.azure_ai_vision_parse settings w tempdir file st) = Ok r /\
    Remote.trace (snd (Remote.azure_ai_vision_parse settings w tempdir file st)) =
      (Remote.trace st ++ new)%list /\
    Remote.text (snd (Remote.azure_ai_vision_parse settings w tempdir file st)) =
      Remote.text st /\
    List.last new (Remote.Log Error EmptyString) = Remote.AzureClose /\
    List.length (filter is_close new) = 1%nat /\
    (r = None <-> existsb is_error_log new = true).
Proof.
  cbv [Remote.azure_ai_vision_parse Remote.azure_ai_vision_request
       Remote.bind Remote.lift Remote.emit Remote.log Remote.raise Remote.ret
       Remote.set_archive_path Remote.after].
  destruct (Remote.file_bytes w file) as [document|e];
    cbv beta iota zeta; [|azure_leaf].
  destruct (Remote.azure_analyze w document) as [[result_id content]|e];
    cbv beta iota zeta; cbn [fst snd]; [|azure_leaf].
  destruct (Remote.open_for_writing w (tempdir ++ "/archive.pdf")) as [[]|e];
    cbv beta iota zeta; [|azure_leaf].
  destruct (Remote.azure_result_pdf w result_id) as [pdf|e];
    cbv beta iota zeta; [|azure_leaf].
  destruct (Remote.write_bytes w (tempdir ++ "/archive.pdf") pdf) as [[]|e];
    azure_leaf.
Qed.

(** X24. With the [azureai] engine [parse] never raises, once the client
    of the service is constructed: every failure of the analysis, of the
    download of the searchable PDF or of the file system is logged as one
    error and leaves the text [None]; the client is closed once, as the
    last step, on every path. *)
Theorem parse_azure_never_raises
  (settings : Remote.RemoteEngineConfig) (w : Remote.world)
  (tempdir document_path mime_type : string) (st : Remote.parser) :
  Remote.engine settings = Some "azureai" ->
  Remote.engine_is_valid settings = true ->
  exists new,
    fst (Remote.parse settings w tempdir document_path mime_type st) = Ok tt /\
    Remote.trace (snd (Remote.parse settings w tempdir document_path mime_type st)) =
      (Remote.trace st ++ new)%list /\
    List.last new (Remote.Log Error EmptyString) = Remote.AzureClose /\
    List.length (filter is_close new) = 1%nat /\
    (Remote.text (snd (Remote.parse settings w tempdir document_path mime_type st)) =
       None <->
     existsb is_error_log new = true).
Proof.
  intros Hengine Hvalid.
  destruct (azure_ai_vision_parse_closes settings w tempdir document_path st)
    as [r [new [Hres [Htrace [_ [Hlast [Hclose Hnone]]]]]]].
  exists new.
  unfold Remote.parse, Remote.engine_is. rewrite Hvalid, Hengine. cbn [negb].
  change (String.eqb "azureai" "azureai") with true. cbv iota.
  unfold Remote.bind.
  destruct (Remote.azure_ai_vision_parse settings w tempdir document_path st)
    as [[r'|e] st1]; cbn [fst snd] in *; [|discriminate].
  injection Hres as ->.
  cbn [Remote.set_text fst snd Remote.trace Remote.text].
  repeat split; try assumption; apply Hnone.
Qed.

Lemma parse_azure_never_raises_witness :
  exists new,
    fst (Remote.parse Samples.azure_engine MoreSamples.azure_world
           Samples.tempdir Samples.pdf_path "application/pdf" Remote.new_parser) =
      Ok tt /\
    Remote.trace
      (snd (Remote.parse Samples.azure_engine MoreSamples.azure_world
              Samples.tempdir Samples.pdf_path "application/pdf" Remote.new_parser)) =
      (Remote.trace Remote.new_parser ++ new)%list /\
    List.last new (Remote.Log Error EmptyString) = Remote.AzureClose /\
    List.length (filter is_close new) = 1%nat /\
    (Remote.text
       (snd (Remote.parse Samples.azure_engine MoreSamples.azure_world
               Samples.tempdir Samples.pdf_path "application/pdf" Remote.new_parser)) =
       None <->
     existsb is_error_log new = true).
Proof.
  apply (parse_azure_never_raises Samples.azure_engine MoreSamples.azure_world
           Samples.tempdir Samples.pdf_path "application/pdf" Remote.new_parser);
    reflexivity.
Defined.

Lemma rstrip_char_app_one (c : ascii) (s : string) :
  Py.rstrip_char c (s ++ String c EmptyString) = Py.rstrip_char c s.
Proof.
  induction s as [|x s IH]; simpl.
  - now rewrite Ascii.eqb_refl.
  - now rewrite IH.
Qed.

Lemma rstrip_char_slashes (e : string) (n : nat) :
  Py.rstrip_char "/"%char (e ++ slashes n) = Py.rstrip_char "/"%char e.
Proof.
  revert e. induction n as [|n IH]; intros e; cbn [slashes].
  - now rewrite string_app_nil_r.
  - change (String "/"%char (slashes n)) with ("/" ++ slashes n).
    rewrite <- string_app_assoc, IH. apply rstrip_char_app_one.
Qed.

(** X25. Slashes at the end of the configured endpoint do not matter to
    the bridge backend: the request goes to the endpoint without them,
    followed by [/v2/ocr/ocrmac/process], and is the same request however
    many slashes the endpoint ends with. *)
Theorem bridge_request_ignores_trailing_slashes
  (engine key : option string) (e : string) (n : nat)
  (w : Remote.world) (file mime_type document : string) :
  Remote.build_request
    {| Remote.engine := engine; Remote.api_key := key;
       Remote.endpoint := Some (e ++ slashes n) |} w file mime_type document =
  Remote.build_request
    {| Remote.engine := engine; Remote.api_key := key;
       Remote.endpoint := Some e |} w file mime_type document /\
  Remote.url
    (Remote.build_request
       {| Remote.engine := engine; Remote.api_key := key;
          Remote.endpoint := Some (e ++ slashes n) |} w file mime_type document) =
  Py.rstrip_char "/"%char e ++ "/v2/ocr/ocrmac/process".
Proof.
  unfold Remote.build_request, Remote.request_url.
  cbn [Remote.endpoint Remote.api_key Remote.url].
  now rewrite rstrip_char_slashes.
Qed.

Example bridge_url_with_slashes :
  Remote.url
    (Remote.build_request
       {| Remote.engine := Some "ocrbridge-ocrmac"; Remote.api_key := Some "k";
          Remote.endpoint := Some "https://ocrbridge.example//" |}
       (Samples.bridge_world None None) Samples.pdf_path "application/pdf"
       "%PDF") =
  "https://ocrbridge.example/v2/ocr/ocrmac/process".
Proof. reflexivity. Qed.

(** The archive file is opened before the searchable PDF is requested:
    when it cannot be opened, no request for the PDF is made, the error is
    logged and the client is closed. *)
Example azure_archive_cannot_be_opened :
  let st := snd (Remote.parse Samples.azure_engine MoreSamples.azure_read_only
                   Samples.tempdir Samples.pdf_path "application/pdf"
                   Remote.new_parser) in
  Remote.text st = None /\
  Remote.trace st =
    [Remote.OpenFile Samples.pdf_path;
     Remote.AzureAnalyze "https://endpoint.cognitiveservices.azure.com"
       "somekey" "%PDF-1.7 document";
     Remote.OpenForWriting "/tmp/paperless/archive.pdf";
     Remote.Log Error
       "Azure AI Vision parsing failed: [Errno 13] Permission denied";
     Remote.AzureClose]%list.
Proof. split; reflexivity. Qed.

(** Without an endpoint the call of the bridge backend raises before its
    [try]: nothing is opened or sent, and nothing is logged. *)
Example bridge_call_without_endpoint :
  Remote.ocrbridge_ocrmac_parse MoreSamples.bridge_without_endpoint
    (Samples.bridge_world (Some "application/pdf") (Some "text"))
    Samples.tempdir Samples.pdf_path "application/pdf" Remote.new_parser =
  (Raise (PyExc "AttributeError" "'NoneType' object has no attribute 'rstrip'"),
   Remote.new_parser).
Proof. reflexivity. Qed.
